(** * Profitability calculator: the financial scenario projection engine

    A shallow embedding of the calculation code of the repository
    (the [/api/analysis] handler of [server/routes.ts], the client-side
    preview functions [calculateFinancialMetrics],
    [generateMonthlyProjections] and [generateCostBreakdown], the
    transformation functions of the shared schema and the update paths of
    [server/storage.ts]), together with the properties of the written
    specification that hold of it.

    JavaScript numbers are IEEE 754 binary64 values; they are modelled by
    the Standard Library's executable specification of binary floating
    point ([SpecFloat]), instantiated at precision 53 and exponent bound
    1024, so that every arithmetic step rounds as the program's does.
    JavaScript objects are finite maps from property names to values. *)

From Stdlib Require Import ZArith NArith String Ascii List Bool Lia.
From Stdlib Require Import Floats.SpecFloat DecimalString.
From stdpp Require Import base option gmap strings list fin_maps.

Local Open Scope Z_scope.

(** ** JavaScript numbers *)

Module JsNum.

Definition number : Type := spec_float.

Definition prec : Z := 53.
Definition emax : Z := 1024.

Definition nan : number := S754_nan.
Definition zero : number := S754_zero false.
Definition infinity (neg : bool) : number := S754_infinity neg.

Definition add : number -> number -> number := SFadd prec emax.
Definition sub : number -> number -> number := SFsub prec emax.
Definition mul : number -> number -> number := SFmul prec emax.
Definition div : number -> number -> number := SFdiv prec emax.
Definition opp : number -> number := SFopp.

(** The comparisons [x < y] and [x <= y]; both are false as soon as one
    side is NaN. *)
Definition ltb : number -> number -> bool := SFltb.
Definition leb : number -> number -> bool := SFleb.

Definition is_nan (x : number) : bool :=
  match x with S754_nan => true | _ => false end.

Definition is_finite (x : number) : bool :=
  match x with S754_zero _ | S754_finite _ _ _ => true | _ => false end.

(** The sign bit: set for negative numbers, for -Infinity and for -0. *)
Definition sign_bit (x : number) : bool :=
  match x with
  | S754_zero s | S754_infinity s | S754_finite s _ _ => s
  | S754_nan => false
  end.

(** The number nearest to an integer (ties to even). *)
Definition of_Z (z : Z) : number := binary_normalize prec emax z 0 false.

Definition of_nat (n : nat) : number := of_Z (Z.of_nat n).

(** The number nearest to the fraction [p / q], with the given sign. *)
Definition of_ratio (neg : bool) (p q : positive) : number :=
  let '(m, e, l) := SFdiv_core_binary prec emax (Zpos p) 0 (Zpos q) 0 in
  binary_round_aux prec emax neg m e l.

(** The number nearest to [m * 10 ^ e], which is the value of a decimal
    literal with digits [m] and exponent [e]. *)
Definition of_decimal (neg : bool) (m : N) (e : Z) : number :=
  match m with
  | N0 => S754_zero neg
  | Npos p =>
      match e with
      | Zneg k => of_ratio neg p (Pos.pow 10 k)
      | _ => binary_normalize prec emax
               ((if neg then Zneg p else Zpos p) * 10 ^ e) 0 false
      end
  end.

(** *** Strings to numbers: [Number(string)]

    A character stands for a code unit below 256; among these the white
    space of the language is the tab, the line feed, the vertical tab, the
    form feed, the carriage return, the space and the no-break space. *)

Definition is_white_space (c : ascii) : bool :=
  let n := nat_of_ascii c in
  existsb (Nat.eqb n) [9; 10; 11; 12; 13; 32; 160]%nat.

Fixpoint skip_white_space (l : list ascii) : list ascii :=
  match l with
  | c :: l' => if is_white_space c then skip_white_space l' else l
  | [] => []
  end.

Definition trim (l : list ascii) : list ascii :=
  rev (skip_white_space (rev (skip_white_space l))).

(** The value of a digit in the given radix, hexadecimal letters in both
    cases. *)
Definition digit_of (radix : N) (c : ascii) : option N :=
  let n := N_of_ascii c in
  let d :=
    if (48 <=? n)%N && (n <=? 57)%N then Some (n - 48)%N
    else if (97 <=? n)%N && (n <=? 102)%N then Some (n - 87)%N
    else if (65 <=? n)%N && (n <=? 70)%N then Some (n - 55)%N
    else None in
  match d with
  | Some v => if (v <? radix)%N then Some v else None
  | None => None
  end.

(** Reads the longest run of digits: the accumulated value, the number of
    digits read and the remaining characters. *)
Fixpoint read_digits (radix : N) (l : list ascii) (acc : N) (count : nat)
  : N * nat * list ascii :=
  match l with
  | c :: l' =>
      match digit_of radix c with
      | Some d => read_digits radix l' (acc * radix + d)%N (S count)
      | None => (acc, count, l)
      end
  | [] => (acc, count, [])
  end.

Definition chars (s : string) : list ascii := list_ascii_of_string s.

Definition is_char (c : ascii) (s : string) : bool :=
  existsb (Ascii.eqb c) (chars s).

(** The exponent part of a decimal literal, which must end the input. *)
Definition read_exponent (l : list ascii) : option Z :=
  match l with
  | [] => Some 0
  | c :: l1 =>
      if is_char c "eE" then
        let '(neg, l2) :=
          match l1 with
          | s :: l2 =>
              if is_char s "-" then (true, l2)
              else if is_char s "+" then (false, l2)
              else (false, l1)
          | [] => (false, l1)
          end in
        match read_digits 10 l2 0 0 with
        | (_, O, _) => None
        | (n, _, []) => Some (if neg then - Z.of_N n else Z.of_N n)
        | _ => None
        end
      else None
  end.

(** An unsigned decimal literal: [Infinity], or digits with an optional
    fraction and exponent. *)
Definition read_unsigned_decimal (neg : bool) (l : list ascii) : number :=
  if String.eqb (string_of_list_ascii l) "Infinity" then infinity neg
  else
    let '(ip, ni, r1) := read_digits 10 l 0 0 in
    let '(m, nf, r2) :=
      match r1 with
      | c :: r1' => if is_char c "." then read_digits 10 r1' ip 0
                    else (ip, O, r1)
      | [] => (ip, O, r1)
      end in
    match (ni + nf)%nat with
    | O => nan
    | _ =>
        match read_exponent r2 with
        | Some ex => of_decimal neg m (ex - Z.of_nat nf)
        | None => nan
        end
    end.

(** A binary, octal or hexadecimal integer literal after its prefix. *)
Definition read_radix_integer (radix : N) (l : list ascii) : number :=
  match read_digits radix l 0 0 with
  | (_, O, _) => nan
  | (n, _, []) => of_decimal false n 0
  | _ => nan
  end.

Definition StringToNumber (s : string) : number :=
  match trim (chars s) with
  | [] => zero
  | c :: l =>
      if is_char c "-" then read_unsigned_decimal true l
      else if is_char c "+" then read_unsigned_decimal false l
      else
        match l with
        | p :: l' =>
            if is_char c "0" && is_char p "xX" then read_radix_integer 16 l'
            else if is_char c "0" && is_char p "oO" then read_radix_integer 8 l'
            else if is_char c "0" && is_char p "bB" then read_radix_integer 2 l'
            else read_unsigned_decimal false (c :: l)
        | [] => read_unsigned_decimal false (c :: l)
        end
  end.

(** *** [parseInt(string, 10)] *)

Definition parseInt10 (s : string) : number :=
  let l := skip_white_space (chars s) in
  let '(neg, l1) :=
    match l with
    | c :: l' =>
        if is_char c "-" then (true, l')
        else if is_char c "+" then (false, l')
        else (false, l)
    | [] => (false, l)
    end in
  match read_digits 10 l1 0 0 with
  | (_, O, _) => nan
  | (n, _, _) => of_decimal neg n 0
  end.

(** *** [toFixed] and [parseFloat]

    [x.toFixed(f)] yields a string. Its four shapes are kept apart instead
    of being spelled out in characters: ["NaN"], a signed ["Infinity"], a
    signed decimal numeral with exactly [f] fraction digits (given by the
    integer [n] it denotes once the decimal point is dropped), and, from
    [1e21] upwards, the signed shortest representation of the number
    itself, which [parseFloat] reads back as that number. *)

Inductive FixedString : Type :=
| FS_NaN
| FS_Infinity (neg : bool)
| FS_Decimal (neg : bool) (n : N) (f : nat)
| FS_Shortest (neg : bool) (x : number).

Definition ten_pow_21 : number := of_decimal false 1 21.

(** The integer [n] for which [n / 10^f] is nearest to the finite,
    non-negative [x], the larger one on a tie. *)
Definition scaled_nearest (x : number) (f : nat) : N :=
  match x with
  | S754_finite _ m e =>
      let p := Zpos m * 10 ^ Z.of_nat f in
      match e with
      | Zneg k => Z.to_N ((2 * p + 2 ^ Zpos k) / 2 ^ (Zpos k + 1))
      | _ => Z.to_N (p * 2 ^ e)
      end
  | _ => 0%N
  end.

Definition toFixed (x : number) (f : nat) : FixedString :=
  match x with
  | S754_nan => FS_NaN
  | S754_infinity s => FS_Infinity s
  | _ =>
      let neg := ltb x zero in
      let x := if neg then opp x else x in
      if leb ten_pow_21 x then FS_Shortest neg x
      else FS_Decimal neg (scaled_nearest x f) f
  end.

Definition parseFloat (s : FixedString) : number :=
  match s with
  | FS_NaN => nan
  | FS_Infinity neg => infinity neg
  | FS_Decimal neg n f => of_decimal neg n (- Z.of_nat f)
  | FS_Shortest neg x => if neg then opp x else x
  end.

(** *** Predicates on numbers *)

(** A number that is NaN or carries the sign [s]. *)
Definition signed_or_nan (s : bool) (x : number) : Prop :=
  match x with
  | S754_nan => True
  | S754_zero s' | S754_infinity s' | S754_finite s' _ _ => s' = s
  end.

(** A number that is not greater than zero: NaN, a zero, or negative. *)
Definition not_positive (x : number) : Prop := ltb zero x = false.

(** What it means for an emitted number to carry at most [f] decimal
    digits: it is the number nearest to a decimal numeral with [f] fraction
    digits. Two kinds of numbers fall outside the numerals that [toFixed]
    writes: the non-finite ones, and those of magnitude [1e21] and more,
    which [toFixed] writes in full; the latter are integers, a mantissa
    times a non-negative power of two. *)
Definition decimal_places (f : nat) (y : number) : Prop :=
  is_finite y = false
  \/ (exists neg n, y = of_decimal neg n (- Z.of_nat f))
  \/ (exists s m e, y = S754_finite s m e /\ 0 <= e).



End JsNum.

(** ** JavaScript values and objects *)

Module Js.
Import JsNum.

#[warnings="-register-all"]
Inductive value : Type :=
| VUndefined
| VNull
| VBool (b : bool)
| VNum (x : number)
| VStr (s : string)
| VObj (o : gmap string value).

(** An object: its own properties, by name. *)
Abbreviation obj := (gmap string value).

(** The property read [o.k]: [undefined] when [o] has no property [k]. *)
Definition get (o : obj) (k : string) : value := default VUndefined (o !! k).

(** [v !== undefined] and [v !== undefined && v !== null] *)
Definition defined (v : value) : bool :=
  match v with VUndefined => false | _ => true end.

Definition present (v : value) : bool :=
  match v with VUndefined | VNull => false | _ => true end.

(** Truthiness, as tested by [!v], [v || d] and [Boolean(v)]. *)
Definition truthy (v : value) : bool :=
  match v with
  | VUndefined | VNull => false
  | VBool b => b
  | VNum x => match x with S754_zero _ | S754_nan => false | _ => true end
  | VStr s => match s with EmptyString => false | _ => true end
  | VObj _ => true
  end.

(** [v || d] *)
Definition or_else (v d : value) : value := if truthy v then v else d.

(** [v === s] for a string literal [s] *)
Definition is_string (v : value) (s : string) : bool :=
  match v with VStr t => String.eqb t s | _ => false end.

(** [v === n] for a number [n] *)
Definition is_number (v : value) (n : number) : bool :=
  match v with VNum x => SFeqb x n | _ => false end.

(** [Number(v)] *)
Definition Number (v : value) : number :=
  match v with
  | VUndefined => nan
  | VNull => zero
  | VBool b => if b then of_Z 1 else zero
  | VNum x => x
  | VStr s => StringToNumber s
  | VObj _ => nan
  end.

End Js.

(** Arithmetic on numbers, written as in the program. *)
Declare Scope js_scope.
Delimit Scope js_scope with js.
Infix "+" := JsNum.add : js_scope.
Infix "-" := JsNum.sub : js_scope.
Infix "*" := JsNum.mul : js_scope.
Infix "/" := JsNum.div : js_scope.
Notation "o .[ k ]" := (Js.get o k) (at level 1, left associativity, format "o .[ k ]").

(** ** The result types of the shared schema *)

Module Schema.
Import JsNum Js.

Inductive RiskLevel : Type := Low | Medium | High.

Record FinancialCalculation : Type := {
  roi : number;
  breakEven : number;
  netProfit : number;
  profitMargin : number;
  riskLevel : RiskLevel
}.

Record MonthlyProjection : Type := {
  month : nat;
  revenue : number;
  expenses : number;
  profit : number
}.

Record ScenarioCalculations : Type := {
  scenario : obj;
  financialMetrics : FinancialCalculation;
  monthlyProjections : list MonthlyProjection
}.

Record CostBreakdown : Type := {
  initialInvestment : number;
  fixedCosts : number;
  variableCosts : number
}.

(** A project row together with the scenario rows that belong to it. *)
Record ProjectWithScenarios : Type := {
  project : obj;
  scenarios : list obj
}.

(** The analysis response, without the free-text recommendations that an
    external service contributes. *)
Record ProjectAnalysis : Type := {
  analysis_project : ProjectWithScenarios;
  analysis_scenarios : list ScenarioCalculations;
  costBreakdown : CostBreakdown
}.

End Schema.

(** Number literals of the program. *)
Definition num (z : Z) : JsNum.number := JsNum.of_Z z.
Definition two_hundredths : JsNum.number := JsNum.of_decimal false 2 (-2).

(** [Array.from({ length: n }, (_, i) => f i)] *)
Definition Array_from {A : Type} (n : nat) (f : nat -> A) : list A :=
  map f (seq 0 n).

(** ** The client-side preview functions *)

Module Client.
Import JsNum Js Schema.
Local Open Scope js_scope.

Definition calculateFinancialMetrics (project scenario : obj)
  : FinancialCalculation :=
  let growthMultiplier := num 1 + (Number scenario.["growthRate"] / num 100) in
  let costMultiplier := num 1 + (Number scenario.["costAdjustment"] / num 100) in
  let adjustedMonthlyRevenue :=
    Number project.["expectedMonthlyRevenue"] * growthMultiplier in
  let adjustedMonthlyFixedCosts :=
    Number project.["monthlyFixedCosts"] * costMultiplier in
  let adjustedVariableCosts :=
    Number project.["variableCosts"] * costMultiplier in
  let annualRevenue := adjustedMonthlyRevenue * num 12 in
  let annualFixedCosts := adjustedMonthlyFixedCosts * num 12 in
  let annualVariableCosts := (adjustedVariableCosts / num 100) * annualRevenue in
  let totalAnnualCosts := annualFixedCosts + annualVariableCosts in
  let annualProfit := annualRevenue - totalAnnualCosts in
  let roi := (annualProfit / Number project.["initialInvestment"]) * num 100 in
  let monthlyProfit :=
    adjustedMonthlyRevenue - adjustedMonthlyFixedCosts
    - ((adjustedVariableCosts / num 100) * adjustedMonthlyRevenue) in
  let breakEven := Number project.["initialInvestment"] / monthlyProfit in
  let profitMargin := (annualProfit / annualRevenue) * num 100 in
  let riskLevel :=
    if is_string scenario.["name"] "Optimistic" then Low
    else if is_string scenario.["name"] "Realistic" then Medium
    else High in
  {| roi := parseFloat (toFixed roi 1);
     breakEven := parseFloat (toFixed breakEven 1);
     netProfit := parseFloat (toFixed annualProfit 2);
     profitMargin := parseFloat (toFixed profitMargin 1);
     riskLevel := riskLevel |}.

Definition generateMonthlyProjections (project scenario : obj)
  : list MonthlyProjection :=
  let growthMultiplier := num 1 + (Number scenario.["growthRate"] / num 100) in
  let costMultiplier := num 1 + (Number scenario.["costAdjustment"] / num 100) in
  let adjustedMonthlyRevenue :=
    Number project.["expectedMonthlyRevenue"] * growthMultiplier in
  let adjustedMonthlyFixedCosts :=
    Number project.["monthlyFixedCosts"] * costMultiplier in
  let adjustedVariableCosts :=
    Number project.["variableCosts"] * costMultiplier in
  Array_from 12 (fun i =>
    let month := (i + 1)%nat in
    let monthRevenue :=
      adjustedMonthlyRevenue * (num 1 + (two_hundredths * of_nat i)) in
    let monthExpenses :=
      adjustedMonthlyFixedCosts
      + ((adjustedVariableCosts / num 100) * monthRevenue) in
    let monthProfit := monthRevenue - monthExpenses in
    {| month := month;
       revenue := parseFloat (toFixed monthRevenue 2);
       expenses := parseFloat (toFixed monthExpenses 2);
       profit := parseFloat (toFixed monthProfit 2) |}).

Definition generateCostBreakdown (project : obj) : CostBreakdown :=
  {| initialInvestment := Number project.["initialInvestment"];
     fixedCosts := Number project.["monthlyFixedCosts"] * num 12;
     variableCosts :=
       Number project.["expectedMonthlyRevenue"]
       * (Number project.["variableCosts"] / num 100) * num 12 |}.

End Client.

(** ** The server-side computation of [POST /api/analysis] *)

Module Server.
Import JsNum Js Schema.
Local Open Scope js_scope.

(** The per-scenario calculations, for every scenario row handed over with
    the project. *)
Definition scenarioCalculations (projectWithScenarios : ProjectWithScenarios)
  : list ScenarioCalculations :=
  let initialInvestment := (project projectWithScenarios).["initialInvestment"] in
  let monthlyFixedCosts := (project projectWithScenarios).["monthlyFixedCosts"] in
  let variableCosts := (project projectWithScenarios).["variableCosts"] in
  let expectedMonthlyRevenue :=
    (project projectWithScenarios).["expectedMonthlyRevenue"] in
  map (fun scenario =>
    let growthMultiplier := num 1 + (Number scenario.["growthRate"] / num 100) in
    let costMultiplier := num 1 + (Number scenario.["costAdjustment"] / num 100) in
    let adjustedMonthlyRevenue := Number expectedMonthlyRevenue * growthMultiplier in
    let adjustedMonthlyFixedCosts := Number monthlyFixedCosts * costMultiplier in
    let adjustedVariableCosts := Number variableCosts * costMultiplier in
    let annualRevenue := adjustedMonthlyRevenue * num 12 in
    let annualFixedCosts := adjustedMonthlyFixedCosts * num 12 in
    let annualVariableCosts := (adjustedVariableCosts / num 100) * annualRevenue in
    let totalAnnualCosts := annualFixedCosts + annualVariableCosts in
    let annualProfit := annualRevenue - totalAnnualCosts in
    let roi := (annualProfit / Number initialInvestment) * num 100 in
    let monthlyProfit :=
      adjustedMonthlyRevenue - adjustedMonthlyFixedCosts
      - ((adjustedVariableCosts / num 100) * adjustedMonthlyRevenue) in
    let breakEven := Number initialInvestment / monthlyProfit in
    let profitMargin := (annualProfit / annualRevenue) * num 100 in
    let riskLevel :=
      if is_string scenario.["name"] "Optimistic" then Low
      else if is_string scenario.["name"] "Realistic" then Medium
      else High in
    let monthlyProjections :=
      Array_from 12 (fun i =>
        let month := (i + 1)%nat in
        let monthRevenue :=
          adjustedMonthlyRevenue * (num 1 + (two_hundredths * of_nat i)) in
        let monthExpenses :=
          adjustedMonthlyFixedCosts
          + ((adjustedVariableCosts / num 100) * monthRevenue) in
        let monthProfit := monthRevenue - monthExpenses in
        {| month := month;
           revenue := parseFloat (toFixed monthRevenue 2);
           expenses := parseFloat (toFixed monthExpenses 2);
           profit := parseFloat (toFixed monthProfit 2) |}) in
    {| scenario := scenario;
       financialMetrics :=
         {| roi := parseFloat (toFixed roi 1);
            breakEven := parseFloat (toFixed breakEven 1);
            netProfit := parseFloat (toFixed annualProfit 2);
            profitMargin := parseFloat (toFixed profitMargin 1);
            riskLevel := riskLevel |};
       monthlyProjections := monthlyProjections |})
    (scenarios projectWithScenarios).

Definition costBreakdownOf (projectWithScenarios : ProjectWithScenarios)
  : CostBreakdown :=
  let initialInvestment := (project projectWithScenarios).["initialInvestment"] in
  let monthlyFixedCosts := (project projectWithScenarios).["monthlyFixedCosts"] in
  let variableCosts := (project projectWithScenarios).["variableCosts"] in
  let expectedMonthlyRevenue :=
    (project projectWithScenarios).["expectedMonthlyRevenue"] in
  {| Schema.initialInvestment := Number initialInvestment;
     fixedCosts := Number monthlyFixedCosts * num 12;
     Schema.variableCosts :=
       Number expectedMonthlyRevenue * (Number variableCosts / num 100) * num 12 |}.

(** The analysis object that the handler sends back. *)
Definition analysis (projectWithScenarios : ProjectWithScenarios)
  : ProjectAnalysis :=
  {| analysis_project := projectWithScenarios;
     analysis_scenarios := scenarioCalculations projectWithScenarios;
     costBreakdown := costBreakdownOf projectWithScenarios |}.

End Server.

(** ** The transformation functions of the shared schema *)

Module Transform.
Import JsNum Js.

Section WithNumberToString.

(** The decimal text of a number, [Number.prototype.toString], is a
    parameter of the development. *)
Variable NumberToString : number -> string.

(** [String(v)] *)
Definition ToString (v : value) : string :=
  match v with
  | VUndefined => "undefined"
  | VNull => "null"
  | VBool b => if b then "true" else "false"
  | VNum x => NumberToString x
  | VStr s => s
  | VObj _ => "[object Object]"
  end.

Definition transformProjectData (data : obj) : obj :=
  let transformedData : obj :=
    {[ "name" := or_else data.["name"] (VStr "Untitled Project");
       "goal" := or_else data.["goal"] (VStr "No goal specified");
       "industry" := or_else data.["industry"] (VStr "Other");
       "timeHorizon" :=
         if present data.["timeHorizon"]
         then match data.["timeHorizon"] with
              | VStr s => VNum (parseInt10 s)
              | v => v
              end
         else VNum (num 12);
       "initialInvestment" :=
         if present data.["initialInvestment"]
         then VStr (ToString data.["initialInvestment"])
         else VStr "0";
       "monthlyFixedCosts" :=
         if present data.["monthlyFixedCosts"]
         then VStr (ToString data.["monthlyFixedCosts"])
         else VStr "0";
       "variableCosts" :=
         if present data.["variableCosts"]
         then VStr (ToString data.["variableCosts"])
         else VStr "0";
       "expectedMonthlyRevenue" :=
         if present data.["expectedMonthlyRevenue"]
         then VStr (ToString data.["expectedMonthlyRevenue"])
         else VStr "0" ]} in
  if present data.["userId"]
  then <["userId" := data.["userId"]]> transformedData
  else transformedData.

(** The argument is any value; reading a property of a value that is not
    an object yields [undefined]. *)
Definition transformScenarioData (data : value) : obj :=
  if negb (truthy data) then ∅
  else
    let data : obj := match data with VObj o => o | _ => ∅ end in
    let transformedData : obj := ∅ in
    let transformedData :=
      if defined data.["projectId"]
      then <["projectId" := data.["projectId"]]> transformedData
      else transformedData in
    let transformedData :=
      if defined data.["name"]
      then <["name" := data.["name"]]> transformedData
      else transformedData in
    let transformedData :=
      if defined data.["enabled"]
      then <["enabled" := VBool (truthy data.["enabled"])]> transformedData
      else transformedData in
    let transformedData :=
      <["growthRate" :=
          if present data.["growthRate"]
          then VStr (ToString data.["growthRate"])
          else VStr "0"]> transformedData in
    let transformedData :=
      <["costAdjustment" :=
          if present data.["costAdjustment"]
          then VStr (ToString data.["costAdjustment"])
          else VStr "0"]> transformedData in
    transformedData.

End WithNumberToString.
End Transform.

(** ** The database storage

    The two tables are lists of rows, a row being the object that the
    database driver returns for it, and the order of a list the order in
    which a [select] without [ORDER BY] returns the rows.

    The database is PostgreSQL behind an object-relational mapper; neither
    is code of the repository. What the repository fixes is the schema: the
    type of every column, which columns are [NOT NULL], their defaults and
    the tables they refer to. How the database takes a value that is sent
    to a column of some type (whether it accepts it, and which value a
    later read returns for it) is a parameter of the development,
    [column_input]. A statement that the database refuses is an error: the
    call throws, and nothing is written. *)

Module Storage.
Import JsNum Js Schema Transform.

Record Database : Type := {
  tbl_projects : list obj;
  tbl_scenarios : list obj
}.

(** [eq(column, id)] on an integer column *)
Definition column_eq (column : string) (id : Z) (row : obj) : bool :=
  is_number row.[column] (of_Z id).

Definition getProject (db : Database) (id : Z) : option obj :=
  head (List.filter (column_eq "id" id) (tbl_projects db)).

Definition getScenarios (db : Database) (projectId : Z) : list obj :=
  List.filter (column_eq "projectId" projectId) (tbl_scenarios db).

Definition getProjectWithScenarios (db : Database) (projectId : Z)
  : option ProjectWithScenarios :=
  match getProject db projectId with
  | None => None
  | Some project =>
      let scenarioList := getScenarios db projectId in
      Some {| project := project; scenarios := scenarioList |}
  end.

(** *** The tables of the shared schema *)

Inductive ColumnType : Type := Integer | Text | Numeric | Boolean | Timestamp.

Inductive TableName : Type := Users | Projects | Scenarios.

(** What the database gives to a column that an insertion leaves out. *)
Inductive Default : Type :=
| NoDefault
| DefaultValue (v : value)
| DefaultNow
| NextSerial.

(** A column, under the name of its property in a row object. *)
Record Column : Type := {
  col_name : string;
  col_type : ColumnType;
  col_not_null : bool;
  col_default : Default;
  col_references : option TableName
}.

Definition column (type : ColumnType) (name : string) : Column :=
  {| col_name := name; col_type := type; col_not_null := false;
     col_default := NoDefault; col_references := None |}.

Definition integer : string -> Column := column Integer.
Definition text : string -> Column := column Text.
Definition numeric : string -> Column := column Numeric.
Definition boolean : string -> Column := column Boolean.
Definition timestamp : string -> Column := column Timestamp.

(** [serial(name).primaryKey()]: an integer that is not null and numbered
    by the sequence of the table. *)
Definition serial_primaryKey (name : string) : Column :=
  {| col_name := name; col_type := Integer; col_not_null := true;
     col_default := NextSerial; col_references := None |}.

Definition notNull (c : Column) : Column :=
  {| col_name := col_name c; col_type := col_type c; col_not_null := true;
     col_default := col_default c; col_references := col_references c |}.

Definition with_default (d : Default) (c : Column) : Column :=
  {| col_name := col_name c; col_type := col_type c;
     col_not_null := col_not_null c;
     col_default := d; col_references := col_references c |}.

Definition references (t : TableName) (c : Column) : Column :=
  {| col_name := col_name c; col_type := col_type c;
     col_not_null := col_not_null c;
     col_default := col_default c; col_references := Some t |}.

Module pgTable.

Definition projects : list Column :=
  [ serial_primaryKey "id";
    notNull (text "name");
    notNull (text "goal");
    with_default (DefaultValue (VNum (num 12))) (notNull (integer "timeHorizon"));
    notNull (text "industry");
    notNull (numeric "initialInvestment");
    notNull (numeric "monthlyFixedCosts");
    notNull (numeric "variableCosts");
    notNull (numeric "expectedMonthlyRevenue");
    with_default DefaultNow (timestamp "createdAt");
    with_default DefaultNow (timestamp "lastUpdated");
    references Users (integer "userId") ].

Definition scenarios : list Column :=
  [ serial_primaryKey "id";
    references Projects (notNull (integer "projectId"));
    notNull (text "name");
    with_default (DefaultValue (VBool true)) (boolean "enabled");
    notNull (numeric "growthRate");
    notNull (numeric "costAdjustment") ].

End pgTable.

(** *** Statements *)

(** The outcome of a call of the storage: the value that its promise
    resolves to, or the rejection of the promise with the error of the
    database. *)
Inductive Outcome (A : Type) : Type :=
| Resolved (result : A)
| Rejected.

Arguments Resolved {A} result.
Arguments Rejected {A}.

Section WithDatabase.

(** [column_input type v] is the value that a read returns from a column of
    the given type after [v], which is neither [undefined] nor [null], has
    been sent to it, and [None] when the database refuses [v]. *)
Variable column_input : ColumnType -> value -> option value.

(** The table of users, which the operations below read and never write. *)
Variable users : list obj.

Definition rows_of (db : Database) (t : TableName) : list obj :=
  match t with
  | Users => users
  | Projects => tbl_projects db
  | Scenarios => tbl_scenarios db
  end.

(** What a statement writes to the column [c] when it is given [values]:
    nothing or the default for a property that is [undefined], according to
    [omitted]; [NULL] for [null]; and for another value what the database
    makes of it. The outer [None] is the refusal of the value. *)
Definition column_value (omitted : Column -> option value) (values : obj)
    (c : Column) : option (option value) :=
  match values.[col_name c] with
  | VUndefined => Some (omitted c)
  | VNull => Some (Some VNull)
  | v =>
      match column_input (col_type c) v with
      | Some stored => Some (Some stored)
      | None => None
      end
  end.

(** The values of a statement as the database takes them, column by
    column; the statement is refused when one of them is. *)
Fixpoint bind (omitted : Column -> option value) (columns : list Column)
    (values : obj) : option obj :=
  match columns with
  | [] => Some ∅
  | c :: columns' =>
      match bind omitted columns' values, column_value omitted values c with
      | Some bound, Some (Some v) => Some (<[col_name c := v]> bound)
      | Some bound, Some None => Some bound
      | _, _ => None
      end
  end.

(** The constraints of a column on a value written to it: [NOT NULL], and
    for a reference the presence of a row with that id in the table
    referred to. *)
Definition references_ok (db : Database) (c : Column) (v : value) : bool :=
  match col_references c, v with
  | None, _ => true
  | Some _, VNull => true
  | Some t, VNum x => existsb (fun row => is_number row.["id"] x) (rows_of db t)
  | Some _, _ => false
  end.

Definition constraint_ok (db : Database) (c : Column) (v : value) : bool :=
  (negb (col_not_null c) || present v) && references_ok db c v.

Definition constraints_ok (db : Database) (columns : list Column)
    (written : obj) : bool :=
  forallb (fun c => match written !! col_name c with
                    | Some v => constraint_ok db c v
                    | None => true
                    end) columns.

(** [set(values)] on one row *)
Definition set_values (bound row : obj) : obj := bound ∪ row.

(** [update(table).set(values).where(matches).returning()]: the table
    afterwards and the rows returned, or [None] when the statement is
    refused. The values are converted when the statement is sent, whether
    or not a row matches; the constraints are checked on the rows that are
    written. A row that is written is stored anew: a later read returns it
    after the rows that were left alone. *)
Definition update (db : Database) (columns : list Column)
    (matches : obj -> bool) (values : obj) (rows : list obj)
  : option (list obj * list obj) :=
  match bind (fun _ => None) columns values with
  | None => None
  | Some bound =>
      let updated := map (set_values bound) (List.filter matches rows) in
      match updated with
      | [] => Some (rows, [])
      | _ :: _ =>
          if constraints_ok db columns bound
          then Some (List.filter (fun row => negb (matches row)) rows ++ updated,
                     updated)
          else None
      end
  end.

(** The statement that carries the row number [id] is refused when the
    database does not take [id] for an integer of the column. *)
Definition id_ok (id : Z) : bool :=
  match column_input Integer (VNum (of_Z id)) with
  | Some _ => true
  | None => false
  end.

Section WithNumberToString.

Variable NumberToString : number -> string.

(** [now] is the value of [new Date()] at the call. *)
Definition updateProject (db : Database) (now : value) (id : Z)
    (projectUpdate : obj) : Database * Outcome (option obj) :=
  let transformedData := transformProjectData NumberToString projectUpdate in
  let values := <["lastUpdated" := now]> transformedData in
  if negb (id_ok id) then (db, Rejected)
  else
    match update db pgTable.projects (column_eq "id" id) values
            (tbl_projects db) with
    | None => (db, Rejected)
    | Some (rows, returned) =>
        ({| tbl_projects := rows; tbl_scenarios := tbl_scenarios db |},
         Resolved (head returned))
    end.

Definition updateScenario (db : Database) (id : Z) (scenarioUpdate : value)
  : Database * Outcome (option obj) :=
  let transformedData := transformScenarioData NumberToString scenarioUpdate in
  let updateObj : obj := ∅ in
  let updateObj :=
    if defined transformedData.["name"]
    then <["name" := transformedData.["name"]]> updateObj else updateObj in
  let updateObj :=
    if defined transformedData.["enabled"]
    then <["enabled" := transformedData.["enabled"]]> updateObj else updateObj in
  let updateObj :=
    if defined transformedData.["growthRate"]
    then <["growthRate" := transformedData.["growthRate"]]> updateObj
    else updateObj in
  let updateObj :=
    if defined transformedData.["costAdjustment"]
    then <["costAdjustment" := transformedData.["costAdjustment"]]> updateObj
    else updateObj in
  if negb (id_ok id) then (db, Rejected)
  else if (size updateObj =? 0)%nat
  then (db, Resolved (head (List.filter (column_eq "id" id) (tbl_scenarios db))))
  else
    match update db pgTable.scenarios (column_eq "id" id) updateObj
            (tbl_scenarios db) with
    | None => (db, Rejected)
    | Some (rows, returned) =>
        ({| tbl_projects := tbl_projects db; tbl_scenarios := rows |},
         Resolved (head returned))
    end.

End WithNumberToString.
End WithDatabase.
End Storage.

(** ** The request handler of [POST /api/analysis]

    [userId] is the id of the authenticated user and [projectId] the
    project id of the request body. The recommendations of the text
    service are not part of the modelled response. *)

Module Handler.
Import JsNum Js Schema Storage.

Inductive Response : Type :=
| Status (code : nat) (message : string)
| Json (body : ProjectAnalysis).

Definition post_api_analysis (db : Database) (userId projectId : Z) : Response :=
  if projectId =? 0 then Status 400 "Project ID is required"
  else
    match getProject db projectId with
    | None => Status 404 "Project not found"
    | Some projectInfo =>
        if negb (is_number projectInfo.["userId"] (of_Z userId))
        then Status 403
               "Access denied: You don't have permission to analyze this project"
        else
          match getProjectWithScenarios db projectId with
          | None => Status 404 "Project not found"
          | Some projectWithScenarios =>
              Json (Server.analysis projectWithScenarios)
          end
    end.

End Handler.

(** ** The stages of the calculation

    The functions above repeat the same steps inline. They are named here,
    one definition per step and none of them rounding, so that the
    properties below can speak about the adjusted figures and the other
    intermediate values. *)

Module Engine.
Import JsNum Js Schema.
Local Open Scope js_scope.

Record AdjustedFigures : Type := {
  adjustedMonthlyRevenue : number;
  adjustedMonthlyFixedCosts : number;
  adjustedVariableCosts : number
}.

Definition adjust (project scenario : obj) : AdjustedFigures :=
  let growthMultiplier := num 1 + (Number scenario.["growthRate"] / num 100) in
  let costMultiplier := num 1 + (Number scenario.["costAdjustment"] / num 100) in
  {| adjustedMonthlyRevenue :=
       Number project.["expectedMonthlyRevenue"] * growthMultiplier;
     adjustedMonthlyFixedCosts :=
       Number project.["monthlyFixedCosts"] * costMultiplier;
     adjustedVariableCosts :=
       Number project.["variableCosts"] * costMultiplier |}.

Definition annualRevenue (a : AdjustedFigures) : number :=
  adjustedMonthlyRevenue a * num 12.

Definition annualProfit (a : AdjustedFigures) : number :=
  let annualFixedCosts := adjustedMonthlyFixedCosts a * num 12 in
  let annualVariableCosts :=
    (adjustedVariableCosts a / num 100) * annualRevenue a in
  let totalAnnualCosts := annualFixedCosts + annualVariableCosts in
  annualRevenue a - totalAnnualCosts.

Definition monthlyProfit (a : AdjustedFigures) : number :=
  adjustedMonthlyRevenue a - adjustedMonthlyFixedCosts a
  - ((adjustedVariableCosts a / num 100) * adjustedMonthlyRevenue a).

(** The unrounded metrics. *)
Definition rawRoi (initialInvestment : number) (a : AdjustedFigures) : number :=
  (annualProfit a / initialInvestment) * num 100.

Definition rawBreakEven (initialInvestment : number) (a : AdjustedFigures)
  : number :=
  initialInvestment / monthlyProfit a.

Definition rawProfitMargin (a : AdjustedFigures) : number :=
  (annualProfit a / annualRevenue a) * num 100.

(** The unrounded figures of the month with index [i], counted from 0. *)
Definition monthRevenue (a : AdjustedFigures) (i : nat) : number :=
  adjustedMonthlyRevenue a * (num 1 + (two_hundredths * of_nat i)).

Definition monthExpenses (a : AdjustedFigures) (i : nat) : number :=
  adjustedMonthlyFixedCosts a
  + ((adjustedVariableCosts a / num 100) * monthRevenue a i).

Definition monthProfit (a : AdjustedFigures) (i : nat) : number :=
  monthRevenue a i - monthExpenses a i.

(** Rounding at emission: [parseFloat(x.toFixed(f))]. *)
Definition roundTo (f : nat) (x : number) : number := parseFloat (toFixed x f).

Definition riskOfName (name : value) : RiskLevel :=
  if is_string name "Optimistic" then Low
  else if is_string name "Realistic" then Medium
  else High.

Definition metricsOf (initialInvestment : number) (a : AdjustedFigures)
    (name : value) : FinancialCalculation :=
  {| roi := roundTo 1 (rawRoi initialInvestment a);
     breakEven := roundTo 1 (rawBreakEven initialInvestment a);
     netProfit := roundTo 2 (annualProfit a);
     profitMargin := roundTo 1 (rawProfitMargin a);
     riskLevel := riskOfName name |}.

Definition projectionOf (a : AdjustedFigures) (i : nat) : MonthlyProjection :=
  {| month := i + 1;
     revenue := roundTo 2 (monthRevenue a i);
     expenses := roundTo 2 (monthExpenses a i);
     profit := roundTo 2 (monthProfit a i) |}.

End Engine.

(** ** Sample data *)

Module Examples.
Import JsNum Js Schema Storage.

(** The project of the worked examples, as the row the database returns:
    numeric columns arrive as decimal strings. *)
Definition exampleProject : obj :=
  {[ "id" := VNum (num 1);
     "userId" := VNum (num 1);
     "name" := VStr "Example";
     "timeHorizon" := VNum (num 12);
     "initialInvestment" := VStr "50000";
     "monthlyFixedCosts" := VStr "5000";
     "variableCosts" := VStr "20";
     "expectedMonthlyRevenue" := VStr "15000" ]}.

Definition scenarioRow (id : Z) (name : string) (enabled : bool)
    (growthRate costAdjustment : string) : obj :=
  {[ "id" := VNum (num id);
     "projectId" := VNum (num 1);
     "name" := VStr name;
     "enabled" := VBool enabled;
     "growthRate" := VStr growthRate;
     "costAdjustment" := VStr costAdjustment ]}.

Definition realistic : obj := scenarioRow 1 "Realistic" true "15" "0".
Definition optimistic : obj := scenarioRow 2 "Optimistic" true "25" "-5".
Definition pessimistic : obj := scenarioRow 3 "Pessimistic" true "8" "15".
Definition pessimisticDisabled : obj := scenarioRow 3 "Pessimistic" false "8" "15".

(** A database in which the pessimistic scenario has been switched off. *)
Definition exampleDatabase : Database :=
  {| tbl_projects := [exampleProject];
     tbl_scenarios := [realistic; optimistic; pessimisticDisabled] |}.

(** A project that needs no initial investment and loses money every
    month. *)
Definition losingProject : obj :=
  {[ "id" := VNum (num 2);
     "userId" := VNum (num 1);
     "name" := VStr "Losing";
     "timeHorizon" := VNum (num 12);
     "initialInvestment" := VStr "0";
     "monthlyFixedCosts" := VStr "5000";
     "variableCosts" := VStr "20";
     "expectedMonthlyRevenue" := VStr "1000" ]}.

(** A project whose figures do not sit on whole cents. *)
Definition centsProject : obj :=
  {[ "initialInvestment" := VStr "100";
     "monthlyFixedCosts" := VStr "0.006";
     "variableCosts" := VStr "0";
     "expectedMonthlyRevenue" := VStr "1.004" ]}.

Definition flatScenario : obj := scenarioRow 4 "Flat" true "0" "0".

(** A database whose project row lacks the initial investment. *)
Definition incompleteDatabase : Database :=
  {| tbl_projects := [delete "initialInvestment" exampleProject];
     tbl_scenarios := [realistic] |}.

(** A stand-in for the number printer in examples whose objects carry
    strings only. *)
Definition noNumberToString (x : number) : string := EmptyString.

(** The users of the examples. *)
Definition exampleUsers : list obj :=
  [ {[ "id" := VNum (num 1);
       "username" := VStr "owner";
       "password" := VStr "secret" ]} ].

(** A [Date] object of the examples. *)
Definition exampleDate : value := VObj {[ "time" := VNum (num 1700000000000) ]}.

(** The whole number that a number is, if it is one. *)
Definition to_integer (x : number) : option Z :=
  match x with
  | S754_zero _ => Some 0
  | S754_finite s m e =>
      let z := match e with
               | Zneg k => Zpos m / 2 ^ Zpos k
               | _ => Zpos m * 2 ^ e
               end in
      let z := if s then - z else z in
      if SFeqb (of_Z z) x then Some z else None
  | _ => None
  end.

(** A decimal numeral in plain notation: no sign or a minus sign, digits
    without a leading zero, and possibly a point with digits after it; a
    negative zero is none. *)
Definition plain_decimal (s : string) : bool :=
  let '(neg, l) :=
    match chars s with
    | c :: l' => if is_char c "-" then (true, l') else (false, c :: l')
    | [] => (false, [])
    end in
  let '(whole, count, rest) := read_digits 10 l 0 0 in
  let leading_zero :=
    match l with
    | c :: _ => is_char c "0" && (1 <? count)%nat
    | [] => false
    end in
  let '(fraction, fraction_ok) :=
    match rest with
    | [] => (0%N, true)
    | c :: rest' =>
        match read_digits 10 rest' 0 0 with
        | (n, S _, []) => (n, is_char c ".")
        | _ => (0%N, false)
        end
    end in
  (0 <? count)%nat && negb leading_zero && fraction_ok
  && negb (neg && (whole =? 0)%N && (fraction =? 0)%N).

(** How the database of the examples takes plain values. An integer column
    takes a whole number of 32 bits, a text column a string without the
    character of code 0, a boolean column a boolean, a timestamp column a
    [Date] object, and a numeric column a decimal numeral in plain
    notation; each is returned as it was sent. PostgreSQL accepts more than
    this (a numeral with an exponent, for instance, which it returns in
    plain notation); the examples keep to values on which the two agree,
    and to values that both refuse. *)
Definition plainInput (type : ColumnType) (v : value) : option value :=
  match type, v with
  | Integer, VNum x =>
      match to_integer x with
      | Some z =>
          if (- 2 ^ 31 <=? z) && (z <? 2 ^ 31) then Some (VNum (of_Z z))
          else None
      | None => None
      end
  | Text, VStr s =>
      if forallb (fun c => negb (Ascii.eqb c Ascii.zero)) (chars s)
      then Some (VStr s) else None
  | Numeric, VStr s => if plain_decimal s then Some (VStr s) else None
  | Boolean, VBool b => Some (VBool b)
  | Timestamp, VObj o => Some (VObj o)
  | _, _ => None
  end.

End Examples.

(** ** The remaining operations of the database storage

    The database numbers the rows it inserts; the number that its sequence
    gives to a new row is an argument of the operation that inserts it. *)

Module StorageMore.
Import JsNum Js Schema Transform Storage.

Definition getScenarioById (db : Database) (id : Z) : option obj :=
  head (List.filter (column_eq "id" id) (tbl_scenarios db)).

Definition getProjects (db : Database) : list obj := tbl_projects db.

Definition getProjectsByUserId (db : Database) (userId : Z) : list obj :=
  List.filter (column_eq "userId" userId) (tbl_projects db).

(** [!!deleted] for the first of the rows a deletion returns *)
Definition deleted_some (rows : list obj) : bool :=
  match head rows with Some _ => true | None => false end.

Definition deleteProject (db : Database) (id : Z) : Database * bool :=
  let scenarios' :=
    List.filter (fun row => negb (column_eq "projectId" id row))
      (tbl_scenarios db) in
  let deleted := List.filter (column_eq "id" id) (tbl_projects db) in
  ({| tbl_projects :=
        List.filter (fun row => negb (column_eq "id" id row)) (tbl_projects db);
      tbl_scenarios := scenarios' |},
   deleted_some deleted).

Definition deleteScenario (db : Database) (id : Z) : Database * bool :=
  let deleted := List.filter (column_eq "id" id) (tbl_scenarios db) in
  ({| tbl_projects := tbl_projects db;
      tbl_scenarios :=
        List.filter (fun row => negb (column_eq "id" id row)) (tbl_scenarios db) |},
   deleted_some deleted).

Section WithDatabase.

Variable column_input : ColumnType -> value -> option value.
Variable users : list obj.

(** The value of a column that an insertion leaves out: [id] is the next
    number of the sequence of the table and [clock] the time of the
    database. *)
Definition default_value (id : Z) (clock : value) (d : Default) : value :=
  match d with
  | NoDefault => VNull
  | DefaultValue v => v
  | DefaultNow => clock
  | NextSerial => VNum (num id)
  end.

(** [insert(table).values(values).returning()]: the table afterwards and
    the new row, which holds every column of the table, or [None] when the
    statement is refused: for a value that a column does not take, for a
    constraint that the row breaks, or for a row number already in use. *)
Definition insert_into (db : Database) (columns : list Column) (id : Z)
    (clock : value) (values : obj) (rows : list obj)
  : option (list obj * obj) :=
  match bind column_input
          (fun c => Some (default_value id clock (col_default c)))
          columns values with
  | None => None
  | Some row =>
      if constraints_ok users db columns row
         && negb (existsb (column_eq "id" id) rows)
      then Some (rows ++ [row], row)
      else None
  end.

Section WithNumberToString.

Variable NumberToString : number -> string.

(** [id] is the number the database gives to the new project, [clock] its
    time and [now] the value of [new Date()]. *)
Definition createProject (db : Database) (id : Z) (clock now : value)
    (insertProject : obj) : Database * Outcome obj :=
  let transformedData := transformProjectData NumberToString insertProject in
  let values := <["lastUpdated" := now]> (<["createdAt" := now]> transformedData) in
  match insert_into db pgTable.projects id clock values (tbl_projects db) with
  | None => (db, Rejected)
  | Some (rows, project) =>
      ({| tbl_projects := rows; tbl_scenarios := tbl_scenarios db |},
       Resolved project)
  end.

(** [id] is the number the database gives to the new scenario; the table
    of scenarios has no column whose default is the time. *)
Definition createScenario (db : Database) (id : Z) (insertScenario : value)
  : Database * Outcome obj :=
  let transformedData := transformScenarioData NumberToString insertScenario in
  let dataToInsert : obj :=
    {[ "projectId" := transformedData.["projectId"];
       "name" := or_else transformedData.["name"] (VStr "Unnamed Scenario");
       "enabled" :=
         if defined transformedData.["enabled"]
         then transformedData.["enabled"] else VBool true;
       "growthRate" := or_else transformedData.["growthRate"] (VStr "0");
       "costAdjustment" :=
         or_else transformedData.["costAdjustment"] (VStr "0") ]} in
  match insert_into db pgTable.scenarios id VNull dataToInsert
          (tbl_scenarios db) with
  | None => (db, Rejected)
  | Some (rows, scenario) =>
      ({| tbl_projects := tbl_projects db; tbl_scenarios := rows |},
       Resolved scenario)
  end.

End WithNumberToString.
End WithDatabase.
End StorageMore.

(** ** The request handler of [POST /api/report]

    The handler repeats the calculation of the analysis and hands its
    result to the report service; the response modelled here ends with that
    call. *)

Module Report.
Import JsNum Js Schema Storage.
Local Open Scope js_scope.

Inductive Response : Type :=
| Status (code : nat) (message : string)
| GenerateAnalysisReport (projectWithScenarios : ProjectWithScenarios)
    (scenarioCalculations : list ScenarioCalculations)
    (validatedScenarioType : value).

Definition scenarioCalculations (projectWithScenarios : ProjectWithScenarios)
  : list ScenarioCalculations :=
  let initialInvestment := (project projectWithScenarios).["initialInvestment"] in
  let monthlyFixedCosts := (project projectWithScenarios).["monthlyFixedCosts"] in
  let variableCosts := (project projectWithScenarios).["variableCosts"] in
  let expectedMonthlyRevenue :=
    (project projectWithScenarios).["expectedMonthlyRevenue"] in
  map (fun scenario =>
    let growthMultiplier := num 1 + (Number scenario.["growthRate"] / num 100) in
    let costMultiplier := num 1 + (Number scenario.["costAdjustment"] / num 100) in
    let adjustedMonthlyRevenue := Number expectedMonthlyRevenue * growthMultiplier in
    let adjustedMonthlyFixedCosts := Number monthlyFixedCosts * costMultiplier in
    let adjustedVariableCosts := Number variableCosts * costMultiplier in
    let annualRevenue := adjustedMonthlyRevenue * num 12 in
    let annualFixedCosts := adjustedMonthlyFixedCosts * num 12 in
    let annualVariableCosts := (adjustedVariableCosts / num 100) * annualRevenue in
    let totalAnnualCosts := annualFixedCosts + annualVariableCosts in
    let annualProfit := annualRevenue - totalAnnualCosts in
    let roi := (annualProfit / Number initialInvestment) * num 100 in
    let monthlyProfit :=
      adjustedMonthlyRevenue - adjustedMonthlyFixedCosts
      - ((adjustedVariableCosts / num 100) * adjustedMonthlyRevenue) in
    let breakEven := Number initialInvestment / monthlyProfit in
    let profitMargin := (annualProfit / annualRevenue) * num 100 in
    let riskLevel :=
      if is_string scenario.["name"] "Optimistic" then Low
      else if is_string scenario.["name"] "Realistic" then Medium
      else High in
    let monthlyProjections :=
      Array_from 12 (fun i =>
        let month := (i + 1)%nat in
        let monthRevenue :=
          adjustedMonthlyRevenue * (num 1 + (two_hundredths * of_nat i)) in
        let monthExpenses :=
          adjustedMonthlyFixedCosts
          + ((adjustedVariableCosts / num 100) * monthRevenue) in
        let monthProfit := monthRevenue - monthExpenses in
        {| month := month;
           revenue := parseFloat (toFixed monthRevenue 2);
           expenses := parseFloat (toFixed monthExpenses 2);
           profit := parseFloat (toFixed monthProfit 2) |}) in
    {| scenario := scenario;
       financialMetrics :=
         {| roi := parseFloat (toFixed roi 1);
            breakEven := parseFloat (toFixed breakEven 1);
            netProfit := parseFloat (toFixed annualProfit 2);
            profitMargin := parseFloat (toFixed profitMargin 1);
            riskLevel := riskLevel |};
       monthlyProjections := monthlyProjections |})
    (scenarios projectWithScenarios).

(** [['Optimistic', 'Realistic', 'Pessimistic'].includes(v)] *)
Definition is_scenario_type (v : value) : bool :=
  is_string v "Optimistic" || is_string v "Realistic"
  || is_string v "Pessimistic".

Definition post_api_report (db : Database) (userId projectId : Z)
    (scenarioType : value) : Response :=
  if projectId =? 0 then Status 400 "Project ID is required"
  else
    match getProject db projectId with
    | None => Status 404 "Project not found"
    | Some projectInfo =>
        if negb (is_number projectInfo.["userId"] (of_Z userId))
        then Status 403
               "Access denied: You don't have permission to generate a report for this project"
        else
          match getProjectWithScenarios db projectId with
          | None => Status 404 "Project not found"
          | Some projectWithScenarios =>
              let scenarioCalculations :=
                scenarioCalculations projectWithScenarios in
              if truthy scenarioType
              then
                if is_scenario_type scenarioType
                then GenerateAnalysisReport projectWithScenarios
                       scenarioCalculations scenarioType
                else Status 400
                       "Invalid scenario type. Must be one of: Optimistic, Realistic, Pessimistic"
              else GenerateAnalysisReport projectWithScenarios
                     scenarioCalculations VUndefined
          end
    end.

End Report.

(** ** The answers of [POST /api/projects/update-with-answers] *)

Module Answers.
Import JsNum Js.

(** [s.replace(/[^0-9.]/g, '')] *)
Definition keep_digits_and_dots (s : string) : string :=
  string_of_list_ascii
    (List.filter
       (fun c => match digit_of 10 c with
                 | Some _ => true
                 | None => is_char c "."
                 end)
       (chars s)).

(** The clean-up of the variable costs among the updates. *)
Definition cleanUpdates (updates : obj) : obj :=
  if truthy updates.["variableCosts"]
  then match updates.["variableCosts"] with
       | VStr s => <["variableCosts" := VStr (keep_digits_and_dots s)]> updates
       | _ => updates
       end
  else updates.

(** [s.trim()] *)
Definition trim_string (s : string) : string :=
  string_of_list_ascii (trim (chars s)).

(** The questions paired with their answers, those without an answer left
    out. *)
Definition questionAnswerPairs (questions answers : list string)
  : list (string * string) :=
  List.filter
    (fun pair => negb (String.eqb (trim_string pair.2) EmptyString))
    (imap (fun index question =>
             (question, default EmptyString (answers !! index)))
       questions).

End Answers.

(** ** The formatting functions of the client

    A function that receives a value on which it cannot call [toFixed]
    throws; it then has no result. *)

Module Format.
Import JsNum Js.

Section WithNumberToString.

Variable NumberToString : number -> string.

Definition digits (n : N) : string := NilZero.string_of_uint (N.to_uint n).

Fixpoint zeros (k : nat) : string :=
  match k with
  | O => EmptyString
  | S k' => String "0" (zeros k')
  end.

(** The characters of the string that [toFixed] yields. *)
Definition print (s : FixedString) : string :=
  match s with
  | FS_NaN => "NaN"
  | FS_Infinity neg => if neg then "-Infinity" else "Infinity"
  | FS_Decimal neg n f =>
      let m := digits n in
      let m :=
        match f with
        | O => m
        | _ =>
            let k := String.length m in
            let m := if (k <=? f)%nat then zeros (f + 1 - k) +:+ m else m in
            let k := String.length m in
            substring 0 (k - f) m +:+ "." +:+ substring (k - f) f m
        end in
      if neg then "-" +:+ m else m
  | FS_Shortest neg x =>
      if neg then "-" +:+ NumberToString x else NumberToString x
  end.

(** [typeof value === 'string' ? Number(value) : value] *)
Definition numValue (value : value) : Js.value :=
  match value with
  | VStr _ => VNum (Number value)
  | _ => value
  end.

(** [isNaN(v)] *)
Definition isNaN (v : value) : bool := is_nan (Number v).

Definition formatCurrency (value : value) : option string :=
  match value with
  | VNull | VUndefined => Some "$0.00"
  | _ =>
      if isNaN (numValue value) then Some "$0.00"
      else
        match numValue value with
        | VNum x =>
            if leb (num 1000) x
            then Some ("$" +:+ print (toFixed (div x (num 1000)) 1) +:+ "K")
            else Some ("$" +:+ print (toFixed x 2))
        | _ => None
        end
  end.

Definition formatPercentage (value : value) : option string :=
  match value with
  | VNull | VUndefined => Some "0.0%"
  | _ =>
      if isNaN (numValue value) then Some "0.0%"
      else
        match numValue value with
        | VNum x => Some (print (toFixed x 1) +:+ "%")
        | _ => None
        end
  end.

Definition formatMonths (value : value) : option string :=
  match value with
  | VNull | VUndefined => Some "0.0 mo"
  | _ =>
      if isNaN (numValue value) then Some "0.0 mo"
      else
        match numValue value with
        | VNum x => Some (print (toFixed x 1) +:+ " mo")
        | _ => None
        end
  end.

End WithNumberToString.
End Format.

(** ** The profit chart of the client *)

Module Chart.
Import JsNum Js Schema.

(** The projection that the chart shows for a month: the one of that
    month, or else the last one. *)
Definition monthData (monthlyProjections : list MonthlyProjection)
    (month : nat) : option MonthlyProjection :=
  match List.find (fun m => Nat.eqb (Schema.month m) month) monthlyProjections with
  | Some m => Some m
  | None => monthlyProjections !! (length monthlyProjections - 1)%nat
  end.

End Chart.

(** * Properties *)

(** ** Facts about numbers *)

Module NumFacts.
Import JsNum.

Lemma binary_round_aux_signed s m e l :
  signed_or_nan s (binary_round_aux prec emax s m e l).
Proof.
  unfold binary_round_aux.
  destruct (shr_fexp prec emax m e l) as [mrs' e'].
  destruct (shr_fexp prec emax _ e' loc_Exact) as [mrs'' e''].
  destruct (shr_m mrs''); simpl; trivial.
  destruct (e'' <=? emax - prec); simpl; trivial.
Qed.

Lemma binary_round_signed s m e :
  signed_or_nan s (binary_round prec emax s m e).
Proof.
  unfold binary_round.
  destruct (shl_align m e _) as [mz ez].
  apply binary_round_aux_signed.
Qed.

Lemma of_ratio_signed neg p q : signed_or_nan neg (of_ratio neg p q).
Proof.
  unfold of_ratio.
  destruct (SFdiv_core_binary prec emax (Z.pos p) 0 (Z.pos q) 0) as [[m e] l].
  apply binary_round_aux_signed.
Qed.

Lemma signed_true_not_positive x : signed_or_nan true x -> not_positive x.
Proof.
  destruct x as [s|s| |s m e]; simpl; intros H; subst; reflexivity.
Qed.

(** NaN is absorbing for the four operations. *)

Lemma add_nan_l x : add nan x = nan.
Proof. reflexivity. Qed.

Lemma add_nan_r x : add x nan = nan.
Proof. destruct x; reflexivity. Qed.

Lemma sub_nan_l x : sub nan x = nan.
Proof. reflexivity. Qed.

Lemma sub_nan_r x : sub x nan = nan.
Proof. destruct x; reflexivity. Qed.

Lemma mul_nan_l x : mul nan x = nan.
Proof. reflexivity. Qed.

Lemma mul_nan_r x : mul x nan = nan.
Proof. destruct x; reflexivity. Qed.

Lemma div_nan_l x : div nan x = nan.
Proof. reflexivity. Qed.

Lemma div_nan_r x : div x nan = nan.
Proof. destruct x; reflexivity. Qed.

Create Rewrite HintDb js_nan.
#[export] Hint Rewrite add_nan_l add_nan_r sub_nan_l sub_nan_r
  mul_nan_l mul_nan_r div_nan_l div_nan_r : js_nan.

(** Division by a zero never gives a finite number. *)
Lemma div_zero_not_finite x s : is_finite (div x (S754_zero s)) = false.
Proof. destruct x; reflexivity. Qed.

Lemma num_100_finite : exists m e, num 100 = S754_finite false m e.
Proof. eexists. eexists. vm_compute. reflexivity. Qed.

Lemma mul_100_not_finite x :
  is_finite x = false -> is_finite (mul x (num 100)) = false.
Proof.
  destruct num_100_finite as (m & e & ->).
  destruct x; simpl; intros H; try discriminate; reflexivity.
Qed.

(** The two sides of [x == 0] and [x >= 0]. *)
Lemma eqb_zero_inv x : SFeqb x zero = true -> exists s, x = S754_zero s.
Proof.
  destruct x as [s|s| |s m e]; try discriminate.
  - intros _. exists s. reflexivity.
  - destruct s; discriminate.
  - destruct s; discriminate.
Qed.

Lemma div_finite_signed sx mx ex sy my ey :
  signed_or_nan (xorb sx sy)
    (div (S754_finite sx mx ex) (S754_finite sy my ey)).
Proof.
  unfold div, SFdiv.
  destruct (SFdiv_core_binary prec emax (Z.pos mx) ex (Z.pos my) ey)
    as [[mz ez] lz].
  apply binary_round_aux_signed.
Qed.

(** A number that is not negative divided by one that is not positive is
    never a positive finite number. *)
Lemma div_nonneg_by_nonpos x y :
  leb zero x = true -> leb y zero = true ->
  is_finite (div x y) = false \/ not_positive (div x y).
Proof.
  destruct x as [sx|sx| |sx mx ex], y as [sy|sy| |sy my ey];
    intros Hx Hy; try discriminate.
  - left. reflexivity.
  - right. destruct sx, sy; try discriminate; reflexivity.
  - right. destruct sx, sy; try discriminate; reflexivity.
  - left. reflexivity.
  - left. reflexivity.
  - left. reflexivity.
  - left. reflexivity.
  - right. destruct sx, sy; try discriminate; reflexivity.
  - right. destruct sx, sy; try discriminate.
    apply signed_true_not_positive, (div_finite_signed false mx ex true my ey).
Qed.

End NumFacts.

(** ** Rounding at emission *)

Module Rounding.
Import JsNum Engine NumFacts.

(** From [1e21] upwards the exponent of a number is at least 17. *)
Lemma at_least_ten_pow_21 m e :
  leb ten_pow_21 (S754_finite false m e) = true -> 17 <= e.
Proof.
  change ten_pow_21 with (S754_finite false 7629394531250000 17).
  unfold leb, SFleb, SFcompare.
  destruct (Z.compare_spec 17 e) as [Heq|Hlt|Hgt]; intros H;
    try lia; discriminate H.
Qed.

Lemma roundTo_nan f : roundTo f nan = nan.
Proof. reflexivity. Qed.

Lemma roundTo_not_finite f x : is_finite x = false -> roundTo f x = x.
Proof. destruct x; simpl; intros H; try discriminate; reflexivity. Qed.

Lemma roundTo_zero f s : roundTo f (S754_zero s) = S754_zero false.
Proof. destruct s; reflexivity. Qed.

Lemma toFixed_finite s m e f :
  toFixed (S754_finite s m e) f
  = if leb ten_pow_21 (S754_finite false m e)
    then FS_Shortest s (S754_finite false m e)
    else FS_Decimal s (scaled_nearest (S754_finite false m e) f) f.
Proof. destruct s; reflexivity. Qed.

Lemma roundTo_finite s m e f :
  roundTo f (S754_finite s m e)
  = if leb ten_pow_21 (S754_finite false m e)
    then S754_finite s m e
    else of_decimal s (scaled_nearest (S754_finite false m e) f) (- Z.of_nat f).
Proof.
  unfold roundTo. rewrite toFixed_finite.
  destruct (leb ten_pow_21 (S754_finite false m e)); [destruct s|]; reflexivity.
Qed.

Lemma roundTo_decimal_places f x : decimal_places f (roundTo f x).
Proof.
  destruct x as [s|s| |s m e].
  - rewrite roundTo_zero. right. left. exists false, 0%N. reflexivity.
  - left. reflexivity.
  - left. reflexivity.
  - rewrite roundTo_finite.
    destruct (leb ten_pow_21 (S754_finite false m e)) eqn:Hbig.
    + right. right. exists s, m, e. split; [reflexivity|].
      apply at_least_ten_pow_21 in Hbig. lia.
    + right. left. eexists. eexists. reflexivity.
Qed.

Lemma of_decimal_signed neg n f :
  signed_or_nan neg (of_decimal neg n (- Z.of_nat f)).
Proof.
  destruct n as [|p]; [reflexivity|].
  destruct f as [|f].
  - change (- Z.of_nat 0) with 0. unfold of_decimal.
    change (10 ^ 0) with 1. rewrite Z.mul_1_r.
    destruct neg; apply binary_round_signed.
  - unfold of_decimal. rewrite Nat2Z.inj_succ, <- Z.add_1_r.
    destruct (Z.of_nat f) eqn:Hf; try lia; simpl;
      apply of_ratio_signed.
Qed.

(** Rounding never turns a number that is not positive into a positive
    one. *)
Lemma roundTo_not_positive f x : not_positive x -> not_positive (roundTo f x).
Proof.
  destruct x as [s|s| |s m e]; intros H.
  - rewrite roundTo_zero. reflexivity.
  - exact H.
  - exact H.
  - destruct s; [|discriminate H].
    rewrite roundTo_finite.
    destruct (leb ten_pow_21 (S754_finite false m e)); [reflexivity|].
    apply signed_true_not_positive, of_decimal_signed.
Qed.




End Rounding.

(** ** The functions of the program, stage by stage *)

Module Stages.
Import JsNum Js Schema Engine.

Lemma calculateFinancialMetrics_stages (project scenario : obj) :
  Client.calculateFinancialMetrics project scenario
  = metricsOf (Number project.["initialInvestment"]) (adjust project scenario)
      scenario.["name"].
Proof. reflexivity. Qed.

Lemma generateMonthlyProjections_stages (project scenario : obj) :
  Client.generateMonthlyProjections project scenario
  = map (projectionOf (adjust project scenario)) (seq 0 12).
Proof. reflexivity. Qed.

Lemma scenarioCalculations_stages (pws : ProjectWithScenarios) :
  Server.scenarioCalculations pws
  = map (fun scenario =>
           {| scenario := scenario;
              financialMetrics :=
                metricsOf (Number (project pws).["initialInvestment"])
                  (adjust (project pws) scenario) scenario.["name"];
              monthlyProjections :=
                map (projectionOf (adjust (project pws) scenario)) (seq 0 12) |})
      (scenarios pws).
Proof. reflexivity. Qed.

Lemma map_scenario_scenarioCalculations (pws : ProjectWithScenarios) :
  map scenario (Server.scenarioCalculations pws) = scenarios pws.
Proof.
  rewrite scenarioCalculations_stages, map_map. apply map_id.
Qed.

End Stages.

(** ** The worked examples *)

Section WorkedExamples.
Import JsNum Js Schema Engine Examples.

(** C1, as stated, fails in one figure: the adjusted monthly revenue of the
    pessimistic example is not 16200. The product [15000 * (1 + 8 / 100)]
    of binary64 numbers is the next number above it, and the comparison
    [===] with 16200 is false. *)
Lemma pessimistic_adjusted_revenue_is_not_16200 :
  adjustedMonthlyRevenue (adjust exampleProject pessimistic)
    = StringToNumber "16200.000000000002"
  /\ adjustedMonthlyRevenue (adjust exampleProject pessimistic) <> num 16200
  /\ SFeqb (adjustedMonthlyRevenue (adjust exampleProject pessimistic))
       (StringToNumber "16200") = false.
Proof.
  split; [vm_compute; reflexivity|].
  split; [vm_compute; discriminate|].
  vm_compute; reflexivity.
Qed.

(** C1, amended: for the project of the specification with the realistic
    scenario, the metrics are ROI 211.2, break-even 5.7, net profit 105600,
    profit margin 51 and risk Medium; with the pessimistic scenario the
    adjusted figures are revenue 16200.000000000002 (which is 16200 once
    rounded to two decimals), fixed costs 5750 and variable rate 23, and the
    projection of month 1 is revenue 16200, expenses 9476, profit 6724. The
    server-side calculation returns the same metrics and projection. *)
Theorem worked_examples :
  Client.calculateFinancialMetrics exampleProject realistic
  = {| roi := StringToNumber "211.2";
       breakEven := StringToNumber "5.7";
       netProfit := StringToNumber "105600";
       profitMargin := StringToNumber "51.0";
       riskLevel := Medium |}
  /\ adjust exampleProject pessimistic
     = {| adjustedMonthlyRevenue := StringToNumber "16200.000000000002";
          adjustedMonthlyFixedCosts := StringToNumber "5750";
          adjustedVariableCosts := StringToNumber "23" |}
  /\ roundTo 2 (adjustedMonthlyRevenue (adjust exampleProject pessimistic))
     = StringToNumber "16200"
  /\ head (Client.generateMonthlyProjections exampleProject pessimistic)
     = Some {| month := 1;
               revenue := StringToNumber "16200";
               expenses := StringToNumber "9476";
               profit := StringToNumber "6724" |}
  /\ map financialMetrics
       (Server.scenarioCalculations
          {| project := exampleProject; scenarios := [realistic] |})
     = [Client.calculateFinancialMetrics exampleProject realistic]
  /\ map (fun c => head (monthlyProjections c))
       (Server.scenarioCalculations
          {| project := exampleProject; scenarios := [pessimistic] |})
     = [head (Client.generateMonthlyProjections exampleProject pessimistic)].
Proof.
  repeat match goal with |- _ /\ _ => split end; vm_compute; reflexivity.
Qed.

End WorkedExamples.

(** ** The aggregation of scenarios *)

Section Aggregation.
Import JsNum Js Schema Storage Handler Engine Examples.

(** C2, as stated, fails: nothing in the handler or in the storage filters
    on [enabled]. In the sample database the pessimistic scenario is
    switched off, and the analysis lists it all the same. *)
Lemma disabled_scenario_in_bundle :
  exists body,
    post_api_analysis exampleDatabase 1 1 = Json body
    /\ map scenario (analysis_scenarios body)
       = [realistic; optimistic; pessimisticDisabled]
    /\ pessimisticDisabled.["enabled"] = VBool false.
Proof.
  exists (Server.analysis
            {| project := exampleProject;
               scenarios := [realistic; optimistic; pessimisticDisabled] |}).
  split; [vm_compute; reflexivity|].
  split; [apply Stages.map_scenario_scenarioCalculations|].
  vm_compute; reflexivity.
Qed.

Lemma getProjectWithScenarios_scenarios db projectId pws :
  getProjectWithScenarios db projectId = Some pws ->
  scenarios pws = List.filter (column_eq "projectId" projectId) (tbl_scenarios db).
Proof.
  unfold getProjectWithScenarios.
  destruct (getProject db projectId); [|discriminate].
  intros [= <-]. reflexivity.
Qed.

(** C2, amended: whenever the handler answers with an analysis, the
    scenarios of the analysis are all the scenario rows of the project,
    enabled or not, in the order of the table. *)
Theorem bundle_lists_every_scenario db userId projectId body :
  post_api_analysis db userId projectId = Json body ->
  map scenario (analysis_scenarios body)
  = List.filter (column_eq "projectId" projectId) (tbl_scenarios db).
Proof.
  unfold post_api_analysis.
  destruct (projectId =? 0); [discriminate|].
  destruct (getProject db projectId) as [projectInfo|]; [|discriminate].
  destruct (negb _); [discriminate|].
  destruct (getProjectWithScenarios db projectId) as [pws|] eqn:Hpws;
    [|discriminate].
  intros [= <-]. simpl.
  rewrite Stages.map_scenario_scenarioCalculations.
  eapply getProjectWithScenarios_scenarios, Hpws.
Qed.

Lemma bundle_lists_every_scenario_witness :
  map scenario
    (analysis_scenarios
       (Server.analysis
          {| project := exampleProject;
             scenarios := [realistic; optimistic; pessimisticDisabled] |}))
  = List.filter (column_eq "projectId" 1) (tbl_scenarios exampleDatabase).
Proof.
  apply (bundle_lists_every_scenario exampleDatabase 1 1).
  vm_compute. reflexivity.
Defined.

End Aggregation.

(** ** Monthly projections, cost breakdown, risk level *)

Section Components.
Import JsNum Js Schema Engine Examples Rounding.
Local Open Scope js_scope.



(** C5: the cost breakdown passes the initial investment through and
    annualises the base fixed costs and the base variable costs; it reads
    the project only, so that it is the same for every list of scenarios.
    The client-side function computes the same breakdown. *)
Theorem cost_breakdown_ignores_scenarios (project : obj)
    (scenarios1 scenarios2 : list obj) :
  costBreakdown
    (Server.analysis {| Schema.project := project; scenarios := scenarios1 |})
  = costBreakdown
      (Server.analysis {| Schema.project := project; scenarios := scenarios2 |})
  /\ costBreakdown
       (Server.analysis {| Schema.project := project; scenarios := scenarios1 |})
     = {| initialInvestment := Number project.["initialInvestment"];
          fixedCosts := Number project.["monthlyFixedCosts"] * num 12;
          variableCosts :=
            Number project.["expectedMonthlyRevenue"]
            * (Number project.["variableCosts"] / num 100) * num 12 |}
  /\ Client.generateCostBreakdown project
     = costBreakdown
         (Server.analysis
            {| Schema.project := project; scenarios := scenarios1 |}).
Proof. repeat split. Qed.

(** C6: the risk level is read off the name of the scenario: Low for
    Optimistic, Medium for Realistic and High for every other name. It is
    the same function of the name for every project and whatever the other
    fields of the scenario are, on the client and on the server. *)
Theorem risk_level_by_name (project scenario : obj) :
  riskLevel (Client.calculateFinancialMetrics project scenario)
  = riskOfName scenario.["name"]
  /\ riskOfName (VStr "Optimistic") = Low
  /\ riskOfName (VStr "Realistic") = Medium
  /\ riskOfName (VStr "Pessimistic") = High
  /\ (forall name : string,
        name <> "Optimistic" -> name <> "Realistic" ->
        riskOfName (VStr name) = High)
  /\ (forall pws,
        map (fun c => riskLevel (financialMetrics c))
          (Server.scenarioCalculations pws)
        = map (fun s => riskOfName s.["name"]) (scenarios pws)).
Proof.
  split; [reflexivity|].
  split; [reflexivity|].
  split; [reflexivity|].
  split; [reflexivity|].
  split.
  - intros name H1 H2. unfold riskOfName, is_string.
    destruct (String.eqb_spec name "Optimistic") as [->|_]; [contradiction|].
    destruct (String.eqb_spec name "Realistic") as [->|_]; [contradiction|].
    reflexivity.
  - intros pws. rewrite Stages.scenarioCalculations_stages, map_map.
    reflexivity.
Qed.

Lemma risk_level_by_name_witness :
  riskOfName (VStr "Conservative") = High.
Proof.
  apply (risk_level_by_name Examples.exampleProject Examples.realistic);
    discriminate.
Defined.

(** C7: the server-side calculation and the client-side functions agree:
    for every project and every list of scenarios, the entry of the
    analysis for a scenario is made of the metrics and the projections that
    the client-side functions return for it, and the cost breakdown of the
    analysis is the one the client-side function returns. *)
Theorem client_and_server_agree (pws : ProjectWithScenarios) :
  analysis_scenarios (Server.analysis pws)
  = map (fun s =>
           {| scenario := s;
              financialMetrics :=
                Client.calculateFinancialMetrics (Schema.project pws) s;
              monthlyProjections :=
                Client.generateMonthlyProjections (Schema.project pws) s |})
      (scenarios pws)
  /\ costBreakdown (Server.analysis pws)
     = Client.generateCostBreakdown (Schema.project pws).
Proof. split; reflexivity. Qed.

End Components.

(** ** Non-finite and non-positive results *)

Section NonFinite.
Import JsNum Js Schema Engine Examples NumFacts Rounding.

(** C4, as stated, fails in its second half: a project without initial
    investment that loses money every month has the quotient
    [0 / monthlyProfit], a zero, for break-even, and the value returned is
    the number 0, which is finite and not negative. Its ROI is
    [-Infinity]. *)
Lemma break_even_zero_without_investment :
  let a := adjust losingProject realistic in
  let initialInvestment := Number losingProject.["initialInvestment"] in
  let m := Client.calculateFinancialMetrics losingProject realistic in
  SFeqb initialInvestment zero = true
  /\ leb (monthlyProfit a) zero = true
  /\ rawBreakEven initialInvestment a = S754_zero true
  /\ is_finite (rawBreakEven initialInvestment a) = true
  /\ ltb (rawBreakEven initialInvestment a) zero = false
  /\ breakEven m = zero
  /\ is_finite (breakEven m) = true
  /\ ltb (breakEven m) zero = false
  /\ roi m = infinity true.
Proof.
  intros a initialInvestment m.
  repeat match goal with |- _ /\ _ => split end; vm_compute; reflexivity.
Qed.

Lemma breakEven_stages (project scenario : obj) :
  breakEven (Client.calculateFinancialMetrics project scenario)
  = roundTo 1 (rawBreakEven (Number project.["initialInvestment"])
                 (adjust project scenario)).
Proof. reflexivity. Qed.

Lemma roi_stages (project scenario : obj) :
  roi (Client.calculateFinancialMetrics project scenario)
  = roundTo 1 (rawRoi (Number project.["initialInvestment"])
                 (adjust project scenario)).
Proof. reflexivity. Qed.

(** C4, amended: when the initial investment is zero the computed ROI is
    not finite and is returned as it is. When the initial investment is not
    negative and the monthly profit is not positive, the computed
    break-even is not finite or not greater than zero (negative, or a zero
    when the investment is zero or the quotient underflows); it is returned
    after the rounding to one decimal and nothing else, so that the value
    returned is again not finite or not greater than zero, and a non-finite
    quotient is returned unchanged. *)
Theorem non_finite_results_are_returned (project scenario : obj) :
  let a := adjust project scenario in
  let initialInvestment := Number project.["initialInvestment"] in
  let m := Client.calculateFinancialMetrics project scenario in
  (SFeqb initialInvestment zero = true ->
     is_finite (rawRoi initialInvestment a) = false
     /\ roi m = rawRoi initialInvestment a)
  /\ (leb zero initialInvestment = true ->
      leb (monthlyProfit a) zero = true ->
        (is_finite (rawBreakEven initialInvestment a) = false
         \/ ltb zero (rawBreakEven initialInvestment a) = false)
        /\ breakEven m = roundTo 1 (rawBreakEven initialInvestment a)
        /\ (is_finite (rawBreakEven initialInvestment a) = false ->
            breakEven m = rawBreakEven initialInvestment a)
        /\ (is_finite (breakEven m) = false
            \/ ltb zero (breakEven m) = false)).
Proof.
  intros a initialInvestment m. subst m. split.
  - intros Hzero. apply eqb_zero_inv in Hzero as [s Hs].
    assert (Hroi : is_finite (rawRoi initialInvestment a) = false).
    { unfold rawRoi. rewrite Hs.
      apply mul_100_not_finite, div_zero_not_finite. }
    split; [exact Hroi|].
    rewrite roi_stages. apply roundTo_not_finite, Hroi.
  - intros Hinv Hprofit. rewrite breakEven_stages.
    fold initialInvestment a.
    pose proof (div_nonneg_by_nonpos _ _ Hinv Hprofit) as Hq.
    fold (rawBreakEven initialInvestment a) in Hq.
    split; [exact Hq|].
    split; [reflexivity|].
    split; [apply roundTo_not_finite|].
    destruct Hq as [Hq|Hq].
    + left. rewrite roundTo_not_finite by exact Hq. exact Hq.
    + right. apply roundTo_not_positive, Hq.
Qed.

Lemma non_finite_results_are_returned_witness :
  let a := adjust losingProject realistic in
  let initialInvestment := Number losingProject.["initialInvestment"] in
  let m := Client.calculateFinancialMetrics losingProject realistic in
  (is_finite (rawRoi initialInvestment a) = false
   /\ roi m = rawRoi initialInvestment a)
  /\ (is_finite (breakEven m) = false \/ ltb zero (breakEven m) = false).
Proof.
  intros a initialInvestment m.
  destruct (non_finite_results_are_returned losingProject realistic)
    as [Hroi Hbreak].
  split.
  - apply Hroi. vm_compute. reflexivity.
  - apply Hbreak; vm_compute; reflexivity.
Defined.

(** C8: every number of the metrics carries at most one decimal digit, the
    net profit at most two, and every number of a projection at most two.
    The rounding is the last step: the break-even is the rounded quotient
    of the initial investment and the unrounded monthly profit, and the
    three numbers of a projection entry are the roundings of the unrounded
    revenue, of the expenses computed from the unrounded revenue and of the
    difference of the unrounded revenue and expenses. *)
Theorem rounding_at_output_boundary (project scenario : obj) :
  let a := adjust project scenario in
  let initialInvestment := Number project.["initialInvestment"] in
  let m := Client.calculateFinancialMetrics project scenario in
  let l := Client.generateMonthlyProjections project scenario in
  decimal_places 1 (roi m)
  /\ decimal_places 1 (breakEven m)
  /\ decimal_places 2 (netProfit m)
  /\ decimal_places 1 (profitMargin m)
  /\ Forall (fun p => decimal_places 2 (revenue p)
                      /\ decimal_places 2 (expenses p)
                      /\ decimal_places 2 (profit p)) l
  /\ breakEven m = roundTo 1 (div initialInvestment (monthlyProfit a))
  /\ l = map (fun i =>
            {| month := i + 1;
               revenue := roundTo 2 (monthRevenue a i);
               expenses := roundTo 2 (monthExpenses a i);
               profit := roundTo 2 (sub (monthRevenue a i) (monthExpenses a i)) |})
         (seq 0 12).
Proof.
  intros a initialInvestment m l. subst m l.
  rewrite Stages.calculateFinancialMetrics_stages.
  rewrite Stages.generateMonthlyProjections_stages.
  unfold metricsOf. cbn [roi breakEven netProfit profitMargin].
  repeat match goal with |- _ /\ _ => split end;
    try apply roundTo_decimal_places; try reflexivity.
  apply Forall_map, Forall_forall. intros i _.
  unfold projectionOf. cbn [revenue expenses profit].
  repeat split; apply roundTo_decimal_places.
Qed.

(** The rounded numbers do not feed back: in the first month of this
    example the emitted profit is 1, whereas the difference of the emitted
    revenue and the emitted expenses would round to 0.99. *)
Lemma rounded_figures_do_not_feed_back :
  exists p,
    head (Client.generateMonthlyProjections centsProject flatScenario) = Some p
    /\ revenue p = StringToNumber "1"
    /\ expenses p = StringToNumber "0.01"
    /\ profit p = StringToNumber "1"
    /\ roundTo 2 (sub (revenue p) (expenses p)) = StringToNumber "0.99".
Proof.
  eexists. split; [vm_compute; reflexivity|].
  repeat match goal with |- _ /\ _ => split end; vm_compute; reflexivity.
Qed.

End NonFinite.

(** ** Absent input fields *)

Section AbsentFields.
Import JsNum Js Schema Storage Handler Engine Examples NumFacts Rounding.

(** C9, as stated, fails: no step of the calculation raises an error. A
    property that the object lacks reads as [undefined], [Number] turns it
    into NaN, and the call returns metrics that are NaN. Here the scenario
    lacks its growth rate; and for a project row without initial
    investment the handler answers with an analysis, not with an error. *)
Lemma absent_field_is_not_an_error :
  delete "growthRate" realistic !! "growthRate" = None
  /\ Client.calculateFinancialMetrics exampleProject
       (delete "growthRate" realistic)
     = {| roi := nan; breakEven := nan; netProfit := nan; profitMargin := nan;
          riskLevel := Medium |}
  /\ map financialMetrics
       (Server.scenarioCalculations
          {| project := exampleProject;
             scenarios := [delete "growthRate" realistic] |})
     = [{| roi := nan; breakEven := nan; netProfit := nan;
           profitMargin := nan; riskLevel := Medium |}]
  /\ post_api_analysis incompleteDatabase 1 1
     = Json (Server.analysis
               {| project := delete "initialInvestment" exampleProject;
                  scenarios := [realistic] |}).
Proof.
  repeat match goal with |- _ /\ _ => split end; vm_compute; reflexivity.
Qed.

Lemma get_absent (o : obj) (k : string) : o !! k = None -> Number o.[k] = nan.
Proof. intros H. unfold get. rewrite H. reflexivity. Qed.

(** C9, amended: the calculation never raises an error, whether a numeric
    input is zero, negative or absent. It returns metrics for every project
    and scenario object, and when one of the six numeric inputs is absent
    the ROI and the break-even it returns are NaN, on the client and on the
    server. *)
Theorem absent_field_yields_NaN (project scenario : obj) :
  project !! "initialInvestment" = None
  \/ project !! "monthlyFixedCosts" = None
  \/ project !! "variableCosts" = None
  \/ project !! "expectedMonthlyRevenue" = None
  \/ scenario !! "growthRate" = None
  \/ scenario !! "costAdjustment" = None ->
  exists m,
    Client.calculateFinancialMetrics project scenario = m
    /\ map financialMetrics
         (Server.scenarioCalculations
            {| Schema.project := project; scenarios := [scenario] |}) = [m]
    /\ roi m = nan
    /\ breakEven m = nan.
Proof.
  intros H. eexists. split; [reflexivity|]. split; [reflexivity|].
  rewrite Stages.calculateFinancialMetrics_stages.
  unfold metricsOf. cbn [roi breakEven].
  unfold rawRoi, rawBreakEven, annualProfit, monthlyProfit, annualRevenue,
    adjust.
  cbn [adjustedMonthlyRevenue adjustedMonthlyFixedCosts adjustedVariableCosts].
  destruct H as [H|[H|[H|[H|[H|H]]]]];
    rewrite (get_absent _ _ H);
    autorewrite with js_nan; split; apply roundTo_nan.
Qed.

Lemma absent_field_yields_NaN_witness :
  exists m,
    Client.calculateFinancialMetrics
      (delete "initialInvestment" exampleProject) realistic = m
    /\ map financialMetrics
         (Server.scenarioCalculations
            {| project := delete "initialInvestment" exampleProject;
               scenarios := [realistic] |}) = [m]
    /\ roi m = nan
    /\ breakEven m = nan.
Proof.
  apply (absent_field_yields_NaN
           (delete "initialInvestment" exampleProject) realistic).
  left. vm_compute. reflexivity.
Defined.

End AbsentFields.

(** ** Facts about lists *)

Section ListFacts.

Lemma filter_negb_all {A : Type} (f : A -> bool) (l : list A) :
  List.filter f l = [] -> List.filter (fun x => negb (f x)) l = l.
Proof.
  induction l as [|x l IH]; simpl; [reflexivity|].
  destruct (f x); simpl; [discriminate|]. intros H. f_equal. exact (IH H).
Qed.

Lemma filter_filter_negb {A : Type} (f : A -> bool) (l : list A) :
  List.filter f (List.filter (fun x => negb (f x)) l) = [].
Proof.
  induction l as [|x l IH]; simpl; [reflexivity|].
  destruct (f x) eqn:Hx; simpl; [exact IH|]. rewrite Hx. exact IH.
Qed.

Lemma filter_all {A : Type} (f : A -> bool) (l : list A) :
  Forall (fun x => f x = true) l -> List.filter f l = l.
Proof.
  induction 1 as [|x l Hx _ IH]; simpl; [reflexivity|].
  rewrite Hx. f_equal. exact IH.
Qed.

(** Replacing the selected elements of a list and moving them to its end
    yields the list with each selected element replaced, up to order. *)
Lemma moved_to_end_permutation {A : Type} (f : A -> bool) (g : A -> A)
    (l : list A) :
  List.filter (fun x => negb (f x)) l ++ map g (List.filter f l)
  ≡ₚ map (fun x => if f x then g x else x) l.
Proof.
  induction l as [|x l IH]; simpl; [reflexivity|].
  destruct (f x); simpl.
  - rewrite <- Permutation_middle. constructor. exact IH.
  - constructor. exact IH.
Qed.

Lemma elem_of_filter_bool {A : Type} (f : A -> bool) (l : list A) (x : A) :
  x ∈ List.filter f l <-> x ∈ l /\ f x = true.
Proof. rewrite !list_elem_of_In. apply List.filter_In. Qed.

Lemma head_map_Some {A B : Type} (f : A -> B) (l : list A) (y : B) :
  head (map f l) = Some y -> exists x, head l = Some x /\ y = f x.
Proof.
  destruct l as [|x l]; simpl; [discriminate|].
  intros [= <-]. exists x. split; reflexivity.
Qed.

Lemma head_elem_of {A : Type} (l : list A) (x : A) : head l = Some x -> x ∈ l.
Proof. destruct l; simpl; [discriminate|]. intros [= ->]. left. Qed.

Lemma existsb_false_filter {A : Type} (f : A -> bool) (l : list A) :
  existsb f l = false -> List.filter f l = [].
Proof.
  induction l as [|x l IH]; simpl; [reflexivity|].
  destruct (f x); simpl; [discriminate|exact IH].
Qed.

Lemma map_if_same {A : Type} (f : A -> bool) (l : list A) :
  map (fun x => if f x then x else x) l = l.
Proof.
  induction l as [|x l IH]; simpl; [reflexivity|].
  rewrite IH. destruct (f x); reflexivity.
Qed.

End ListFacts.

(** ** Facts about the statements of the database *)

Module StorageFacts.
Import JsNum Js Schema Transform Storage.

Section WithDatabase.

Variable column_input : ColumnType -> value -> option value.
Variable users : list obj.

(** A value that is neither [undefined] nor [null] is written as the
    database takes it. *)
Lemma column_value_present omitted (values : obj) (c : Column) o :
  column_value column_input omitted values c = Some o ->
  present values.[col_name c] = true ->
  o = column_input (col_type c) values.[col_name c] /\ is_Some o.
Proof.
  unfold column_value. intros H Hp.
  destruct (values.[col_name c]) eqn:Hv; try discriminate Hp;
    destruct (column_input (col_type c) _) as [stored|];
    try discriminate H; injection H as <-; split; eauto.
Qed.

Lemma column_value_undefined omitted (values : obj) (c : Column) :
  values.[col_name c] = VUndefined ->
  column_value column_input omitted values c = Some (omitted c).
Proof. unfold column_value. intros ->. reflexivity. Qed.

Lemma column_value_null omitted (values : obj) (c : Column) :
  values.[col_name c] = VNull ->
  column_value column_input omitted values c = Some (Some VNull).
Proof. unfold column_value. intros ->. reflexivity. Qed.

(** A statement writes nothing outside the columns of its table. *)
Lemma bind_lookup_other omitted columns (values bound : obj) (k : string) :
  bind column_input omitted columns values = Some bound ->
  (forall c, c ∈ columns -> col_name c <> k) ->
  bound !! k = None.
Proof.
  revert bound. induction columns as [|c columns IH]; simpl; intros bound Hb Hk.
  - injection Hb as <-. apply lookup_empty.
  - destruct (bind column_input omitted columns values) as [b|];
      [|discriminate].
    assert (Hrest : b !! k = None).
    { apply IH; [reflexivity|]. intros c' Hc'. apply Hk. right. exact Hc'. }
    destruct (column_value column_input omitted values c) as [[v|]|];
      try discriminate; injection Hb as <-; [|exact Hrest].
    rewrite lookup_insert_ne by (apply Hk; left).
    exact Hrest.
Qed.

(** What a statement writes to each column of its table. *)
Lemma bind_lookup omitted columns (values bound : obj) (c : Column) :
  NoDup (col_name <$> columns) ->
  bind column_input omitted columns values = Some bound ->
  c ∈ columns ->
  column_value column_input omitted values c = Some (bound !! col_name c).
Proof.
  revert bound. induction columns as [|c0 columns IH]; simpl;
    intros bound Hnd Hb Hc.
  - apply elem_of_nil in Hc. contradiction.
  - apply NoDup_cons in Hnd as [Hfresh Hnd].
    destruct (bind column_input omitted columns values) as [b|] eqn:Hrest;
      [|discriminate].
    assert (Hb0 : b !! col_name c0 = None).
    { apply (bind_lookup_other omitted columns values); [exact Hrest|].
      intros c' Hc' Heq. apply Hfresh. rewrite <- Heq.
      apply list_elem_of_fmap_2. exact Hc'. }
    apply elem_of_cons in Hc as [->|Hc].
    + destruct (column_value column_input omitted values c0) as [[v|]|];
        try discriminate; injection Hb as <-.
      * rewrite lookup_insert_eq. reflexivity.
      * rewrite Hb0. reflexivity.
    + assert (Hne : col_name c0 <> col_name c).
      { intros Heq. apply Hfresh. rewrite Heq.
        apply list_elem_of_fmap_2. exact Hc. }
      rewrite (IH b Hnd eq_refl Hc).
      destruct (column_value column_input omitted values c0) as [[v|]|];
        try discriminate; injection Hb as <-; [|reflexivity].
      rewrite lookup_insert_ne by exact Hne. reflexivity.
Qed.

Lemma NoDup_projects : NoDup (col_name <$> pgTable.projects).
Proof. apply (bool_decide_unpack _). vm_compute. reflexivity. Qed.

Lemma NoDup_scenarios : NoDup (col_name <$> pgTable.scenarios).
Proof. apply (bool_decide_unpack _). vm_compute. reflexivity. Qed.

Lemma set_values_lookup (bound row : obj) (k : string) (v : value) :
  bound !! k = Some v -> set_values bound row !! k = Some v.
Proof. intros H. apply lookup_union_Some_l. exact H. Qed.

Lemma set_values_lookup_other (bound row : obj) (k : string) :
  bound !! k = None -> set_values bound row !! k = row !! k.
Proof. intros H. apply lookup_union_r. exact H. Qed.

Lemma column_eq_set_values (bound row : obj) (c : string) (id : Z) :
  bound !! c = None ->
  column_eq c id (set_values bound row) = column_eq c id row.
Proof.
  intros H. unfold column_eq, get.
  rewrite set_values_lookup_other by exact H. reflexivity.
Qed.

(** After an update that does not touch the column of its condition, the
    rows that meet the condition are the rewritten ones. *)
Lemma filter_updated (matches : obj -> bool) (bound : obj) (rows : list obj) :
  (forall row, matches (set_values bound row) = matches row) ->
  List.filter matches
    (List.filter (fun row => negb (matches row)) rows
     ++ map (set_values bound) (List.filter matches rows))
  = map (set_values bound) (List.filter matches rows).
Proof.
  intros H. rewrite List.filter_app, filter_filter_negb. simpl.
  apply filter_all, Forall_forall. intros row' Hin.
  apply list_elem_of_In, List.in_map_iff in Hin as (row & <- & Hrow).
  rewrite H. apply List.filter_In in Hrow as [_ Hm]. exact Hm.
Qed.

Lemma updated_rows (matches : obj -> bool) (bound : obj) (rows : list obj)
    (row' : obj) :
  (forall row, matches (set_values bound row) = matches row) ->
  row' ∈ List.filter (fun row => negb (matches row)) rows
         ++ map (set_values bound) (List.filter matches rows) ->
  matches row' = true ->
  exists row, row ∈ rows /\ matches row = true /\ row' = set_values bound row.
Proof.
  intros H Hin Hm. apply elem_of_app in Hin as [Hin|Hin].
  - apply elem_of_filter_bool in Hin as [_ Hneg].
    rewrite Hm in Hneg. discriminate Hneg.
  - apply list_elem_of_In, List.in_map_iff in Hin as (row & <- & Hrow).
    apply List.filter_In in Hrow as [Hrow Hmr].
    exists row. split; [apply list_elem_of_In; exact Hrow|].
    split; [exact Hmr|reflexivity].
Qed.

(** A row that an update leaves under its condition, and a row that it
    returns, is a row stored before with the values written over it. *)
Lemma written_row (matches : obj -> bool) (bound : obj) (rows rows' : list obj)
    (returned : option obj) (row' : obj) :
  (forall row, matches (set_values bound row) = matches row) ->
  rows' = List.filter (fun row => negb (matches row)) rows
          ++ map (set_values bound) (List.filter matches rows) ->
  returned = head (map (set_values bound) (List.filter matches rows)) ->
  (row' ∈ rows' /\ matches row' = true) \/ returned = Some row' ->
  exists row, row ∈ rows /\ matches row = true /\ row' = set_values bound row.
Proof.
  intros Hid -> -> [[Hin Hm]|Hr].
  - exact (updated_rows _ _ _ _ Hid Hin Hm).
  - apply head_map_Some in Hr as (row & Hhead & ->).
    apply head_elem_of, elem_of_filter_bool in Hhead as [Hin Hm].
    exists row. repeat split; assumption.
Qed.

(** The stored values satisfy the constraints of their columns. *)
Lemma constraints_ok_lookup db columns (written : obj) (c : Column) (v : value) :
  constraints_ok users db columns written = true ->
  c ∈ columns -> written !! col_name c = Some v ->
  constraint_ok users db c v = true.
Proof.
  unfold constraints_ok. rewrite forallb_forall. intros H Hc Hv.
  specialize (H c (proj1 (list_elem_of_In _ _) Hc)).
  rewrite Hv in H. exact H.
Qed.

(** The anatomy of an update that the database accepts. *)
Lemma update_accepted db columns matches (values : obj) rows rows' returned :
  update column_input users db columns matches values rows
  = Some (rows', returned) ->
  exists bound,
    bind column_input (fun _ => None) columns values = Some bound
    /\ returned = map (set_values bound) (List.filter matches rows)
    /\ rows' = List.filter (fun row => negb (matches row)) rows ++ returned
    /\ (returned <> [] -> constraints_ok users db columns bound = true).
Proof.
  unfold update.
  destruct (bind column_input (fun _ => None) columns values) as [bound|];
    [|discriminate].
  destruct (List.filter matches rows) as [|row l] eqn:Hf; simpl.
  - intros [= <- <-]. exists bound.
    split; [reflexivity|]. split; [reflexivity|]. split.
    + rewrite filter_negb_all by exact Hf. rewrite app_nil_r. reflexivity.
    + intros H. contradiction.
  - destruct (constraints_ok users db columns bound) eqn:Hc; [|discriminate].
    intros [= <- <-]. exists bound.
    split; [reflexivity|]. split; [reflexivity|]. split; [reflexivity|].
    intros _. exact Hc.
Qed.

End WithDatabase.
End StorageFacts.

(** ** Facts about the two update operations *)

Module UpdateFacts.
Import JsNum Js Schema Transform Storage StorageFacts.

Section WithDatabase.

Variable column_input : ColumnType -> value -> option value.
Variable users : list obj.
Variable NumberToString : number -> string.

Lemma get_omitted (o : obj) (k : string) : o !! k = None -> o.[k] = VUndefined.
Proof. intros H. unfold get. rewrite H. reflexivity. Qed.

Lemma get_undefined_inv (v : value) : defined v = false -> v = VUndefined.
Proof. destruct v; intros H; try discriminate H; reflexivity. Qed.

(** The scenario data that [transformScenarioData] hands on for an
    object. *)
Lemma transformScenarioData_get (data : obj) :
  let t := transformScenarioData NumberToString (VObj data) in
  t.["projectId"] = data.["projectId"]
  /\ t.["name"] = data.["name"]
  /\ t.["enabled"]
     = (if defined data.["enabled"] then VBool (truthy data.["enabled"])
        else VUndefined)
  /\ t.["growthRate"]
     = VStr (if present data.["growthRate"]
             then ToString NumberToString data.["growthRate"] else "0")
  /\ t.["costAdjustment"]
     = VStr (if present data.["costAdjustment"]
             then ToString NumberToString data.["costAdjustment"] else "0").
Proof.
  intros t. subst t. unfold transformScenarioData. cbn [truthy negb].
  destruct (defined data.["projectId"]) eqn:H1,
    (defined data.["name"]) eqn:H2,
    (defined data.["enabled"]) eqn:H3,
    (present data.["growthRate"]), (present data.["costAdjustment"]);
    repeat match goal with |- _ /\ _ => split end;
    try reflexivity;
    match goal with
    | H : defined ?v = false |- _ = ?v =>
        destruct v; try discriminate H; reflexivity
    end.
Qed.

(** A value that is truthy and no object is transformed like the empty
    object. *)
Lemma transformScenarioData_truthy (v : value) :
  truthy v = true ->
  transformScenarioData NumberToString v
  = transformScenarioData NumberToString
      (VObj match v with VObj o => o | _ => ∅ end).
Proof.
  intros H. unfold transformScenarioData. rewrite H. reflexivity.
Qed.

(** The update object that [updateScenario] builds reads like the
    transformed data in the four columns it may carry, and has no other
    property. *)
Lemma updateScenario_unfold (db : Database) (id : Z) (scenarioUpdate : value) :
  let t := transformScenarioData NumberToString scenarioUpdate in
  exists updateObj : obj,
    updateObj.["name"] = t.["name"]
    /\ updateObj.["enabled"] = t.["enabled"]
    /\ updateObj.["growthRate"] = t.["growthRate"]
    /\ updateObj.["costAdjustment"] = t.["costAdjustment"]
    /\ (forall k, k <> "name" -> k <> "enabled" -> k <> "growthRate" ->
                  k <> "costAdjustment" -> updateObj !! k = None)
    /\ (defined t.["growthRate"] = true -> (size updateObj =? 0)%nat = false)
    /\ (truthy scenarioUpdate = false -> updateObj = ∅)
    /\ updateScenario column_input users NumberToString db id scenarioUpdate
       = if negb (id_ok column_input id) then (db, Rejected)
         else if (size updateObj =? 0)%nat
         then (db, Resolved (head (List.filter (column_eq "id" id)
                                     (tbl_scenarios db))))
         else
           match update column_input users db pgTable.scenarios
                   (column_eq "id" id) updateObj (tbl_scenarios db) with
           | None => (db, Rejected)
           | Some (rows, returned) =>
               ({| tbl_projects := tbl_projects db; tbl_scenarios := rows |},
                Resolved (head returned))
           end.
Proof.
  intros t. unfold updateScenario. fold t. cbv zeta.
  match goal with
  | |- context [(size ?u =? 0)%nat] => exists u
  end.
  repeat match goal with |- _ /\ _ => split end; try reflexivity.
  - destruct (defined t.["name"]) eqn:H1, (defined t.["enabled"]) eqn:H2,
      (defined t.["growthRate"]) eqn:H3, (defined t.["costAdjustment"]) eqn:H4;
      unfold get at 1;
      rewrite ?lookup_insert_ne by discriminate;
      rewrite ?lookup_insert_eq, ?lookup_empty; cbn [default];
      try reflexivity; symmetry; apply get_undefined_inv; assumption.
  - destruct (defined t.["name"]) eqn:H1, (defined t.["enabled"]) eqn:H2,
      (defined t.["growthRate"]) eqn:H3, (defined t.["costAdjustment"]) eqn:H4;
      unfold get at 1;
      rewrite ?lookup_insert_ne by discriminate;
      rewrite ?lookup_insert_eq, ?lookup_empty; cbn [default];
      try reflexivity; symmetry; apply get_undefined_inv; assumption.
  - destruct (defined t.["name"]) eqn:H1, (defined t.["enabled"]) eqn:H2,
      (defined t.["growthRate"]) eqn:H3, (defined t.["costAdjustment"]) eqn:H4;
      unfold get at 1;
      rewrite ?lookup_insert_ne by discriminate;
      rewrite ?lookup_insert_eq, ?lookup_empty; cbn [default];
      try reflexivity; symmetry; apply get_undefined_inv; assumption.
  - destruct (defined t.["name"]) eqn:H1, (defined t.["enabled"]) eqn:H2,
      (defined t.["growthRate"]) eqn:H3, (defined t.["costAdjustment"]) eqn:H4;
      unfold get at 1;
      rewrite ?lookup_insert_ne by discriminate;
      rewrite ?lookup_insert_eq, ?lookup_empty; cbn [default];
      try reflexivity; symmetry; apply get_undefined_inv; assumption.
  - intros k K1 K2 K3 K4.
    repeat match goal with
           | |- context [if ?c then _ else _] => destruct c
           end;
      rewrite ?lookup_insert_ne
        by (intros Heq; symmetry in Heq; contradiction);
      apply lookup_empty.
  - intros Hg. rewrite Hg.
    destruct (defined t.["costAdjustment"]);
      apply Nat.eqb_neq, map_size_non_empty_iff, insert_non_empty.
  - intros Hv. subst t. unfold transformScenarioData. rewrite Hv. reflexivity.
Qed.

Lemma column_value_ext omitted (values values' : obj) (c : Column) :
  values.[col_name c] = values'.[col_name c] ->
  column_value column_input omitted values c
  = column_value column_input omitted values' c.
Proof. unfold column_value. intros ->. reflexivity. Qed.

(** The anatomy of a call of [updateScenario] that the database accepts:
    either the argument is falsy and the call only reads, or the rows with
    the given id are rewritten with the values of the four columns that
    the transformed data carries. *)
Lemma updateScenario_accepted (db : Database) (id : Z) (scenarioUpdate : value)
    (db' : Database) (returned : option obj) :
  updateScenario column_input users NumberToString db id scenarioUpdate
  = (db', Resolved returned) ->
  let t := transformScenarioData NumberToString scenarioUpdate in
  let selected := List.filter (column_eq "id" id) (tbl_scenarios db) in
  (truthy scenarioUpdate = false /\ db' = db /\ returned = head selected)
  \/ exists bound : obj,
       truthy scenarioUpdate = true
       /\ tbl_projects db' = tbl_projects db
       /\ tbl_scenarios db'
          = List.filter (fun row => negb (column_eq "id" id row))
              (tbl_scenarios db)
            ++ map (set_values bound) selected
       /\ returned = head (map (set_values bound) selected)
       /\ column_value column_input (fun _ => None) t (notNull (text "name"))
          = Some (bound !! "name")
       /\ column_value column_input (fun _ => None) t
            (with_default (DefaultValue (VBool true)) (boolean "enabled"))
          = Some (bound !! "enabled")
       /\ column_value column_input (fun _ => None) t
            (notNull (numeric "growthRate"))
          = Some (bound !! "growthRate")
       /\ column_value column_input (fun _ => None) t
            (notNull (numeric "costAdjustment"))
          = Some (bound !! "costAdjustment")
       /\ (forall k, k <> "name" -> k <> "enabled" -> k <> "growthRate" ->
                     k <> "costAdjustment" -> bound !! k = None)
       /\ (selected <> [] ->
           constraints_ok users db pgTable.scenarios bound = true).
Proof.
  intros Hcall t selected.
  destruct (updateScenario_unfold db id scenarioUpdate)
    as (u & Hn & He & Hg & Hc & Hother & Hsize & Hfalsy & Heq).
  fold t in Hn, He, Hg, Hc, Hsize.
  rewrite Heq in Hcall. clear Heq.
  destruct (id_ok column_input id); [|discriminate Hcall]. cbn [negb] in Hcall.
  destruct (truthy scenarioUpdate) eqn:Hv.
  - right.
    assert (Hdef : defined t.["growthRate"] = true).
    { unfold t. rewrite transformScenarioData_truthy by exact Hv.
      destruct (transformScenarioData_get
                  match scenarioUpdate with VObj o => o | _ => ∅ end)
        as (_ & _ & _ & -> & _). reflexivity. }
    rewrite (Hsize Hdef) in Hcall.
    destruct (update column_input users db pgTable.scenarios
                (column_eq "id" id) u (tbl_scenarios db))
      as [[rows' ret]|] eqn:Hup; [|discriminate Hcall].
    injection Hcall as <- <-.
    apply update_accepted in Hup as (bound & Hbind & -> & -> & Hok).
    exists bound. cbn [tbl_projects tbl_scenarios].
    pose proof (fun c => bind_lookup column_input (fun _ => None)
                           pgTable.scenarios u bound c NoDup_scenarios Hbind)
      as Hcol.
    split; [reflexivity|]. split; [reflexivity|]. split; [reflexivity|].
    split; [reflexivity|].
    split.
    { transitivity (column_value column_input (fun _ => None) u
                      (notNull (text "name")));
        [apply column_value_ext; symmetry; exact Hn
        |apply Hcol; repeat constructor]. }
    split.
    { transitivity (column_value column_input (fun _ => None) u
                      (with_default (DefaultValue (VBool true))
                         (boolean "enabled")));
        [apply column_value_ext; symmetry; exact He
        |apply Hcol; repeat constructor]. }
    split.
    { transitivity (column_value column_input (fun _ => None) u
                      (notNull (numeric "growthRate")));
        [apply column_value_ext; symmetry; exact Hg
        |apply Hcol; repeat constructor]. }
    split.
    { transitivity (column_value column_input (fun _ => None) u
                      (notNull (numeric "costAdjustment")));
        [apply column_value_ext; symmetry; exact Hc
        |apply Hcol; repeat constructor]. }
    split.
    + intros k K1 K2 K3 K4.
      destruct (decide (k = "id")) as [->|Kid].
      { pose proof (Hcol (serial_primaryKey "id")) as H.
        rewrite column_value_undefined in H
          by (apply get_omitted, Hother; discriminate).
        assert (Hin : serial_primaryKey "id" ∈ pgTable.scenarios)
          by (repeat constructor).
        specialize (H Hin). injection H as H. symmetry. exact H. }
      destruct (decide (k = "projectId")) as [->|Kp].
      { pose proof (Hcol (references Projects (notNull (integer "projectId"))))
          as H.
        rewrite column_value_undefined in H
          by (apply get_omitted, Hother; discriminate).
        assert (Hin : references Projects (notNull (integer "projectId"))
                      ∈ pgTable.scenarios) by (repeat constructor).
        specialize (H Hin). injection H as H. symmetry. exact H. }
      apply (bind_lookup_other column_input (fun _ => None)
               pgTable.scenarios u); [exact Hbind|].
      intros c Hin. unfold pgTable.scenarios in Hin.
      repeat (apply elem_of_cons in Hin as [->|Hin];
              [cbn; intros E; symmetry in E; contradiction|]).
      apply elem_of_nil in Hin. contradiction.
    + intros Hsel. apply Hok. intros Hmap. apply Hsel.
      exact (List.map_eq_nil _ _ Hmap).
  - left. rewrite (Hfalsy eq_refl) in Hcall. cbn in Hcall.
    injection Hcall as <- <-. repeat split; reflexivity.
Qed.

(** A call of [updateScenario] that the database refuses writes nothing. *)
Lemma updateScenario_rejected (db : Database) (id : Z) (scenarioUpdate : value) :
  (updateScenario column_input users NumberToString db id scenarioUpdate).2
  = Rejected ->
  (updateScenario column_input users NumberToString db id scenarioUpdate).1
  = db.
Proof.
  destruct (updateScenario_unfold db id scenarioUpdate)
    as (u & _ & _ & _ & _ & _ & _ & _ & ->).
  destruct (negb (id_ok column_input id)); [reflexivity|].
  destruct (size u =? 0)%nat; [discriminate|].
  destruct (update column_input users db pgTable.scenarios
              (column_eq "id" id) u (tbl_scenarios db)) as [[rows' ret]|];
    [discriminate|reflexivity].
Qed.

(** The values that [transformProjectData] produces for an update. *)
Lemma transformProjectData_lookup (upd : obj) (k : string) :
  k <> "userId" ->
  transformProjectData NumberToString upd !! k
  = ({[ "name" := or_else upd.["name"] (VStr "Untitled Project");
        "goal" := or_else upd.["goal"] (VStr "No goal specified");
        "industry" := or_else upd.["industry"] (VStr "Other");
        "timeHorizon" :=
          if present upd.["timeHorizon"]
          then match upd.["timeHorizon"] with
               | VStr s => VNum (parseInt10 s)
               | v => v
               end
          else VNum (num 12);
        "initialInvestment" :=
          if present upd.["initialInvestment"]
          then VStr (ToString NumberToString upd.["initialInvestment"])
          else VStr "0";
        "monthlyFixedCosts" :=
          if present upd.["monthlyFixedCosts"]
          then VStr (ToString NumberToString upd.["monthlyFixedCosts"])
          else VStr "0";
        "variableCosts" :=
          if present upd.["variableCosts"]
          then VStr (ToString NumberToString upd.["variableCosts"])
          else VStr "0";
        "expectedMonthlyRevenue" :=
          if present upd.["expectedMonthlyRevenue"]
          then VStr (ToString NumberToString upd.["expectedMonthlyRevenue"])
          else VStr "0" ]} : obj) !! k.
Proof.
  intros Hk. unfold transformProjectData.
  destruct (present upd.["userId"]); [|reflexivity].
  rewrite lookup_insert_ne by (intros Heq; apply Hk; symmetry; exact Heq).
  reflexivity.
Qed.

Lemma transformProjectData_get_userId (data : obj) :
  (transformProjectData NumberToString data).["userId"]
  = if present data.["userId"] then data.["userId"] else VUndefined.
Proof.
  unfold transformProjectData, get at 1.
  destruct (present data.["userId"]).
  - rewrite lookup_insert_eq. reflexivity.
  - reflexivity.
Qed.

Lemma transformProjectData_gets (data : obj) :
  let t := transformProjectData NumberToString data in
  t.["name"] = or_else data.["name"] (VStr "Untitled Project")
  /\ t.["goal"] = or_else data.["goal"] (VStr "No goal specified")
  /\ t.["industry"] = or_else data.["industry"] (VStr "Other")
  /\ t.["timeHorizon"]
     = (if present data.["timeHorizon"]
        then match data.["timeHorizon"] with
             | VStr s => VNum (parseInt10 s)
             | v => v
             end
        else VNum (num 12))
  /\ t.["initialInvestment"]
     = (if present data.["initialInvestment"]
        then VStr (ToString NumberToString data.["initialInvestment"])
        else VStr "0")
  /\ t.["monthlyFixedCosts"]
     = (if present data.["monthlyFixedCosts"]
        then VStr (ToString NumberToString data.["monthlyFixedCosts"])
        else VStr "0")
  /\ t.["variableCosts"]
     = (if present data.["variableCosts"]
        then VStr (ToString NumberToString data.["variableCosts"])
        else VStr "0")
  /\ t.["expectedMonthlyRevenue"]
     = (if present data.["expectedMonthlyRevenue"]
        then VStr (ToString NumberToString data.["expectedMonthlyRevenue"])
        else VStr "0").
Proof.
  intros t. subst t.
  repeat match goal with |- _ /\ _ => split end;
    (unfold get at 1;
     rewrite transformProjectData_lookup by discriminate; reflexivity).
Qed.

(** The transformed data carry neither an id nor a creation time. *)
Lemma transformProjectData_no_key (data : obj) (k : string) :
  ~ In k ["name"; "goal"; "industry"; "timeHorizon"; "initialInvestment";
          "monthlyFixedCosts"; "variableCosts"; "expectedMonthlyRevenue";
          "userId"] ->
  transformProjectData NumberToString data !! k = None.
Proof.
  intros Hk.
  assert (Hne : forall k', In k' ["name"; "goal"; "industry"; "timeHorizon";
                  "initialInvestment"; "monthlyFixedCosts"; "variableCosts";
                  "expectedMonthlyRevenue"; "userId"] -> k' <> k).
  { intros k' Hin Heq. subst k'. apply Hk. exact Hin. }
  rewrite transformProjectData_lookup
    by (intros Heq; apply (Hne "userId"); [simpl; tauto|symmetry; exact Heq]).
  rewrite !lookup_insert_ne by (apply Hne; simpl; tauto).
  apply lookup_singleton_ne, Hne. simpl. tauto.
Qed.

(** The anatomy of a call of [updateProject] that the database accepts. *)
Lemma updateProject_accepted (db : Database) (now : value) (id : Z)
    (upd : obj) (db' : Database) (returned : option obj) :
  updateProject column_input users NumberToString db now id upd
  = (db', Resolved returned) ->
  let values :=
    <["lastUpdated" := now]> (transformProjectData NumberToString upd) in
  let selected := List.filter (column_eq "id" id) (tbl_projects db) in
  exists bound : obj,
    tbl_scenarios db' = tbl_scenarios db
    /\ tbl_projects db'
       = List.filter (fun row => negb (column_eq "id" id row)) (tbl_projects db)
         ++ map (set_values bound) selected
    /\ returned = head (map (set_values bound) selected)
    /\ (forall c, c ∈ pgTable.projects ->
          column_value column_input (fun _ => None) values c
          = Some (bound !! col_name c))
    /\ (forall k, (forall c, c ∈ pgTable.projects -> col_name c <> k) ->
                  bound !! k = None)
    /\ (selected <> [] ->
        constraints_ok users db pgTable.projects bound = true).
Proof.
  intros Hcall values selected. unfold updateProject in Hcall.
  cbv zeta in Hcall. fold values in Hcall.
  destruct (id_ok column_input id); [|discriminate Hcall]. cbn [negb] in Hcall.
  destruct (update column_input users db pgTable.projects
              (column_eq "id" id) values (tbl_projects db))
    as [[rows' ret]|] eqn:Hup; [|discriminate Hcall].
  injection Hcall as <- <-.
  apply update_accepted in Hup as (bound & Hbind & -> & -> & Hok).
  exists bound. cbn [tbl_projects tbl_scenarios].
  split; [reflexivity|]. split; [reflexivity|]. split; [reflexivity|].
  split; [|split].
  - intros c Hc.
    exact (bind_lookup column_input (fun _ => None) pgTable.projects values
             bound c NoDup_projects Hbind Hc).
  - intros k Hk.
    exact (bind_lookup_other column_input (fun _ => None) pgTable.projects
             values bound k Hbind Hk).
  - intros Hsel. apply Hok. intros Hmap. apply Hsel.
    exact (List.map_eq_nil _ _ Hmap).
Qed.

Lemma updateProject_rejected (db : Database) (now : value) (id : Z)
    (upd : obj) :
  (updateProject column_input users NumberToString db now id upd).2 = Rejected ->
  (updateProject column_input users NumberToString db now id upd).1 = db.
Proof.
  unfold updateProject.
  destruct (negb (id_ok column_input id)); [reflexivity|].
  destruct (update column_input users db pgTable.projects _ _ _)
    as [[rows' ret]|]; [discriminate|reflexivity].
Qed.

(** [updateProject] writes neither the id nor the creation time. *)
Lemma updateProject_bound_id (now : value) (upd bound : obj) :
  (forall c, c ∈ pgTable.projects ->
     column_value column_input (fun _ => None)
       (<["lastUpdated" := now]> (transformProjectData NumberToString upd)) c
     = Some (bound !! col_name c)) ->
  bound !! "id" = None /\ bound !! "createdAt" = None.
Proof.
  intros Hcol. split.
  - pose proof (Hcol (serial_primaryKey "id") ltac:(repeat constructor)) as H.
    rewrite column_value_undefined in H.
    + injection H as H. symmetry. exact H.
    + apply get_omitted. rewrite lookup_insert_ne by discriminate.
      apply transformProjectData_no_key. simpl. intros H'.
      repeat (destruct H' as [H'|H']; [discriminate H'|]). exact H'.
  - pose proof (Hcol (with_default DefaultNow (timestamp "createdAt"))
                  ltac:(repeat constructor)) as H.
    rewrite column_value_undefined in H.
    + injection H as H. symmetry. exact H.
    + apply get_omitted. rewrite lookup_insert_ne by discriminate.
      apply transformProjectData_no_key. simpl. intros H'.
      repeat (destruct H' as [H'|H']; [discriminate H'|]). exact H'.
Qed.

(** The anatomy of an accepted call of [updateScenario] with an object:
    the values that the database holds for the four columns. *)
Lemma updateScenario_object (db : Database) (id : Z) (upd : obj)
    (db' : Database) (returned : option obj) :
  updateScenario column_input users NumberToString db id (VObj upd)
  = (db', Resolved returned) ->
  let selected := List.filter (column_eq "id" id) (tbl_scenarios db) in
  exists bound : obj,
    tbl_scenarios db'
    = List.filter (fun row => negb (column_eq "id" id row)) (tbl_scenarios db)
      ++ map (set_values bound) selected
    /\ returned = head (map (set_values bound) selected)
    /\ (forall row,
          column_eq "id" id (set_values bound row) = column_eq "id" id row)
    /\ column_value column_input (fun _ => None) upd (notNull (text "name"))
       = Some (bound !! "name")
    /\ bound !! "enabled"
       = (if defined upd.["enabled"]
          then column_input Boolean (VBool (truthy upd.["enabled"]))
          else None)
    /\ (defined upd.["enabled"] = true -> is_Some (bound !! "enabled"))
    /\ bound !! "growthRate"
       = column_input Numeric
           (VStr (if present upd.["growthRate"]
                  then ToString NumberToString upd.["growthRate"] else "0"))
    /\ is_Some (bound !! "growthRate")
    /\ bound !! "costAdjustment"
       = column_input Numeric
           (VStr (if present upd.["costAdjustment"]
                  then ToString NumberToString upd.["costAdjustment"]
                  else "0"))
    /\ is_Some (bound !! "costAdjustment")
    /\ (forall k, k <> "name" -> k <> "enabled" -> k <> "growthRate" ->
                  k <> "costAdjustment" -> bound !! k = None)
    /\ (selected <> [] ->
        constraints_ok users db pgTable.scenarios bound = true).
Proof.
  intros Hcall selected.
  apply updateScenario_accepted in Hcall
    as [(Hv & _)|(bound & _ & _ & Hrows & Hret & Hn & He & Hg & Hc & Hother
                  & Hok)];
    [discriminate Hv|].
  destruct (transformScenarioData_get upd) as (_ & Tn & Te & Tg & Tc).
  cbv zeta in Tn, Te, Tg, Tc.
  exists bound.
  split; [exact Hrows|]. split; [exact Hret|].
  split.
  { intros row. apply column_eq_set_values, Hother; discriminate. }
  split.
  { rewrite <- Hn. apply column_value_ext. symmetry. exact Tn. }
  assert (Hrate : forall (c : Column) (s : string) (t : obj),
             t.[col_name c] = VStr s ->
             column_value column_input (fun _ => None) t c
             = Some (bound !! col_name c) ->
             bound !! col_name c = column_input (col_type c) (VStr s)
             /\ is_Some (bound !! col_name c)).
  { intros c s t Ht Hcv.
    apply column_value_present in Hcv as [Heq Hsome];
      [|rewrite Ht; reflexivity].
    rewrite Ht in Heq. split; assumption. }
  assert (He' : bound !! "enabled"
                = (if defined upd.["enabled"]
                   then column_input Boolean (VBool (truthy upd.["enabled"]))
                   else None)
                /\ (defined upd.["enabled"] = true
                    -> is_Some (bound !! "enabled"))).
  { destruct (defined upd.["enabled"]) eqn:Hde.
    - apply column_value_present in He as [Heq Hsome];
        [|cbn [col_name with_default boolean column]; rewrite Te; reflexivity].
      cbn [col_name col_type with_default boolean column] in Heq.
      rewrite Te in Heq. split; [exact Heq|intros _; exact Hsome].
    - rewrite column_value_undefined in He
        by (cbn [col_name with_default boolean column]; exact Te).
      injection He as He. split; [symmetry; exact He|discriminate]. }
  destruct He' as [He1 He2].
  destruct (Hrate (notNull (numeric "growthRate")) _ _ Tg Hg) as [Hg1 Hg2].
  destruct (Hrate (notNull (numeric "costAdjustment")) _ _ Tc Hc) as [Hc1 Hc2].
  repeat match goal with |- _ /\ _ => split end; assumption.
Qed.

(** A column for which the transformed data carry a string holds what the
    database makes of that string. *)
Lemma updateProject_bound_string (now : value) (upd bound : obj) (c : Column)
    (s : string) :
  (forall c, c ∈ pgTable.projects ->
     column_value column_input (fun _ => None)
       (<["lastUpdated" := now]> (transformProjectData NumberToString upd)) c
     = Some (bound !! col_name c)) ->
  c ∈ pgTable.projects -> col_name c <> "lastUpdated" ->
  (transformProjectData NumberToString upd).[col_name c] = VStr s ->
  bound !! col_name c = column_input (col_type c) (VStr s)
  /\ is_Some (bound !! col_name c).
Proof.
  intros Hcol Hc Hne Hs.
  assert (Hget : (<["lastUpdated" := now]>
                    (transformProjectData NumberToString upd)).[col_name c]
                 = VStr s).
  { unfold get. rewrite lookup_insert_ne
      by (intros Heq; apply Hne; symmetry; exact Heq).
    exact Hs. }
  specialize (Hcol c Hc).
  apply column_value_present in Hcol as [Heq Hsome];
    [|rewrite Hget; reflexivity].
  rewrite Hget in Heq. split; assumption.
Qed.

(** After an accepted update there are as many rows under the given id as
    before. *)
Lemma updateScenario_count (db : Database) (id : Z) (scenarioUpdate : value)
    (db' : Database) (returned : option obj) :
  updateScenario column_input users NumberToString db id scenarioUpdate
  = (db', Resolved returned) ->
  length (List.filter (column_eq "id" id) (tbl_scenarios db'))
  = length (List.filter (column_eq "id" id) (tbl_scenarios db)).
Proof.
  intros Hcall.
  apply updateScenario_accepted in Hcall
    as [(_ & -> & _)|(bound & _ & _ & Hrows & _ & _ & _ & _ & _ & Hother & _)];
    [reflexivity|].
  rewrite Hrows, filter_updated, length_map; [reflexivity|].
  intros row. apply column_eq_set_values, Hother; discriminate.
Qed.

Lemma updateProject_count (db : Database) (now : value) (id : Z) (upd : obj)
    (db' : Database) (returned : option obj) :
  updateProject column_input users NumberToString db now id upd
  = (db', Resolved returned) ->
  length (List.filter (column_eq "id" id) (tbl_projects db'))
  = length (List.filter (column_eq "id" id) (tbl_projects db)).
Proof.
  intros Hcall.
  apply updateProject_accepted in Hcall
    as (bound & _ & Hrows & _ & Hcol & _ & _).
  destruct (updateProject_bound_id now upd bound Hcol) as [Hbid _].
  rewrite Hrows, filter_updated, length_map; [reflexivity|].
  intros row. apply column_eq_set_values, Hbid.
Qed.

End WithDatabase.
End UpdateFacts.

(** ** Partial updates *)

Section RejectedUpdate.
Import JsNum Js Schema Transform Storage StorageMore Examples UpdateFacts.

(** An update that omits fields does not always overwrite them: the
    database of the examples, like PostgreSQL, does not take ["4,000"] for
    a numeric column, so that this call of [updateProject], which omits the
    name and the initial investment, throws and leaves the stored project
    as it was, with its name and its investment of 50000; and so does a
    call of [updateScenario] that carries a growth rate in words and omits
    the cost adjustment, which stays at -5. *)
Lemma rejected_update_keeps_omitted_fields :
  let upd : obj := {[ "monthlyFixedCosts" := VStr "4,000" ]} in
  let p := updateProject plainInput exampleUsers noNumberToString
             exampleDatabase exampleDate 1 upd in
  let upd' : obj := {[ "growthRate" := VStr "ten" ]} in
  let s := updateScenario plainInput exampleUsers noNumberToString
             exampleDatabase 2 (VObj upd') in
  upd !! "name" = None /\ upd !! "initialInvestment" = None
  /\ p.2 = Rejected
  /\ exampleProject ∈ tbl_projects p.1
  /\ column_eq "id" 1 exampleProject = true
  /\ exampleProject !! "name" = Some (VStr "Example")
  /\ exampleProject !! "initialInvestment" = Some (VStr "50000")
  /\ upd' !! "costAdjustment" = None
  /\ s.2 = Rejected
  /\ optimistic ∈ tbl_scenarios s.1
  /\ column_eq "id" 2 optimistic = true
  /\ optimistic !! "costAdjustment" = Some (VStr "-5").
Proof.
  intros upd p upd' s.
  assert (Hp : p.2 = Rejected) by (vm_compute; reflexivity).
  assert (Hs : s.2 = Rejected) by (vm_compute; reflexivity).
  split; [reflexivity|]. split; [reflexivity|].
  split; [exact Hp|].
  split.
  { assert (H1 : p.1 = exampleDatabase)
      by exact (updateProject_rejected _ _ _ _ _ _ _ Hp).
    rewrite H1. left. }
  split; [vm_compute; reflexivity|].
  split; [vm_compute; reflexivity|].
  split; [vm_compute; reflexivity|].
  split; [reflexivity|].
  split; [exact Hs|].
  split.
  { assert (H1 : s.1 = exampleDatabase)
      by exact (updateScenario_rejected _ _ _ _ _ _ Hs).
    rewrite H1. right. left. }
  split; vm_compute; reflexivity.
Qed.

End RejectedUpdate.

Section PartialUpdates.
Import JsNum Js Schema Transform Storage Examples StorageFacts UpdateFacts.

Variable column_input : ColumnType -> value -> option value.
Variable users : list obj.
Variable NumberToString : number -> string.

(** C10: an update that the database accepts does not preserve the fields
    that it omits, provided the database stores the default texts as they
    are written. After a call of [updateScenario] with an object that
    resolves, every stored scenario with the given id, and the row that the
    call returns, has its growth rate set to ["0"] when the object omits
    the growth rate and its cost adjustment set to ["0"] when the object
    omits the cost adjustment; there are as many scenarios with that id as
    before. After a call of [updateProject] that resolves, every stored
    project with the given id, and the row returned, has every omitted
    field among name, goal, industry and the four numeric inputs set to its
    default: ["Untitled Project"], ["No goal specified"], ["Other"] and
    ["0"]. A call that the database refuses throws and writes nothing. *)
Theorem partial_update_resets_omitted_fields
    (db : Database) (now : value) (id : Z) (upd : obj) :
  column_input Numeric (VStr "0") = Some (VStr "0") ->
  column_input Text (VStr "Untitled Project") = Some (VStr "Untitled Project") ->
  column_input Text (VStr "No goal specified")
  = Some (VStr "No goal specified") ->
  column_input Text (VStr "Other") = Some (VStr "Other") ->
  let s := updateScenario column_input users NumberToString db id (VObj upd) in
  let p := updateProject column_input users NumberToString db now id upd in
  (s.2 = Rejected -> s.1 = db)
  /\ (forall returned,
        s.2 = Resolved returned ->
        length (List.filter (column_eq "id" id) (tbl_scenarios s.1))
        = length (List.filter (column_eq "id" id) (tbl_scenarios db))
        /\ forall row',
             (row' ∈ tbl_scenarios s.1 /\ column_eq "id" id row' = true)
             \/ returned = Some row' ->
             (upd !! "growthRate" = None ->
              row' !! "growthRate" = Some (VStr "0"))
             /\ (upd !! "costAdjustment" = None ->
                 row' !! "costAdjustment" = Some (VStr "0")))
  /\ (p.2 = Rejected -> p.1 = db)
  /\ (forall returned,
        p.2 = Resolved returned ->
        length (List.filter (column_eq "id" id) (tbl_projects p.1))
        = length (List.filter (column_eq "id" id) (tbl_projects db))
        /\ forall row',
             (row' ∈ tbl_projects p.1 /\ column_eq "id" id row' = true)
             \/ returned = Some row' ->
             (upd !! "name" = None ->
              row' !! "name" = Some (VStr "Untitled Project"))
             /\ (upd !! "goal" = None ->
                 row' !! "goal" = Some (VStr "No goal specified"))
             /\ (upd !! "industry" = None ->
                 row' !! "industry" = Some (VStr "Other"))
             /\ (upd !! "initialInvestment" = None ->
                 row' !! "initialInvestment" = Some (VStr "0"))
             /\ (upd !! "monthlyFixedCosts" = None ->
                 row' !! "monthlyFixedCosts" = Some (VStr "0"))
             /\ (upd !! "variableCosts" = None ->
                 row' !! "variableCosts" = Some (VStr "0"))
             /\ (upd !! "expectedMonthlyRevenue" = None ->
                 row' !! "expectedMonthlyRevenue" = Some (VStr "0"))).
Proof.
  intros Hzero Hname Hgoal Hindustry s p.
  split; [apply updateScenario_rejected|].
  split.
  { intros returned Hs.
    assert (Hcall : updateScenario column_input users NumberToString db id
                      (VObj upd) = (s.1, Resolved returned)).
    { rewrite <- Hs. subst s. destruct (updateScenario _ _ _ _ _ _).
      reflexivity. }
    split; [exact (updateScenario_count _ _ _ _ _ _ _ _ Hcall)|].
    intros row' Hrow.
    destruct (updateScenario_object _ _ _ _ _ _ _ _ Hcall)
      as (bound & Hrows & Hret & Hid & _ & _ & _ & Hg & _ & Hc & _).
    destruct (written_row _ _ _ _ _ _ Hid Hrows Hret Hrow)
      as (row & _ & _ & ->).
    split; intros Hnone; apply set_values_lookup.
    - rewrite Hg, (get_omitted _ _ Hnone). exact Hzero.
    - rewrite Hc, (get_omitted _ _ Hnone). exact Hzero. }
  split; [apply updateProject_rejected|].
  intros returned Hp.
  assert (Hcall : updateProject column_input users NumberToString db now id
                    upd = (p.1, Resolved returned)).
  { rewrite <- Hp. subst p. destruct (updateProject _ _ _ _ _ _ _).
    reflexivity. }
  split; [exact (updateProject_count _ _ _ _ _ _ _ _ _ Hcall)|].
  intros row' Hrow.
  destruct (updateProject_accepted _ _ _ _ _ _ _ _ _ Hcall)
    as (bound & _ & Hrows & Hret & Hcol & _).
  assert (Hid : forall row,
             column_eq "id" id (set_values bound row) = column_eq "id" id row).
  { intros row. apply column_eq_set_values.
    exact (proj1 (updateProject_bound_id column_input NumberToString now upd
                    bound Hcol)). }
  destruct (written_row _ _ _ _ _ _ Hid Hrows Hret Hrow)
    as (row & _ & _ & ->).
  destruct (transformProjectData_gets NumberToString upd)
    as (T1 & T2 & T3 & _ & T5 & T6 & T7 & T8).
  cbv zeta in T1, T2, T3, T5, T6, T7, T8.
  assert (Hdefault : forall (c : Column) (d : string),
             c ∈ pgTable.projects -> col_name c <> "lastUpdated" ->
             (transformProjectData NumberToString upd).[col_name c] = VStr d ->
             column_input (col_type c) (VStr d) = Some (VStr d) ->
             set_values bound row !! col_name c = Some (VStr d)).
  { intros c d Hc Hne Hget Hin.
    apply set_values_lookup.
    destruct (updateProject_bound_string column_input NumberToString now upd
                bound c d Hcol Hc Hne Hget) as [-> _].
    exact Hin. }
  repeat match goal with |- _ /\ _ => split end; intros Hnone.
  - apply (Hdefault (notNull (text "name")));
      [repeat constructor|discriminate| |exact Hname].
    cbn [col_name notNull text column]. rewrite T1, (get_omitted _ _ Hnone).
    reflexivity.
  - apply (Hdefault (notNull (text "goal")));
      [repeat constructor|discriminate| |exact Hgoal].
    cbn [col_name notNull text column]. rewrite T2, (get_omitted _ _ Hnone).
    reflexivity.
  - apply (Hdefault (notNull (text "industry")));
      [repeat constructor|discriminate| |exact Hindustry].
    cbn [col_name notNull text column]. rewrite T3, (get_omitted _ _ Hnone).
    reflexivity.
  - apply (Hdefault (notNull (numeric "initialInvestment")));
      [repeat constructor|discriminate| |exact Hzero].
    cbn [col_name notNull numeric column]. rewrite T5, (get_omitted _ _ Hnone).
    reflexivity.
  - apply (Hdefault (notNull (numeric "monthlyFixedCosts")));
      [repeat constructor|discriminate| |exact Hzero].
    cbn [col_name notNull numeric column]. rewrite T6, (get_omitted _ _ Hnone).
    reflexivity.
  - apply (Hdefault (notNull (numeric "variableCosts")));
      [repeat constructor|discriminate| |exact Hzero].
    cbn [col_name notNull numeric column]. rewrite T7, (get_omitted _ _ Hnone).
    reflexivity.
  - apply (Hdefault (notNull (numeric "expectedMonthlyRevenue")));
      [repeat constructor|discriminate| |exact Hzero].
    cbn [col_name notNull numeric column]. rewrite T8, (get_omitted _ _ Hnone).
    reflexivity.
Qed.

End PartialUpdates.

Section PartialUpdateExample.
Import JsNum Js Schema Storage Examples.

(** Switching a scenario off and sending nothing else resets its growth
    rate from ["15"] to ["0"], which reads as the number zero. *)
Lemma partial_update_resets_omitted_fields_witness :
  exists row',
    (updateScenario plainInput exampleUsers noNumberToString exampleDatabase 1
       (VObj {[ "enabled" := VBool false ]})).2 = Resolved (Some row')
    /\ realistic !! "growthRate" = Some (VStr "15")
    /\ row' !! "growthRate" = Some (VStr "0")
    /\ row' !! "costAdjustment" = Some (VStr "0")
    /\ Number row'.["growthRate"] = zero.
Proof.
  destruct (partial_update_resets_omitted_fields plainInput exampleUsers
              noNumberToString exampleDatabase exampleDate 1
              {[ "enabled" := VBool false ]} eq_refl eq_refl eq_refl eq_refl)
    as (_ & Hscenario & _ & _).
  assert (Hresolved :
            match (updateScenario plainInput exampleUsers noNumberToString
                     exampleDatabase 1
                     (VObj {[ "enabled" := VBool false ]})).2 with
            | Resolved (Some _) => true
            | _ => false
            end = true) by (vm_compute; reflexivity).
  destruct ((updateScenario plainInput exampleUsers noNumberToString
               exampleDatabase 1 (VObj {[ "enabled" := VBool false ]})).2)
    as [[row'|]|] eqn:Hres; try discriminate Hresolved.
  destruct (Hscenario (Some row') eq_refl) as [_ Hrows].
  destruct (Hrows row' (or_intror eq_refl)) as [Hg Hc].
  exists row'. split; [reflexivity|].
  split; [vm_compute; reflexivity|].
  assert (Hg' : row' !! "growthRate" = Some (VStr "0"))
    by (apply Hg; vm_compute; reflexivity).
  split; [exact Hg'|].
  split; [apply Hc; vm_compute; reflexivity|].
  unfold get. rewrite Hg'. vm_compute. reflexivity.
Defined.

End PartialUpdateExample.

(** * Further properties of the code *)

(** ** Row numbers *)

Module IdFacts.
Import JsNum Js Storage NumFacts.

Lemma shr_1_nonneg mrs : 0 <= shr_m mrs -> 0 <= shr_m (shr_1 mrs).
Proof.
  destruct mrs as [m r s]. destruct m as [|p|p]; simpl; intros H.
  - lia.
  - destruct p; simpl; lia.
  - lia.
Qed.

Lemma iter_pos_shr_1_nonneg p mrs :
  0 <= shr_m mrs -> 0 <= shr_m (SpecFloat.iter_pos shr_1 p mrs).
Proof.
  revert mrs. induction p as [p IH|p IH|]; intros mrs H; simpl.
  - apply IH, IH, shr_1_nonneg, H.
  - apply IH, IH, H.
  - apply shr_1_nonneg, H.
Qed.

Lemma shr_fexp_nonneg m e l :
  0 <= m -> 0 <= shr_m (fst (shr_fexp prec emax m e l)).
Proof.
  intros H. unfold shr_fexp, shr.
  assert (H0 : 0 <= shr_m (shr_record_of_loc m l))
    by (destruct l as [|[ | | ]]; exact H).
  destruct (fexp prec emax (Zdigits2 m + e) - e); simpl; trivial.
  apply iter_pos_shr_1_nonneg, H0.
Qed.

(** Rounding a mantissa that is not negative never yields NaN. *)
Lemma binary_round_aux_not_nan s m e l :
  0 <= m -> is_nan (binary_round_aux prec emax s m e l) = false.
Proof.
  intros H. unfold binary_round_aux.
  pose proof (shr_fexp_nonneg m e l H) as H1.
  destruct (shr_fexp prec emax m e l) as [mrs' e']. simpl in H1.
  assert (H2 : 0 <= round_nearest_even (shr_m mrs') (loc_of_shr_record mrs')).
  { unfold round_nearest_even.
    destruct (loc_of_shr_record mrs') as [|[ | | ]]; try lia.
    destruct (Z.even (shr_m mrs')); lia. }
  pose proof (shr_fexp_nonneg _ e' loc_Exact H2) as H3.
  destruct (shr_fexp prec emax _ e' loc_Exact) as [mrs'' e'']. simpl in H3.
  destruct (shr_m mrs''); try lia; [reflexivity|].
  destruct (e'' <=? emax - prec); reflexivity.
Qed.

Lemma of_Z_not_nan z : is_nan (of_Z z) = false.
Proof.
  unfold of_Z, binary_normalize.
  destruct z as [|p|p]; [reflexivity| |];
    unfold binary_round;
    destruct (shl_align p 0 _) as [mz ez];
    apply binary_round_aux_not_nan; lia.
Qed.

(** A number that is not NaN equals itself. *)
Lemma SFeqb_refl x : is_nan x = false -> SFeqb x x = true.
Proof.
  destruct x as [s|s| |s m e]; intros H; try discriminate H.
  - reflexivity.
  - destruct s; reflexivity.
  - unfold SFeqb, SFcompare.
    rewrite Z.compare_refl, Pos.compare_cont_refl. destruct s; reflexivity.
Qed.

End IdFacts.

(** ** The storage: deletions *)

Section StorageMoreProperties.
Import JsNum Js Schema Transform Storage StorageMore IdFacts.

Lemma deleted_some_iff (rows : list obj) :
  deleted_some rows = true <-> is_Some (head rows).
Proof.
  unfold deleted_some. destruct (head rows); split; intros H;
    try reflexivity; try discriminate; [eexists; reflexivity|].
  destruct H as [x H]. discriminate H.
Qed.

(** X1: [deleteProject] removes exactly the project rows with the given id
    and exactly the scenario rows of that project, keeping the other rows
    in their order; afterwards the project, its scenarios and the project
    with its scenarios are no longer found; and the call returns [true]
    exactly when the project existed. *)
Theorem deleteProject_cascades (db : Database) (id : Z) :
  let db' := (deleteProject db id).1 in
  tbl_projects db'
  = List.filter (fun row => negb (column_eq "id" id row)) (tbl_projects db)
  /\ tbl_scenarios db'
     = List.filter (fun row => negb (column_eq "projectId" id row))
         (tbl_scenarios db)
  /\ getProject db' id = None
  /\ getScenarios db' id = []
  /\ getProjectWithScenarios db' id = None
  /\ ((deleteProject db id).2 = true <-> is_Some (getProject db id)).
Proof.
  intros db'. subst db'. unfold deleteProject. cbn [fst snd].
  assert (Hp : getProject
                 {| tbl_projects :=
                      List.filter (fun row => negb (column_eq "id" id row))
                        (tbl_projects db);
                    tbl_scenarios :=
                      List.filter
                        (fun row => negb (column_eq "projectId" id row))
                        (tbl_scenarios db) |} id = None).
  { unfold getProject. cbn [tbl_projects].
    rewrite (filter_filter_negb (column_eq "id" id)). reflexivity. }
  split; [reflexivity|]. split; [reflexivity|]. split; [exact Hp|].
  split; [|split].
  - unfold getScenarios. cbn [tbl_scenarios].
    apply (filter_filter_negb (column_eq "projectId" id)).
  - unfold getProjectWithScenarios. rewrite Hp. reflexivity.
  - apply deleted_some_iff.
Qed.

(** X2: [deleteScenario] removes exactly the scenario rows with the given
    id and leaves the projects alone; afterwards no scenario with that id
    is found; and the call returns [true] exactly when the scenario
    existed. *)
Theorem deleteScenario_removes (db : Database) (id : Z) :
  let db' := (deleteScenario db id).1 in
  tbl_projects db' = tbl_projects db
  /\ tbl_scenarios db'
     = List.filter (fun row => negb (column_eq "id" id row)) (tbl_scenarios db)
  /\ getScenarioById db' id = None
  /\ ((deleteScenario db id).2 = true <-> is_Some (getScenarioById db id)).
Proof.
  intros db'. subst db'. unfold deleteScenario. cbn [fst snd].
  split; [reflexivity|]. split; [reflexivity|]. split.
  - unfold getScenarioById. cbn [tbl_scenarios].
    rewrite (filter_filter_negb (column_eq "id" id)). reflexivity.
  - apply deleted_some_iff.
Qed.

End StorageMoreProperties.

(** ** The storage: insertions *)

Section InsertProperties.
Import JsNum Js Schema Transform Storage StorageMore IdFacts StorageFacts
  UpdateFacts.

Variable column_input : ColumnType -> value -> option value.
Variable users : list obj.
Variable NumberToString : number -> string.

Lemma present_or_else (v d : value) :
  present d = true -> present (or_else v d) = true.
Proof.
  intros H. unfold or_else. destruct (truthy v) eqn:Hv; [|exact H].
  destruct v; try discriminate Hv; reflexivity.
Qed.

(** The anatomy of an insertion that the database accepts. *)
Lemma insert_into_accepted db columns (id : Z) (clock : value) (values : obj)
    rows rows' (row : obj) :
  insert_into column_input users db columns id clock values rows
  = Some (rows', row) ->
  rows' = rows ++ [row]
  /\ bind column_input
       (fun c => Some (default_value id clock (col_default c))) columns values
     = Some row
  /\ constraints_ok users db columns row = true
  /\ List.filter (column_eq "id" id) rows = [].
Proof.
  unfold insert_into.
  destruct (bind column_input _ columns values) as [row0|]; [|discriminate].
  destruct (constraints_ok users db columns row0) eqn:Hok; [|discriminate].
  destruct (existsb (column_eq "id" id) rows) eqn:Hex; [discriminate|].
  simpl. intros [= <- <-].
  split; [reflexivity|]. split; [reflexivity|]. split; [exact Hok|].
  apply existsb_false_filter, Hex.
Qed.

(** A new row is found under its number, which was not in use. *)
Lemma inserted_row_found (id : Z) (rows : list obj) (row : obj) :
  List.filter (column_eq "id" id) rows = [] ->
  row !! "id" = Some (VNum (num id)) ->
  head (List.filter (column_eq "id" id) (rows ++ [row])) = Some row.
Proof.
  intros Hfresh Hid. rewrite List.filter_app, Hfresh. simpl.
  assert (Hm : column_eq "id" id row = true).
  { unfold column_eq, get. rewrite Hid. simpl.
    apply SFeqb_refl, of_Z_not_nan. }
  rewrite Hm. reflexivity.
Qed.

Lemma references_ok_inv db (c : Column) (t : TableName) (v : value) :
  col_references c = Some t -> present v = true ->
  references_ok users db c v = true ->
  exists x row, v = VNum x /\ row ∈ rows_of users db t
                /\ is_number row.["id"] x = true.
Proof.
  unfold references_ok. intros -> Hp.
  destruct v; try discriminate.
  intros Hex. apply existsb_exists in Hex as (row & Hin & Hrow).
  eexists _, row. split; [reflexivity|].
  split; [apply list_elem_of_In; exact Hin|exact Hrow].
Qed.

(** X3: [createScenario], called with an object, either is refused by the
    database, throws and stores nothing, or adds one scenario row and
    leaves everything else as it was. It is refused when the object has no
    project id. The new row carries the number that the database gave it,
    which no scenario carried before and under which a read now finds it; a
    project id that is the id of a stored project; the name of the object
    or else ["Unnamed Scenario"], its enabled flag as a boolean or else
    [true], and ["0"] for each rate the object omits, each as the database
    takes it; and none of its required columns is [null]. *)
Theorem createScenario_inserts (db : Database) (id : Z) (data : obj) :
  let r := createScenario column_input users NumberToString db id
             (VObj data) in
  (r.2 = Rejected -> r.1 = db)
  /\ (present data.["projectId"] = false -> r.2 = Rejected)
  /\ (forall row,
        r.2 = Resolved row ->
        tbl_projects r.1 = tbl_projects db
        /\ tbl_scenarios r.1 ≡ₚ row :: tbl_scenarios db
        /\ getScenarioById db id = None
        /\ getScenarioById r.1 id = Some row
        /\ row !! "id" = Some (VNum (num id))
        /\ row !! "projectId" = column_input Integer data.["projectId"]
        /\ (exists x project,
              row !! "projectId" = Some (VNum x)
              /\ project ∈ tbl_projects db
              /\ is_number project.["id"] x = true)
        /\ row !! "name"
           = column_input Text (or_else data.["name"] (VStr "Unnamed Scenario"))
        /\ row !! "enabled"
           = column_input Boolean
               (VBool (if defined data.["enabled"]
                       then truthy data.["enabled"] else true))
        /\ (data !! "growthRate" = None ->
            row !! "growthRate" = column_input Numeric (VStr "0"))
        /\ (data !! "costAdjustment" = None ->
            row !! "costAdjustment" = column_input Numeric (VStr "0"))
        /\ Forall (fun k => exists v, row !! k = Some v /\ present v = true)
             ["id"; "projectId"; "name"; "growthRate"; "costAdjustment"]).
Proof.
  intros r. subst r. unfold createScenario.
  destruct (transformScenarioData_get NumberToString data)
    as (Tp & Tn & Te & Tg & Tc).
  cbv zeta in Tp, Tn, Te, Tg, Tc.
  set (t := transformScenarioData NumberToString (VObj data)) in *.
  cbv zeta. rewrite Tp, Tn, Te, Tg, Tc.
  match goal with
  | |- context [insert_into _ _ _ _ _ _ ?v _] => set (values := v)
  end.
  assert (Vp : values.["projectId"] = data.["projectId"]) by reflexivity.
  assert (Vn : values.["name"]
               = or_else data.["name"] (VStr "Unnamed Scenario"))
    by reflexivity.
  assert (Ve : values.["enabled"]
               = VBool (if defined data.["enabled"]
                        then truthy data.["enabled"] else true)).
  { unfold values, get at 1.
    rewrite !lookup_insert_ne by discriminate. rewrite lookup_insert_eq.
    cbn [default]. destruct (defined data.["enabled"]); reflexivity. }
  assert (Vg : data !! "growthRate" = None ->
               values.["growthRate"] = VStr "0").
  { intros Hnone. unfold values, get at 1.
    rewrite !lookup_insert_ne by discriminate. rewrite lookup_insert_eq.
    rewrite (get_omitted _ _ Hnone). reflexivity. }
  assert (Vc : data !! "costAdjustment" = None ->
               values.["costAdjustment"] = VStr "0").
  { intros Hnone. unfold values, get at 1.
    rewrite !lookup_insert_ne by discriminate. rewrite lookup_singleton_eq.
    rewrite (get_omitted _ _ Hnone). reflexivity. }
  assert (Vg' : present values.["growthRate"] = true).
  { unfold values, get at 1.
    rewrite !lookup_insert_ne by discriminate. rewrite lookup_insert_eq.
    apply present_or_else. reflexivity. }
  assert (Vc' : present values.["costAdjustment"] = true).
  { unfold values, get at 1.
    rewrite !lookup_insert_ne by discriminate. rewrite lookup_singleton_eq.
    apply present_or_else. reflexivity. }
  assert (Vid : values.["id"] = VUndefined) by reflexivity.
  clearbody values.
  destruct (insert_into column_input users db pgTable.scenarios id VNull
              values (tbl_scenarios db)) as [[rows' row]|] eqn:Hins;
    cbn [fst snd];
    [|split; [reflexivity|]; split; [reflexivity|]; intros row H;
      discriminate H].
  apply insert_into_accepted in Hins as (-> & Hbind & Hok & Hfresh).
  pose proof (fun c => bind_lookup column_input _ pgTable.scenarios values row
                         c NoDup_scenarios Hbind) as Hcol.
  pose proof (fun c v => constraints_ok_lookup users db pgTable.scenarios row
                           c v Hok) as Hcons.
  (* the columns of the new row *)
  assert (Rid : row !! "id" = Some (VNum (num id))).
  { pose proof (Hcol (serial_primaryKey "id") ltac:(repeat constructor)) as H.
    rewrite column_value_undefined in H by exact Vid.
    injection H as H. symmetry. exact H. }
  assert (Hstring : forall (c : Column) (v : value),
             c ∈ pgTable.scenarios -> values.[col_name c] = v ->
             present v = true ->
             row !! col_name c = column_input (col_type c) v
             /\ is_Some (row !! col_name c)).
  { intros c v Hc Hv Hp. specialize (Hcol c Hc).
    apply column_value_present in Hcol as [Heq Hsome];
      [|rewrite Hv; exact Hp].
    rewrite Hv in Heq. split; assumption. }
  assert (Hnotnull : forall (c : Column),
             c ∈ pgTable.scenarios -> col_not_null c = true ->
             is_Some (row !! col_name c) ->
             exists v, row !! col_name c = Some v /\ present v = true
                       /\ references_ok users db c v = true).
  { intros c Hc Hnn [v Hv]. exists v. split; [exact Hv|].
    specialize (Hcons c v Hc Hv). unfold constraint_ok in Hcons.
    rewrite Hnn in Hcons. cbn [negb orb] in Hcons.
    apply andb_true_iff in Hcons. exact Hcons. }
  assert (Hproject : present data.["projectId"] = true).
  { destruct (present data.["projectId"]) eqn:Hp; [reflexivity|]. exfalso.
    pose proof (Hcol (references Projects (notNull (integer "projectId")))
                  ltac:(repeat constructor)) as H.
    assert (Hnull : row !! "projectId" = Some VNull).
    { unfold column_value in H.
      cbn [col_name col_default references notNull integer column] in H.
      rewrite Vp in H.
      destruct (data.["projectId"]); try discriminate Hp;
        injection H as H; symmetry; exact H. }
    specialize (Hcons (references Projects (notNull (integer "projectId")))
                  VNull ltac:(repeat constructor) Hnull).
    discriminate Hcons. }
  split; [intros H; discriminate H|].
  split; [intros H; rewrite Hproject in H; discriminate H|].
  intros row0 [= <-].
  destruct (Hstring (references Projects (notNull (integer "projectId")))
              data.["projectId"] ltac:(repeat constructor) Vp Hproject)
    as [Rp Rps].
  destruct (Hstring (notNull (text "name"))
              (or_else data.["name"] (VStr "Unnamed Scenario"))
              ltac:(repeat constructor) Vn
              ltac:(apply present_or_else; reflexivity))
    as [Rn Rns].
  destruct (Hstring (with_default (DefaultValue (VBool true))
                       (boolean "enabled")) _
              ltac:(repeat constructor) Ve eq_refl) as [Re _].
  cbn [col_name col_type references notNull with_default integer text boolean
       column] in Rp, Rps, Rn, Rns, Re.
  split; [reflexivity|].
  split; [cbn [tbl_scenarios]; rewrite <- Permutation_cons_append; reflexivity|].
  split; [unfold getScenarioById; rewrite Hfresh; reflexivity|].
  split; [exact (inserted_row_found id _ row Hfresh Rid)|].
  split; [exact Rid|]. split; [exact Rp|].
  split.
  { destruct (Hnotnull (references Projects (notNull (integer "projectId")))
                ltac:(repeat constructor) eq_refl Rps)
      as (v & Hv & Hpv & Href).
    apply (references_ok_inv db
             (references Projects (notNull (integer "projectId"))) Projects v
             eq_refl Hpv) in Href
      as (x & project & -> & Hin & Hx).
    exists x, project. repeat split; assumption. }
  split; [exact Rn|]. split; [exact Re|].
  split.
  { intros Hnone.
    exact (proj1 (Hstring (notNull (numeric "growthRate")) (VStr "0")
                    ltac:(repeat constructor) (Vg Hnone) eq_refl)). }
  split.
  { intros Hnone.
    exact (proj1 (Hstring (notNull (numeric "costAdjustment")) (VStr "0")
                    ltac:(repeat constructor) (Vc Hnone) eq_refl)). }
  assert (Hrequired : forall c : Column,
             c ∈ pgTable.scenarios -> col_not_null c = true ->
             present values.[col_name c] = true ->
             exists v, row !! col_name c = Some v /\ present v = true).
  { intros c Hc Hnn Hp.
    destruct (Hstring c _ Hc eq_refl Hp) as [_ Hsome].
    destruct (Hnotnull c Hc Hnn Hsome) as (v & Hv & Hpv & _).
    exists v. split; assumption. }
  repeat first [apply List.Forall_nil | apply List.Forall_cons].
  - exists (VNum (num id)). split; [exact Rid|reflexivity].
  - apply (Hrequired (references Projects (notNull (integer "projectId"))));
      [repeat constructor|reflexivity|].
    cbn [col_name references notNull integer column]. rewrite Vp.
    exact Hproject.
  - apply (Hrequired (notNull (text "name")));
      [repeat constructor|reflexivity|].
    cbn [col_name notNull text column]. rewrite Vn.
    apply present_or_else. reflexivity.
  - apply (Hrequired (notNull (numeric "growthRate")));
      [repeat constructor|reflexivity|exact Vg'].
  - apply (Hrequired (notNull (numeric "costAdjustment")));
      [repeat constructor|reflexivity|exact Vc'].
Qed.

(** X4: [createProject] either is refused by the database, throws and
    stores nothing, or adds one project row and leaves everything else as
    it was. The new row carries the number that the database gave it, which
    no project carried before and under which a read now finds it, alone or
    with the scenarios stored under that number; the name, goal and
    industry of the input or else their defaults, [12] for an omitted time
    horizon and ["0"] for each numeric field the input omits, each as the
    database takes it; no owner when the input has none, and else an owner
    who is a user; one and the same time as creation and update time; and
    none of its required columns is [null]. *)
Theorem createProject_inserts (db : Database) (id : Z) (clock now : value)
    (data : obj) :
  let r := createProject column_input users NumberToString db id clock now
             data in
  (r.2 = Rejected -> r.1 = db)
  /\ (forall row,
        r.2 = Resolved row ->
        tbl_scenarios r.1 = tbl_scenarios db
        /\ tbl_projects r.1 ≡ₚ row :: tbl_projects db
        /\ getProject db id = None
        /\ getProject r.1 id = Some row
        /\ getProjectWithScenarios r.1 id
           = Some {| project := row; scenarios := getScenarios db id |}
        /\ row !! "id" = Some (VNum (num id))
        /\ row !! "name"
           = column_input Text (or_else data.["name"] (VStr "Untitled Project"))
        /\ row !! "goal"
           = column_input Text (or_else data.["goal"] (VStr "No goal specified"))
        /\ row !! "industry"
           = column_input Text (or_else data.["industry"] (VStr "Other"))
        /\ (data !! "timeHorizon" = None ->
            row !! "timeHorizon" = column_input Integer (VNum (num 12)))
        /\ (data !! "initialInvestment" = None ->
            row !! "initialInvestment" = column_input Numeric (VStr "0"))
        /\ (data !! "monthlyFixedCosts" = None ->
            row !! "monthlyFixedCosts" = column_input Numeric (VStr "0"))
        /\ (data !! "variableCosts" = None ->
            row !! "variableCosts" = column_input Numeric (VStr "0"))
        /\ (data !! "expectedMonthlyRevenue" = None ->
            row !! "expectedMonthlyRevenue" = column_input Numeric (VStr "0"))
        /\ (present data.["userId"] = false -> row !! "userId" = Some VNull)
        /\ (present data.["userId"] = true ->
            row !! "userId" = column_input Integer data.["userId"])
        /\ (forall x, row !! "userId" = Some (VNum x) ->
                      exists user, user ∈ users
                                   /\ is_number user.["id"] x = true)
        /\ row !! "createdAt" = row !! "lastUpdated"
        /\ (present now = true ->
            row !! "createdAt" = column_input Timestamp now)
        /\ Forall (fun k => exists v, row !! k = Some v /\ present v = true)
             ["id"; "name"; "goal"; "timeHorizon"; "industry";
              "initialInvestment"; "monthlyFixedCosts"; "variableCosts";
              "expectedMonthlyRevenue"]).
Proof.
  intros r. subst r. unfold createProject. cbv zeta.
  destruct (transformProjectData_gets NumberToString data)
    as (T1 & T2 & T3 & T4 & T5 & T6 & T7 & T8).
  cbv zeta in T1, T2, T3, T4, T5, T6, T7, T8.
  pose proof (transformProjectData_get_userId NumberToString data) as Tu.
  set (t := transformProjectData NumberToString data) in *.
  set (values := <["lastUpdated" := now]> (<["createdAt" := now]> t)).
  assert (Vt : forall k, k <> "lastUpdated" -> k <> "createdAt" ->
                         values.[k] = t.[k]).
  { intros k K1 K2. unfold values, get.
    rewrite !lookup_insert_ne
      by (intros Heq; symmetry in Heq; contradiction).
    reflexivity. }
  assert (Vid : values.["id"] = VUndefined).
  { rewrite Vt by discriminate. apply get_omitted.
    apply transformProjectData_no_key. simpl. intros H.
    repeat (destruct H as [H|H]; [discriminate H|]). exact H. }
  assert (Vcreated : values.["createdAt"] = now).
  { unfold values, get. rewrite lookup_insert_ne by discriminate.
    rewrite lookup_insert_eq. reflexivity. }
  assert (Vupdated : values.["lastUpdated"] = now).
  { unfold values, get. rewrite lookup_insert_eq. reflexivity. }
  clearbody values.
  destruct (insert_into column_input users db pgTable.projects id clock
              values (tbl_projects db)) as [[rows' row]|] eqn:Hins;
    cbn [fst snd];
    [|split; [reflexivity|]; intros row H; discriminate H].
  apply insert_into_accepted in Hins as (-> & Hbind & Hok & Hfresh).
  pose proof (fun c => bind_lookup column_input _ pgTable.projects values row
                         c NoDup_projects Hbind) as Hcol.
  pose proof (fun c v => constraints_ok_lookup users db pgTable.projects row
                           c v Hok) as Hcons.
  assert (Rid : row !! "id" = Some (VNum (num id))).
  { pose proof (Hcol (serial_primaryKey "id") ltac:(repeat constructor)) as H.
    rewrite column_value_undefined in H by exact Vid.
    injection H as H. symmetry. exact H. }
  assert (Hstring : forall (c : Column) (v : value),
             c ∈ pgTable.projects -> values.[col_name c] = v ->
             present v = true ->
             row !! col_name c = column_input (col_type c) v
             /\ is_Some (row !! col_name c)).
  { intros c v Hc Hv Hp. specialize (Hcol c Hc).
    apply column_value_present in Hcol as [Heq Hsome];
      [|rewrite Hv; exact Hp].
    rewrite Hv in Heq. split; assumption. }
  assert (Hrequired : forall c : Column,
             c ∈ pgTable.projects -> col_not_null c = true ->
             present values.[col_name c] = true ->
             exists v, row !! col_name c = Some v /\ present v = true).
  { intros c Hc Hnn Hp.
    destruct (Hstring c _ Hc eq_refl Hp) as [_ [v Hv]].
    exists v. split; [exact Hv|].
    specialize (Hcons c v Hc Hv). unfold constraint_ok in Hcons.
    rewrite Hnn in Hcons. cbn [negb orb] in Hcons.
    apply andb_true_iff in Hcons as [Hcons _]. exact Hcons. }
  assert (Pnum : forall (c : bool) (a : string),
             present (if c then VStr a else VStr "0") = true)
    by (intros [|] a; reflexivity).
  assert (Ptime : present (if present data.["timeHorizon"]
                           then match data.["timeHorizon"] with
                                | VStr s => VNum (parseInt10 s)
                                | v => v
                                end
                           else VNum (num 12)) = true)
    by (destruct (data.["timeHorizon"]); reflexivity).
  split; [intros H; discriminate H|].
  intros row0 [= <-].
  assert (Hfound : getProject
                     {| tbl_projects := tbl_projects db ++ [row];
                        tbl_scenarios := tbl_scenarios db |} id = Some row)
    by exact (inserted_row_found id _ row Hfresh Rid).
  split; [reflexivity|].
  split; [cbn [tbl_projects]; rewrite <- Permutation_cons_append; reflexivity|].
  split; [unfold getProject; rewrite Hfresh; reflexivity|].
  split; [exact Hfound|].
  split; [unfold getProjectWithScenarios; rewrite Hfound; reflexivity|].
  split; [exact Rid|].
  split.
  { apply (Hstring (notNull (text "name"))); [repeat constructor| |].
    - rewrite Vt by discriminate. exact T1.
    - apply present_or_else. reflexivity. }
  split.
  { apply (Hstring (notNull (text "goal"))); [repeat constructor| |].
    - rewrite Vt by discriminate. exact T2.
    - apply present_or_else. reflexivity. }
  split.
  { apply (Hstring (notNull (text "industry"))); [repeat constructor| |].
    - rewrite Vt by discriminate. exact T3.
    - apply present_or_else. reflexivity. }
  split.
  { intros Hnone.
    apply (Hstring (with_default (DefaultValue (VNum (num 12)))
                      (notNull (integer "timeHorizon"))));
      [repeat constructor| |reflexivity].
    rewrite Vt by discriminate. cbn [col_name with_default notNull integer column].
    rewrite T4, (get_omitted _ _ Hnone). reflexivity. }
  split.
  { intros Hnone.
    apply (Hstring (notNull (numeric "initialInvestment")));
      [repeat constructor| |reflexivity].
    rewrite Vt by discriminate. cbn [col_name notNull numeric column].
    rewrite T5, (get_omitted _ _ Hnone). reflexivity. }
  split.
  { intros Hnone.
    apply (Hstring (notNull (numeric "monthlyFixedCosts")));
      [repeat constructor| |reflexivity].
    rewrite Vt by discriminate. cbn [col_name notNull numeric column].
    rewrite T6, (get_omitted _ _ Hnone). reflexivity. }
  split.
  { intros Hnone.
    apply (Hstring (notNull (numeric "variableCosts")));
      [repeat constructor| |reflexivity].
    rewrite Vt by discriminate. cbn [col_name notNull numeric column].
    rewrite T7, (get_omitted _ _ Hnone). reflexivity. }
  split.
  { intros Hnone.
    apply (Hstring (notNull (numeric "expectedMonthlyRevenue")));
      [repeat constructor| |reflexivity].
    rewrite Vt by discriminate. cbn [col_name notNull numeric column].
    rewrite T8, (get_omitted _ _ Hnone). reflexivity. }
  pose proof (Hcol (references Users (integer "userId"))
                ltac:(repeat constructor)) as Howner.
  split.
  { intros Hp. rewrite column_value_undefined in Howner.
    - injection Howner as H. symmetry. exact H.
    - cbn [col_name references integer column].
      rewrite Vt by discriminate. rewrite Tu, Hp. reflexivity. }
  split.
  { intros Hp.
    apply (Hstring (references Users (integer "userId")));
      [repeat constructor| |exact Hp].
    cbn [col_name references integer column].
    rewrite Vt by discriminate. rewrite Tu, Hp. reflexivity. }
  split.
  { intros x Hx.
    specialize (Hcons (references Users (integer "userId")) (VNum x)
                  ltac:(repeat constructor) Hx).
    unfold constraint_ok in Hcons. apply andb_true_iff in Hcons as [_ Href].
    apply (references_ok_inv db (references Users (integer "userId")) Users
             (VNum x) eq_refl eq_refl) in Href
      as (x' & user & [= <-] & Hin & Hu).
    exists user. split; assumption. }
  pose proof (Hcol (with_default DefaultNow (timestamp "createdAt"))
                ltac:(repeat constructor)) as Hc1.
  pose proof (Hcol (with_default DefaultNow (timestamp "lastUpdated"))
                ltac:(repeat constructor)) as Hc2.
  split.
  { unfold column_value in Hc1, Hc2.
    cbn [col_name col_type col_default with_default timestamp column]
      in Hc1, Hc2.
    rewrite Vcreated in Hc1. rewrite Vupdated in Hc2.
    rewrite Hc1 in Hc2. injection Hc2 as Hc2. exact Hc2. }
  split.
  { intros Hp.
    apply (Hstring (with_default DefaultNow (timestamp "createdAt")));
      [repeat constructor|exact Vcreated|exact Hp]. }
  repeat first [apply List.Forall_nil | apply List.Forall_cons].
  - exists (VNum (num id)). split; [exact Rid|reflexivity].
  - apply (Hrequired (notNull (text "name")));
      [repeat constructor|reflexivity|].
    rewrite Vt by discriminate. cbn [col_name notNull text column].
    rewrite T1. apply present_or_else. reflexivity.
  - apply (Hrequired (notNull (text "goal")));
      [repeat constructor|reflexivity|].
    rewrite Vt by discriminate. cbn [col_name notNull text column].
    rewrite T2. apply present_or_else. reflexivity.
  - apply (Hrequired (with_default (DefaultValue (VNum (num 12)))
                        (notNull (integer "timeHorizon"))));
      [repeat constructor|reflexivity|].
    rewrite Vt by discriminate.
    cbn [col_name with_default notNull integer column].
    rewrite T4. exact Ptime.
  - apply (Hrequired (notNull (text "industry")));
      [repeat constructor|reflexivity|].
    rewrite Vt by discriminate. cbn [col_name notNull text column].
    rewrite T3. apply present_or_else. reflexivity.
  - apply (Hrequired (notNull (numeric "initialInvestment")));
      [repeat constructor|reflexivity|].
    rewrite Vt by discriminate. cbn [col_name notNull numeric column].
    rewrite T5. apply Pnum.
  - apply (Hrequired (notNull (numeric "monthlyFixedCosts")));
      [repeat constructor|reflexivity|].
    rewrite Vt by discriminate. cbn [col_name notNull numeric column].
    rewrite T6. apply Pnum.
  - apply (Hrequired (notNull (numeric "variableCosts")));
      [repeat constructor|reflexivity|].
    rewrite Vt by discriminate. cbn [col_name notNull numeric column].
    rewrite T7. apply Pnum.
  - apply (Hrequired (notNull (numeric "expectedMonthlyRevenue")));
      [repeat constructor|reflexivity|].
    rewrite Vt by discriminate. cbn [col_name notNull numeric column].
    rewrite T8. apply Pnum.
Qed.

End InsertProperties.

(** ** The storage: what an update leaves alone and what it returns *)

Section UpdateProperties.
Import JsNum Js Schema Transform Storage StorageMore StorageFacts UpdateFacts.

Variable column_input : ColumnType -> value -> option value.
Variable users : list obj.
Variable NumberToString : number -> string.

(** X5: whatever it is called with, and whether or not the database
    accepts the call, [updateScenario] leaves the projects alone and
    neither adds nor removes a scenario: up to the order of the rows, the
    table afterwards is the table before with each row of the given id
    rewritten, and a rewritten row differs from the row it replaces in
    name, enabled flag, growth rate and cost adjustment at most. The id of
    a scenario and the project it belongs to cannot be changed through
    it. *)
Theorem updateScenario_frame (db : Database) (id : Z) (scenarioUpdate : value) :
  let r := updateScenario column_input users NumberToString db id
             scenarioUpdate in
  tbl_projects r.1 = tbl_projects db
  /\ exists rewritten : obj -> obj,
       tbl_scenarios r.1
       ≡ₚ map (fun row => if column_eq "id" id row then rewritten row else row)
            (tbl_scenarios db)
       /\ forall row k,
            k <> "name" -> k <> "enabled" -> k <> "growthRate" ->
            k <> "costAdjustment" -> rewritten row !! k = row !! k.
Proof.
  intros r. subst r.
  assert (Hsame : forall db',
             db' = db ->
             tbl_projects db' = tbl_projects db
             /\ exists rewritten : obj -> obj,
                  tbl_scenarios db'
                  ≡ₚ map (fun row => if column_eq "id" id row
                                     then rewritten row else row)
                       (tbl_scenarios db)
                  /\ forall row k,
                       k <> "name" -> k <> "enabled" -> k <> "growthRate" ->
                       k <> "costAdjustment" -> rewritten row !! k = row !! k).
  { intros db' ->. split; [reflexivity|]. exists (fun row => row).
    split; [rewrite map_if_same|]; reflexivity. }
  destruct (updateScenario column_input users NumberToString db id
              scenarioUpdate) as [db' [returned|]] eqn:Hcall; cbn [fst].
  - apply updateScenario_accepted in Hcall
      as [(_ & -> & _)|(bound & _ & Hp & Hrows & _ & _ & _ & _ & _ & Hother
                        & _)];
      [apply Hsame; reflexivity|].
    split; [exact Hp|]. exists (set_values bound). split.
    + rewrite Hrows. apply moved_to_end_permutation.
    + intros row k K1 K2 K3 K4. apply set_values_lookup_other, Hother;
        assumption.
  - apply Hsame.
    pose proof (updateScenario_rejected column_input users NumberToString db
                  id scenarioUpdate) as H.
    rewrite Hcall in H. exact (H eq_refl).
Qed.

(** X6: what an accepted [updateScenario] returns is what a read finds
    afterwards: the first stored scenario with the given id, or nothing
    when there is none. *)
Theorem updateScenario_returns_stored (db : Database) (id : Z)
    (scenarioUpdate : value) (returned : option obj) :
  let r := updateScenario column_input users NumberToString db id
             scenarioUpdate in
  r.2 = Resolved returned ->
  returned = getScenarioById r.1 id
  /\ (returned = None <-> getScenarioById db id = None).
Proof.
  intros r Hr.
  assert (Hcall : updateScenario column_input users NumberToString db id
                    scenarioUpdate = (r.1, Resolved returned)).
  { rewrite <- Hr. subst r. destruct (updateScenario _ _ _ _ _ _).
    reflexivity. }
  unfold getScenarioById.
  apply updateScenario_accepted in Hcall
    as [(_ & -> & ->)|(bound & _ & _ & Hrows & -> & _ & _ & _ & _ & Hother
                       & _)].
  - split; reflexivity.
  - rewrite Hrows, filter_updated
      by (intros row; apply column_eq_set_values, Hother; discriminate).
    split; [reflexivity|].
    destruct (List.filter (column_eq "id" id) (tbl_scenarios db));
      simpl; split; intros H; trivial; discriminate H.
Qed.

(** X7: in the scenario that an accepted [updateScenario] returns, a name
    and an enabled flag that the update object omits are kept as they were,
    unlike the rates, and so are the id and the project; a name that the
    object carries is not [null] and is stored as the database takes it,
    an enabled flag as the database takes the boolean it amounts to, and a
    rate as the database takes the text of its value, or ["0"] for a rate
    that is omitted. *)
Theorem updateScenario_stores (db : Database) (id : Z) (upd : obj)
    (returned : obj) :
  (updateScenario column_input users NumberToString db id (VObj upd)).2
  = Resolved (Some returned) ->
  exists row,
    getScenarioById db id = Some row
    /\ returned !! "id" = row !! "id"
    /\ returned !! "projectId" = row !! "projectId"
    /\ (if defined upd.["name"]
        then present upd.["name"] = true
             /\ returned !! "name" = column_input Text upd.["name"]
             /\ is_Some (returned !! "name")
        else returned !! "name" = row !! "name")
    /\ (if defined upd.["enabled"]
        then returned !! "enabled"
             = column_input Boolean (VBool (truthy upd.["enabled"]))
             /\ is_Some (returned !! "enabled")
        else returned !! "enabled" = row !! "enabled")
    /\ returned !! "growthRate"
       = column_input Numeric
           (VStr (if present upd.["growthRate"]
                  then ToString NumberToString upd.["growthRate"] else "0"))
    /\ is_Some (returned !! "growthRate")
    /\ returned !! "costAdjustment"
       = column_input Numeric
           (VStr (if present upd.["costAdjustment"]
                  then ToString NumberToString upd.["costAdjustment"]
                  else "0"))
    /\ is_Some (returned !! "costAdjustment").
Proof.
  intros Hr.
  assert (Hcall : updateScenario column_input users NumberToString db id
                    (VObj upd)
                  = ((updateScenario column_input users NumberToString db id
                        (VObj upd)).1, Resolved (Some returned))).
  { rewrite <- Hr. destruct (updateScenario _ _ _ _ _ _). reflexivity. }
  apply updateScenario_object in Hcall
    as (bound & _ & Hret & _ & Hn & He & Hes & Hg & Hgs & Hc & Hcs & Hother
        & Hok).
  symmetry in Hret. apply head_map_Some in Hret as (row & Hhead & ->).
  exists row. split; [exact Hhead|].
  assert (Hsel : List.filter (column_eq "id" id) (tbl_scenarios db) <> [])
    by (intros Hnil; rewrite Hnil in Hhead; discriminate Hhead).
  specialize (Hok Hsel).
  split; [apply set_values_lookup_other, Hother; discriminate|].
  split; [apply set_values_lookup_other, Hother; discriminate|].
  split.
  { destruct (defined upd.["name"]) eqn:Hdn.
    - destruct (present upd.["name"]) eqn:Hpn.
      + apply column_value_present in Hn as [Heq Hsome]; [|exact Hpn].
        cbn [col_name col_type notNull text column] in Heq.
        destruct Hsome as [stored Hstored].
        split; [reflexivity|].
        rewrite (set_values_lookup _ _ _ _ Hstored).
        split; [rewrite <- Heq; symmetry; exact Hstored|eexists; reflexivity].
      + exfalso.
        assert (Hnull : upd.["name"] = VNull)
          by (destruct (upd.["name"]); try discriminate; reflexivity).
        rewrite column_value_null in Hn by exact Hnull.
        injection Hn as Hn. symmetry in Hn.
        pose proof (constraints_ok_lookup users db pgTable.scenarios bound
                      (notNull (text "name")) VNull Hok
                      ltac:(repeat constructor) Hn) as Hbad.
        discriminate Hbad.
    - rewrite column_value_undefined in Hn
        by (apply get_undefined_inv; exact Hdn).
      injection Hn as Hn. apply set_values_lookup_other. symmetry. exact Hn. }
  split.
  { destruct (defined upd.["enabled"]) eqn:Hde.
    - destruct (Hes eq_refl) as [stored Hstored].
      rewrite (set_values_lookup _ _ _ _ Hstored).
      split; [rewrite <- He; symmetry; exact Hstored|eexists; reflexivity].
    - apply set_values_lookup_other. exact He. }
  destruct Hgs as [g Hgv]. destruct Hcs as [c Hcv].
  rewrite (set_values_lookup _ _ _ _ Hgv), (set_values_lookup _ _ _ _ Hcv).
  rewrite <- Hg, <- Hc.
  repeat match goal with |- _ /\ _ => split end;
    first [symmetry; assumption | eexists; reflexivity].
Qed.

(** The columns that [updateProject] leaves alone. *)
Lemma updateProject_bound_other (now : value) (upd bound : obj) (k : string) :
  (forall c, c ∈ pgTable.projects ->
     column_value column_input (fun _ => None)
       (<["lastUpdated" := now]> (transformProjectData NumberToString upd)) c
     = Some (bound !! col_name c)) ->
  (forall k, (forall c, c ∈ pgTable.projects -> col_name c <> k) ->
             bound !! k = None) ->
  ~ In k ["name"; "goal"; "industry"; "timeHorizon"; "initialInvestment";
          "monthlyFixedCosts"; "variableCosts"; "expectedMonthlyRevenue";
          "lastUpdated"] ->
  k <> "userId" \/ present upd.["userId"] = false ->
  bound !! k = None.
Proof.
  intros Hcol Hother Hk Hu. simpl in Hk.
  destruct (updateProject_bound_id column_input NumberToString now upd bound
              Hcol) as [Hid Hcreated].
  destruct (decide (k = "id")) as [->|Kid]; [exact Hid|].
  destruct (decide (k = "createdAt")) as [->|Kc]; [exact Hcreated|].
  destruct (decide (k = "userId")) as [->|Ku].
  - destruct Hu as [Hu|Hu]; [contradiction|].
    pose proof (Hcol (references Users (integer "userId"))
                  ltac:(repeat constructor)) as H.
    rewrite column_value_undefined in H.
    + injection H as H. symmetry. exact H.
    + cbn [col_name references integer column]. unfold get at 1.
      rewrite lookup_insert_ne by discriminate.
      fold ((transformProjectData NumberToString upd).["userId"]).
      rewrite transformProjectData_get_userId, Hu. reflexivity.
  - apply Hother. intros c Hin. unfold pgTable.projects in Hin.
    repeat (apply elem_of_cons in Hin as [->|Hin];
            [cbn; intros E; first [tauto | symmetry in E; tauto]|]).
    apply elem_of_nil in Hin. contradiction.
Qed.

(** X8: whether or not the database accepts the call, [updateProject]
    leaves the scenarios alone and neither adds nor removes a project: up
    to the order of the rows, the table afterwards is the table before with
    each row of the given id rewritten. A rewritten row differs from the
    row it replaces in the eight project columns, the update time and, when
    the update carries one, the owner, at most; every other column, the id
    and the creation time among them, stays as it was. *)
Theorem updateProject_frame (db : Database) (now : value) (id : Z)
    (upd : obj) :
  let r := updateProject column_input users NumberToString db now id upd in
  tbl_scenarios r.1 = tbl_scenarios db
  /\ exists rewritten : obj -> obj,
       tbl_projects r.1
       ≡ₚ map (fun row => if column_eq "id" id row then rewritten row else row)
            (tbl_projects db)
       /\ forall row k,
            ~ In k ["name"; "goal"; "industry"; "timeHorizon";
                    "initialInvestment"; "monthlyFixedCosts";
                    "variableCosts"; "expectedMonthlyRevenue";
                    "lastUpdated"] ->
            k <> "userId" \/ present upd.["userId"] = false ->
            rewritten row !! k = row !! k.
Proof.
  intros r. subst r.
  destruct (updateProject column_input users NumberToString db now id upd)
    as [db' [returned|]] eqn:Hcall; cbn [fst].
  - apply updateProject_accepted in Hcall
      as (bound & Hs & Hrows & _ & Hcol & Hother & _).
    split; [exact Hs|]. exists (set_values bound). split.
    + rewrite Hrows. apply moved_to_end_permutation.
    + intros row k Hk Hu. apply set_values_lookup_other.
      exact (updateProject_bound_other now upd bound k Hcol Hother Hk Hu).
  - pose proof (updateProject_rejected column_input users NumberToString db
                  now id upd) as H.
    rewrite Hcall in H. assert (Hdb : db' = db) by exact (H eq_refl).
    rewrite Hdb.
    split; [reflexivity|]. exists (fun row => row).
    split; [rewrite map_if_same|]; reflexivity.
Qed.


End UpdateProperties.

(** ** The transformation functions applied twice *)

Section TransformTwice.
Import JsNum Js Schema Transform Storage UpdateFacts.

Variable column_input : ColumnType -> value -> option value.
Variable users : list obj.
Variable NumberToString : number -> string.

Lemma or_else_idempotent (v d : value) :
  or_else (or_else v d) d = or_else v d.
Proof.
  unfold or_else. destruct (truthy v) eqn:Hv; [rewrite Hv; reflexivity|].
  destruct (truthy d); reflexivity.
Qed.

(** X10: [transformProjectData] is idempotent: transforming project data
    that has already been transformed changes nothing. Hence
    [updateProject], which transforms its argument, does the same with
    data that a route has transformed beforehand as with the data
    themselves. *)
Theorem transformProjectData_idempotent (data : obj) :
  transformProjectData NumberToString (transformProjectData NumberToString data)
  = transformProjectData NumberToString data
  /\ (forall db now id,
        updateProject column_input users NumberToString db now id
          (transformProjectData NumberToString data)
        = updateProject column_input users NumberToString db now id data).
Proof.
  assert (Hidem :
            transformProjectData NumberToString
              (transformProjectData NumberToString data)
            = transformProjectData NumberToString data);
    [|split; [exact Hidem|];
      intros db now id; unfold updateProject; rewrite Hidem; reflexivity].
  destruct (transformProjectData_gets NumberToString data)
    as (H1 & H2 & H3 & H4 & H5 & H6 & H7 & H8).
  cbv zeta in H1, H2, H3, H4, H5, H6, H7, H8.
  unfold transformProjectData at 1.
  rewrite transformProjectData_get_userId, H1, H2, H3, H4, H5, H6, H7, H8.
  rewrite !or_else_idempotent.
  assert (Hnum : forall (c : bool) (a : string),
             (if present (if c then VStr a else VStr "0")
              then VStr (ToString NumberToString (if c then VStr a else VStr "0"))
              else VStr "0")
             = (if c then VStr a else VStr "0" : value))
    by (intros [|] a; reflexivity).
  rewrite !Hnum.
  assert (Htime :
            (if present (if present data.["timeHorizon"]
                         then match data.["timeHorizon"] with
                              | VStr s => VNum (parseInt10 s)
                              | v => v
                              end
                         else VNum (num 12))
             then match (if present data.["timeHorizon"]
                         then match data.["timeHorizon"] with
                              | VStr s => VNum (parseInt10 s)
                              | v => v
                              end
                         else VNum (num 12)) with
                  | VStr s => VNum (parseInt10 s)
                  | v => v
                  end
             else VNum (num 12))
            = (if present data.["timeHorizon"]
               then match data.["timeHorizon"] with
                    | VStr s => VNum (parseInt10 s)
                    | v => v
                    end
               else VNum (num 12))).
  { destruct (data.["timeHorizon"]); reflexivity. }
  rewrite Htime.
  unfold transformProjectData.
  destruct (present data.["userId"]) eqn:Hu.
  - rewrite Hu. reflexivity.
  - reflexivity.
Qed.

(** X11: on an object, [transformScenarioData] is idempotent as well, and
    [updateScenario] does the same with scenario data that a route has
    transformed beforehand as with the data themselves. *)
Theorem transformScenarioData_idempotent (data : obj) :
  transformScenarioData NumberToString
    (VObj (transformScenarioData NumberToString (VObj data)))
  = transformScenarioData NumberToString (VObj data)
  /\ (forall db id,
        updateScenario column_input users NumberToString db id
          (VObj (transformScenarioData NumberToString (VObj data)))
        = updateScenario column_input users NumberToString db id (VObj data)).
Proof.
  assert (Hidem :
            transformScenarioData NumberToString
              (VObj (transformScenarioData NumberToString (VObj data)))
            = transformScenarioData NumberToString (VObj data));
    [|split; [exact Hidem|];
      intros db id; unfold updateScenario; rewrite Hidem; reflexivity].
  unfold transformScenarioData at 1. cbn [truthy negb].
  destruct (transformScenarioData_get NumberToString data)
    as (Hp & Hn & He & Hg & Hc).
  cbv zeta in Hp, Hn, He, Hg, Hc.
  rewrite Hp, Hn, He, Hg, Hc.
  unfold transformScenarioData. cbn [truthy negb].
  destruct (defined data.["projectId"]), (defined data.["name"]),
    (defined data.["enabled"]), (present data.["growthRate"]),
    (present data.["costAdjustment"]); reflexivity.
Qed.

End TransformTwice.

(** ** The handlers: who receives an analysis *)

Section HandlerProperties.
Import JsNum Js Schema Storage Handler Engine Examples.

Lemma getProjectWithScenarios_Some (db : Database) (projectId : Z) (p : obj) :
  getProject db projectId = Some p ->
  getProjectWithScenarios db projectId
  = Some {| project := p; scenarios := getScenarios db projectId |}.
Proof. intros H. unfold getProjectWithScenarios. rewrite H. reflexivity. Qed.

(** X12: the analysis handler answers with an analysis exactly when the
    request names a project id other than 0, the project exists and its
    owner is the authenticated user; the analysis is then the one of the
    stored project with all its scenarios. A user never receives the
    analysis of a project of somebody else. *)
Theorem analysis_for_the_owner_only (db : Database) (userId projectId : Z)
    (body : ProjectAnalysis) :
  post_api_analysis db userId projectId = Json body
  <-> projectId <> 0
      /\ exists p,
           getProject db projectId = Some p
           /\ is_number p.["userId"] (of_Z userId) = true
           /\ body = Server.analysis
                       {| project := p;
                          scenarios := getScenarios db projectId |}.
Proof.
  unfold post_api_analysis. split.
  - destruct (Z.eqb_spec projectId 0) as [|Hne]; [discriminate|].
    destruct (getProject db projectId) as [p|] eqn:Hp; [|discriminate].
    destruct (is_number p.["userId"] (of_Z userId)) eqn:Hu;
      [|discriminate].
    cbn [negb]. rewrite (getProjectWithScenarios_Some _ _ _ Hp).
    intros [= <-]. split; [exact Hne|]. exists p.
    split; [reflexivity|]. split; [exact Hu|reflexivity].
  - intros (Hne & p & Hp & Hu & ->).
    destruct (Z.eqb_spec projectId 0) as [|_]; [contradiction|].
    rewrite Hp, Hu. cbn [negb].
    rewrite (getProjectWithScenarios_Some _ _ _ Hp). reflexivity.
Qed.

Lemma report_scenarioCalculations_same (pws : ProjectWithScenarios) :
  Report.scenarioCalculations pws = Server.scenarioCalculations pws.
Proof. reflexivity. Qed.

(** X13: the report handler goes on to the report service only where the
    analysis handler answers with an analysis, and the calculations it
    hands over are those of that analysis; the scenario type it hands over
    is absent or one of Optimistic, Realistic and Pessimistic. *)
Theorem report_uses_the_analysis (db : Database) (userId projectId : Z)
    (scenarioType : value) (pws : ProjectWithScenarios)
    (calculations : list ScenarioCalculations) (validated : value) :
  Report.post_api_report db userId projectId scenarioType
  = Report.GenerateAnalysisReport pws calculations validated ->
  post_api_analysis db userId projectId = Json (Server.analysis pws)
  /\ calculations = analysis_scenarios (Server.analysis pws)
  /\ (validated = VUndefined /\ truthy scenarioType = false
      \/ validated = scenarioType
         /\ (scenarioType = VStr "Optimistic"
             \/ scenarioType = VStr "Realistic"
             \/ scenarioType = VStr "Pessimistic")).
Proof.
  unfold Report.post_api_report, post_api_analysis.
  destruct (projectId =? 0); [discriminate|].
  destruct (getProject db projectId) as [p|]; [|discriminate].
  destruct (negb _); [discriminate|].
  destruct (getProjectWithScenarios db projectId) as [pws'|]; [|discriminate].
  destruct (truthy scenarioType) eqn:Ht.
  - destruct (Report.is_scenario_type scenarioType) eqn:Hs; [|discriminate].
    intros [= <- <- <-].
    split; [reflexivity|].
    split; [apply report_scenarioCalculations_same|].
    right. split; [reflexivity|].
    unfold Report.is_scenario_type, is_string in Hs.
    destruct scenarioType as [| | | |s|]; try discriminate Hs.
    destruct (String.eqb_spec s "Optimistic") as [->|_]; [tauto|].
    destruct (String.eqb_spec s "Realistic") as [->|_]; [tauto|].
    destruct (String.eqb_spec s "Pessimistic") as [->|_]; [tauto|].
    discriminate Hs.
  - intros [= <- <- <-].
    split; [reflexivity|].
    split; [apply report_scenarioCalculations_same|].
    left. split; reflexivity.
Qed.

Lemma report_uses_the_analysis_witness :
  post_api_analysis exampleDatabase 1 1
  = Json (Server.analysis
            {| project := exampleProject;
               scenarios := [realistic; optimistic; pessimisticDisabled] |}).
Proof.
  eapply (report_uses_the_analysis exampleDatabase 1 1 (VStr "Realistic")).
  vm_compute. reflexivity.
Defined.

End HandlerProperties.

(** ** The metrics: signs and missing values *)

Section MetricProperties.
Import JsNum Js Schema Engine Examples NumFacts Rounding.

Lemma mul_zero_l s x :
  mul (S754_zero s) x = nan \/ exists s', mul (S754_zero s) x = S754_zero s'.
Proof. destruct x; simpl; eauto. Qed.

Lemma num_12_finite : exists m e, num 12 = S754_finite false m e.
Proof. eexists. eexists. vm_compute. reflexivity. Qed.

Lemma signed_false_not_negative x : signed_or_nan false x -> ltb x zero = false.
Proof.
  destruct x as [s|s| |s m e]; simpl; intros H; subst; trivial.
Qed.

(** Rounding never turns a number that is not negative into a negative
    one. *)
Lemma roundTo_not_negative f x :
  ltb x zero = false -> ltb (roundTo f x) zero = false.
Proof.
  destruct x as [s|s| |s m e]; intros H.
  - rewrite roundTo_zero. reflexivity.
  - exact H.
  - exact H.
  - destruct s; [discriminate H|].
    rewrite roundTo_finite.
    destruct (leb ten_pow_21 (S754_finite false m e)); [reflexivity|].
    apply signed_false_not_negative, of_decimal_signed.
Qed.

(** X14: a project whose expected monthly revenue is zero has no profit
    margin: whatever its costs and whatever the scenario, the margin that
    is returned is NaN or an infinity. *)
Theorem zero_revenue_has_no_margin (project scenario : obj) :
  SFeqb (Number project.["expectedMonthlyRevenue"]) zero = true ->
  is_finite (profitMargin (Client.calculateFinancialMetrics project scenario))
  = false.
Proof.
  intros Hzero. apply eqb_zero_inv in Hzero as [s Hs].
  rewrite Stages.calculateFinancialMetrics_stages.
  unfold metricsOf. cbn [profitMargin].
  assert (Hrev : annualRevenue (adjust project scenario) = nan
                 \/ exists s', annualRevenue (adjust project scenario)
                               = S754_zero s').
  { unfold annualRevenue, adjust. cbn [adjustedMonthlyRevenue]. rewrite Hs.
    destruct num_12_finite as (m12 & e12 & ->).
    match goal with
    | |- context [mul (S754_zero s) ?g] =>
        destruct (mul_zero_l s g) as [->|[s' ->]]
    end; [left; reflexivity|right; eexists; reflexivity]. }
  assert (Hraw : is_finite (rawProfitMargin (adjust project scenario)) = false).
  { unfold rawProfitMargin. apply mul_100_not_finite.
    destruct Hrev as [->|[s' ->]];
      [rewrite div_nan_r; reflexivity|apply div_zero_not_finite]. }
  rewrite roundTo_not_finite by exact Hraw. exact Hraw.
Qed.

Lemma zero_revenue_has_no_margin_witness :
  is_finite
    (profitMargin
       (Client.calculateFinancialMetrics
          (<["expectedMonthlyRevenue" := VStr "0"]> exampleProject) realistic))
  = false.
Proof.
  apply zero_revenue_has_no_margin. vm_compute. reflexivity.
Defined.

(** X15: the rounding of the metrics keeps their sign: each of ROI,
    break-even, net profit and profit margin is returned not greater than
    zero when the computed value is not greater than zero, and not less
    than zero when the computed value is not less than zero. A loss is
    never reported as a profit, nor a profit as a loss. *)
Theorem rounding_keeps_the_sign (project scenario : obj) :
  let a := adjust project scenario in
  let initialInvestment := Number project.["initialInvestment"] in
  let m := Client.calculateFinancialMetrics project scenario in
  let kept (x y : number) :=
    (ltb zero x = false -> ltb zero y = false)
    /\ (ltb x zero = false -> ltb y zero = false) in
  kept (rawRoi initialInvestment a) (roi m)
  /\ kept (rawBreakEven initialInvestment a) (breakEven m)
  /\ kept (annualProfit a) (netProfit m)
  /\ kept (rawProfitMargin a) (profitMargin m).
Proof.
  intros a initialInvestment m kept. subst m kept.
  rewrite Stages.calculateFinancialMetrics_stages.
  unfold metricsOf. cbn [roi breakEven netProfit profitMargin].
  repeat match goal with |- _ /\ _ => split end;
    first [apply roundTo_not_positive | apply roundTo_not_negative].
Qed.

End MetricProperties.

(** ** What the client displays *)

Section FormatProperties.
Import JsNum Js Schema Engine Examples NumFacts Rounding Format.

Variable NumberToString : number -> string.

Lemma get_absent_nan (o : obj) (k : string) :
  o !! k = None -> Number o.[k] = nan.
Proof. intros H. unfold get. rewrite H. reflexivity. Qed.

Lemma absent_input_metrics (project scenario : obj) :
  project !! "initialInvestment" = None
  \/ project !! "monthlyFixedCosts" = None
  \/ project !! "variableCosts" = None
  \/ project !! "expectedMonthlyRevenue" = None
  \/ scenario !! "growthRate" = None
  \/ scenario !! "costAdjustment" = None ->
  roi (Client.calculateFinancialMetrics project scenario) = nan
  /\ breakEven (Client.calculateFinancialMetrics project scenario) = nan.
Proof.
  intros H.
  rewrite Stages.calculateFinancialMetrics_stages.
  unfold metricsOf. cbn [roi breakEven].
  unfold rawRoi, rawBreakEven, annualProfit, monthlyProfit, annualRevenue,
    adjust.
  cbn [adjustedMonthlyRevenue adjustedMonthlyFixedCosts adjustedVariableCosts].
  destruct H as [H|[H|[H|[H|[H|H]]]]];
    rewrite (get_absent_nan _ _ H);
    autorewrite with js_nan; split; apply roundTo_nan.
Qed.

(** X16: when one of the six numeric inputs is absent, the client shows
    the ROI as ["0.0%"] and the break-even as ["0.0 mo"]: the missing
    result is displayed as a zero. *)
Theorem absent_input_is_displayed_as_zero (project scenario : obj) :
  project !! "initialInvestment" = None
  \/ project !! "monthlyFixedCosts" = None
  \/ project !! "variableCosts" = None
  \/ project !! "expectedMonthlyRevenue" = None
  \/ scenario !! "growthRate" = None
  \/ scenario !! "costAdjustment" = None ->
  let m := Client.calculateFinancialMetrics project scenario in
  formatPercentage NumberToString (VNum (roi m)) = Some "0.0%"
  /\ formatMonths NumberToString (VNum (breakEven m)) = Some "0.0 mo".
Proof.
  intros H m. subst m.
  destruct (absent_input_metrics project scenario H) as [-> ->].
  split; reflexivity.
Qed.

(** X17: for a project without initial investment the client shows the ROI
    as ["Infinity%"], ["-Infinity%"] or, when the annual profit is zero or
    not a number, ["0.0%"]. *)
Theorem zero_investment_roi_display (project scenario : obj) :
  SFeqb (Number project.["initialInvestment"]) zero = true ->
  let shown :=
    formatPercentage NumberToString
      (VNum (roi (Client.calculateFinancialMetrics project scenario))) in
  shown = Some "Infinity%" \/ shown = Some "-Infinity%"
  \/ shown = Some "0.0%".
Proof.
  intros Hzero shown. subst shown.
  apply eqb_zero_inv in Hzero as [s Hs].
  rewrite Stages.calculateFinancialMetrics_stages.
  unfold metricsOf. cbn [roi].
  assert (Hroi : is_finite
                   (rawRoi (Number project.["initialInvestment"])
                      (adjust project scenario)) = false).
  { unfold rawRoi. rewrite Hs.
    apply mul_100_not_finite, div_zero_not_finite. }
  rewrite (roundTo_not_finite _ _ Hroi).
  destruct (rawRoi _ _) as [s'|s'| |s' m e]; try discriminate Hroi.
  - destruct s'; [right; left|left]; reflexivity.
  - right. right. reflexivity.
Qed.

Lemma num_1000_finite : exists m e, num 1000 = S754_finite false m e.
Proof. eexists. eexists. vm_compute. reflexivity. Qed.

(** X18: [formatCurrency] abbreviates to thousands only from 1000 upwards:
    a negative amount, however large, is written in full with two
    decimals and a minus sign after the dollar sign. *)
Theorem formatCurrency_negative (x : number) :
  ltb x zero = true ->
  formatCurrency NumberToString (VNum x)
  = Some ("$" +:+ print NumberToString (toFixed x 2))
  /\ exists rest, print NumberToString (toFixed x 2) = String "-" rest.
Proof.
  intros Hneg. unfold formatCurrency, numValue, isNaN.
  cbn [Number].
  destruct num_1000_finite as (m1 & e1 & ->).
  destruct x as [s|s| |s m e]; try discriminate Hneg;
    destruct s; try discriminate Hneg.
  - split; [reflexivity|]. eexists. reflexivity.
  - cbn [is_nan]. split; [reflexivity|].
    rewrite toFixed_finite.
    destruct (leb ten_pow_21 (S754_finite false m e));
      eexists; reflexivity.
Qed.

End FormatProperties.

Section FormatExamples.
Import JsNum Js Schema Engine Examples Format.

Lemma absent_input_is_displayed_as_zero_witness :
  formatPercentage noNumberToString
    (VNum (roi (Client.calculateFinancialMetrics exampleProject
                  (delete "growthRate" realistic)))) = Some "0.0%"
  /\ formatMonths noNumberToString
       (VNum (breakEven (Client.calculateFinancialMetrics exampleProject
                           (delete "growthRate" realistic)))) = Some "0.0 mo".
Proof.
  apply (absent_input_is_displayed_as_zero noNumberToString).
  right. right. right. right. left. vm_compute. reflexivity.
Defined.

Lemma zero_investment_roi_display_witness :
  let shown :=
    formatPercentage noNumberToString
      (VNum (roi (Client.calculateFinancialMetrics losingProject realistic))) in
  shown = Some "Infinity%" \/ shown = Some "-Infinity%"
  \/ shown = Some "0.0%".
Proof.
  apply (zero_investment_roi_display noNumberToString).
  vm_compute. reflexivity.
Defined.

Lemma formatCurrency_negative_witness :
  formatCurrency noNumberToString (VNum (num (-5000)))
  = Some ("$" +:+ print noNumberToString (toFixed (num (-5000)) 2))
  /\ exists rest,
       print noNumberToString (toFixed (num (-5000)) 2) = String "-" rest.
Proof.
  apply (formatCurrency_negative noNumberToString).
  vm_compute. reflexivity.
Defined.

End FormatExamples.

(** ** The answers to follow-up questions *)

Section AnswerProperties.
Import JsNum Js Answers.

Lemma kept_character (c : ascii) :
  match digit_of 10 c with
  | Some _ => true
  | None => is_char c "."
  end = is_char c "0123456789.".
Proof.
  destruct c as [[|] [|] [|] [|] [|] [|] [|] [|]]; vm_compute; reflexivity.
Qed.

Lemma filter_idempotent {A : Type} (f : A -> bool) (l : list A) :
  List.filter f (List.filter f l) = List.filter f l.
Proof.
  induction l as [|x l IH]; simpl; [reflexivity|].
  destruct (f x) eqn:Hx; simpl; [rewrite Hx, IH; reflexivity|exact IH].
Qed.

Lemma Forall_filter_true {A : Type} (f : A -> bool) (l : list A) :
  Forall (fun x => f x = true) (List.filter f l).
Proof.
  induction l as [|x l IH]; simpl; [constructor|].
  destruct (f x) eqn:Hx; [constructor; assumption|exact IH].
Qed.

(** What is kept is a part of the text, in its order. *)
Lemma filter_sublist {A : Type} (f : A -> bool) (l : list A) :
  List.filter f l `sublist_of` l.
Proof.
  induction l as [|x l IH]; simpl; [constructor|].
  destruct (f x); constructor; exact IH.
Qed.

(** Every part of the text that consists of kept characters is a part of
    what is kept. *)
Lemma sublist_filter_all {A : Type} (f : A -> bool) (k l : list A) :
  k `sublist_of` l -> Forall (fun x => f x = true) k ->
  k `sublist_of` List.filter f l.
Proof.
  induction 1 as [|x k l _ IH|x k l _ IH]; intros Hall; simpl.
  - constructor.
  - apply Forall_cons in Hall as [Hx Hall]. rewrite Hx.
    constructor. exact (IH Hall).
  - destruct (f x); [constructor|]; exact (IH Hall).
Qed.

(** X19: the clean-up of the variable costs keeps the digits and the dots
    of a text, all of them and in their order, and nothing else: what it
    yields is a part of the text made of digits and dots, and every part of
    the text that is made of digits and dots is a part of it. So a percent
    sign goes, and so does a minus sign: ["25.5%"] becomes ["25.5"] and
    ["-5"] becomes ["5"]. The clean-up passes over a text piece by piece,
    changes nothing in a text made of digits and dots, and doing it twice
    is doing it once. Among the updates it touches the variable costs
    alone, and those only when they are a non-empty text. *)
Theorem cleanUpdates_keeps_digits_and_dots (updates : obj) (s : string) :
  Forall (fun c => is_char c "0123456789." = true)
    (chars (keep_digits_and_dots s))
  /\ chars (keep_digits_and_dots s) `sublist_of` chars s
  /\ (forall l, l `sublist_of` chars s ->
                Forall (fun c => is_char c "0123456789." = true) l ->
                l `sublist_of` chars (keep_digits_and_dots s))
  /\ (forall s', keep_digits_and_dots (s +:+ s')
                 = keep_digits_and_dots s +:+ keep_digits_and_dots s')
  /\ keep_digits_and_dots "25.5%" = "25.5"
  /\ keep_digits_and_dots "-5" = "5"
  /\ keep_digits_and_dots (keep_digits_and_dots s) = keep_digits_and_dots s
  /\ (Forall (fun c => is_char c "0123456789." = true) (chars s) ->
      keep_digits_and_dots s = s)
  /\ (forall k, k <> "variableCosts" -> cleanUpdates updates !! k = updates !! k)
  /\ (updates !! "variableCosts" = Some (VStr s) -> s <> EmptyString ->
      cleanUpdates updates !! "variableCosts"
      = Some (VStr (keep_digits_and_dots s)))
  /\ ((forall t, updates.["variableCosts"] <> VStr t) ->
      cleanUpdates updates = updates).
Proof.
  assert (Hfilter : forall l,
             List.filter
               (fun c => match digit_of 10 c with
                         | Some _ => true
                         | None => is_char c "."
                         end) l
             = List.filter (fun c => is_char c "0123456789.") l).
  { intros l. apply List.filter_ext. intros c. apply kept_character. }
  assert (Happ : forall s1 s2,
             list_ascii_of_string (s1 +:+ s2)
             = list_ascii_of_string s1 ++ list_ascii_of_string s2).
  { induction s1 as [|c s1 IH]; intros s2; simpl; [reflexivity|].
    rewrite IH. reflexivity. }
  assert (Hstr : forall l1 l2,
             string_of_list_ascii (l1 ++ l2)
             = string_of_list_ascii l1 +:+ string_of_list_ascii l2).
  { induction l1 as [|c l1 IH]; intros l2; simpl; [reflexivity|].
    rewrite IH. reflexivity. }
  unfold keep_digits_and_dots at 1 2 3, chars.
  rewrite !list_ascii_of_string_of_list_ascii, !Hfilter.
  split; [apply Forall_filter_true|].
  split; [apply filter_sublist|].
  split; [intros l Hl Hall; apply sublist_filter_all; assumption|].
  split.
  { intros s'. unfold keep_digits_and_dots, chars.
    rewrite Happ, List.filter_app, Hstr. reflexivity. }
  split; [vm_compute; reflexivity|].
  split; [vm_compute; reflexivity|].
  unfold keep_digits_and_dots, chars.
  rewrite !list_ascii_of_string_of_list_ascii, !Hfilter.
  split; [rewrite filter_idempotent; reflexivity|].
  split.
  { intros Hall. rewrite (filter_all _ _ Hall).
    apply string_of_list_ascii_of_string. }
  unfold cleanUpdates.
  split; [|split].
  - intros k Hk.
    destruct (truthy updates.["variableCosts"]); [|reflexivity].
    destruct (updates.["variableCosts"]); try reflexivity.
    apply lookup_insert_ne. intros Heq. apply Hk. symmetry. exact Heq.
  - intros Hv Hs. destruct s as [|c s']; [contradiction|].
    unfold get. rewrite Hv. cbn [default from_option id truthy].
    rewrite lookup_insert_eq. unfold keep_digits_and_dots, chars.
    rewrite Hfilter. reflexivity.
  - intros Hv.
    destruct (truthy updates.["variableCosts"]); [|reflexivity].
    destruct (updates.["variableCosts"]) as [| | | |t|]; try reflexivity.
    exfalso. apply (Hv t). reflexivity.
Qed.

Theorem questionAnswerPairs_are_the_answered (questions answers : list string)
    (q a : string) :
  (q, a) ∈ questionAnswerPairs questions answers
  <-> exists i,
        questions !! i = Some q /\ answers !! i = Some a
        /\ trim_string a <> EmptyString.
Proof.
  unfold questionAnswerPairs. rewrite list_elem_of_In, List.filter_In.
  rewrite <- list_elem_of_In, elem_of_lookup_imap. cbn [snd].
  split.
  - intros [(i & q' & Heq & Hq) Hblank]. injection Heq as -> ->.
    exists i. split; [exact Hq|].
    destruct (answers !! i) as [a|]; cbn [default] in *.
    + split; [reflexivity|]. intros Ht. rewrite Ht in Hblank.
      discriminate Hblank.
    + discriminate Hblank.
  - intros (i & Hq & Ha & Hblank). split.
    + exists i, q. rewrite Ha. split; [reflexivity|exact Hq].
    + destruct (String.eqb_spec (trim_string a) EmptyString);
        [contradiction|reflexivity].
Qed.

End AnswerProperties.

(** ** The profit chart *)

Section ChartProperties.
Import JsNum Js Schema Engine Chart.

(** X21: for the projections that the engine generates, the chart finds
    for each month from 1 to 12 the projection of that month; for any
    other month it falls back on the projection of month 12; and for an
    empty list of projections it finds nothing. *)
Theorem chart_month_lookup (project scenario : obj) (month : nat) :
  let a := adjust project scenario in
  let l := Client.generateMonthlyProjections project scenario in
  ((1 <= month <= 12)%nat ->
   monthData l month = Some (projectionOf a (month - 1)))
  /\ (~ (1 <= month <= 12)%nat ->
      monthData l month = Some (projectionOf a 11))
  /\ monthData [] month = None.
Proof.
  intros a l. subst l.
  rewrite Stages.generateMonthlyProjections_stages. fold a.
  split; [|split].
  - intros [H1 H12].
    do 13 (destruct month as [|month]; [first [lia | reflexivity]|]).
    lia.
  - intros Hout.
    destruct month as [|month]; [reflexivity|].
    do 12 (destruct month as [|month]; [lia|]).
    reflexivity.
  - reflexivity.
Qed.

End ChartProperties.

(** ** The storage on the data of the examples *)

Section StorageExamples.
Import JsNum Js Schema Transform Storage StorageMore Examples.

(** Switching the first scenario of the examples off: the row returned is
    the row that a read finds afterwards. *)
Lemma updateScenario_returns_stored_witness :
  let r := updateScenario plainInput exampleUsers noNumberToString
             exampleDatabase 1 (VObj {[ "enabled" := VBool false ]}) in
  exists row', r.2 = Resolved (Some row') /\ getScenarioById r.1 1 = Some row'.
Proof.
  intros r.
  assert (Hresolved : match r.2 with
                      | Resolved (Some _) => true
                      | _ => false
                      end = true) by (vm_compute; reflexivity).
  destruct (r.2) as [[row'|]|] eqn:Hres; try discriminate Hresolved.
  exists row'. split; [reflexivity|]. symmetry.
  exact (proj1 (updateScenario_returns_stored plainInput exampleUsers
                  noNumberToString exampleDatabase 1 _ (Some row') Hres)).
Defined.

(** The same call keeps the name ["Realistic"], stores the flag and resets
    the growth rate, which was ["15"], to ["0"]. *)
Lemma updateScenario_stores_witness :
  let r := updateScenario plainInput exampleUsers noNumberToString
             exampleDatabase 1 (VObj {[ "enabled" := VBool false ]}) in
  exists returned,
    r.2 = Resolved (Some returned)
    /\ realistic !! "growthRate" = Some (VStr "15")
    /\ returned !! "name" = Some (VStr "Realistic")
    /\ returned !! "enabled" = Some (VBool false)
    /\ returned !! "growthRate" = Some (VStr "0").
Proof.
  intros r.
  assert (Hresolved : match r.2 with
                      | Resolved (Some _) => true
                      | _ => false
                      end = true) by (vm_compute; reflexivity).
  destruct (r.2) as [[returned|]|] eqn:Hres; try discriminate Hresolved.
  exists returned. split; [reflexivity|].
  destruct (updateScenario_stores plainInput exampleUsers noNumberToString
              exampleDatabase 1 {[ "enabled" := VBool false ]} returned Hres)
    as (row & Hrow & _ & _ & Hn & He & Hg & _).
  assert (Hname : (getScenarioById exampleDatabase 1 ≫= (.!! "name"))
                  = Some (VStr "Realistic")) by (vm_compute; reflexivity).
  rewrite Hrow in Hname. cbn [mbind option_bind] in Hname.
  assert (Hdn : defined ({[ "enabled" := VBool false ]} : obj).["name"]
                = false) by (vm_compute; reflexivity).
  assert (Hde : defined ({[ "enabled" := VBool false ]} : obj).["enabled"]
                = true) by (vm_compute; reflexivity).
  rewrite Hdn in Hn. rewrite Hde in He. destruct He as [He _].
  split; [vm_compute; reflexivity|].
  split; [rewrite Hn; exact Hname|].
  split.
  - etransitivity; [exact He|]. vm_compute. reflexivity.
  - etransitivity; [exact Hg|]. vm_compute. reflexivity.
Defined.


(** A fourth scenario for the project of the examples, given by its
    project alone; without the project the call throws. *)
Lemma createScenario_inserts_witness :
  let r := createScenario plainInput exampleUsers noNumberToString
             exampleDatabase 4 (VObj {[ "projectId" := VNum (num 1) ]}) in
  (exists row,
     r.2 = Resolved row
     /\ getScenarioById r.1 4 = Some row
     /\ row !! "name" = Some (VStr "Unnamed Scenario")
     /\ row !! "enabled" = Some (VBool true)
     /\ row !! "growthRate" = Some (VStr "0"))
  /\ (createScenario plainInput exampleUsers noNumberToString exampleDatabase 4
        (VObj {[ "name" := VStr "Orphan" ]})).2 = Rejected.
Proof.
  intros r. split.
  - destruct (createScenario_inserts plainInput exampleUsers noNumberToString
                exampleDatabase 4 {[ "projectId" := VNum (num 1) ]})
      as (_ & _ & Hrow).
    fold r in Hrow.
    assert (Hresolved : match r.2 with
                        | Resolved _ => true
                        | Rejected => false
                        end = true) by (vm_compute; reflexivity).
    destruct (r.2) as [row|] eqn:Hres; try discriminate Hresolved.
    exists row. split; [reflexivity|].
    destruct (Hrow row eq_refl)
      as (_ & _ & _ & Hfound & _ & _ & _ & Hn & He & Hg & _).
    split; [exact Hfound|].
    split; [etransitivity; [exact Hn|]; vm_compute; reflexivity|].
    split; [etransitivity; [exact He|]; vm_compute; reflexivity|].
    etransitivity; [apply Hg; vm_compute; reflexivity|].
    vm_compute. reflexivity.
  - destruct (createScenario_inserts plainInput exampleUsers noNumberToString
                exampleDatabase 4 {[ "name" := VStr "Orphan" ]})
      as (_ & Hrejected & _).
    apply Hrejected. vm_compute. reflexivity.
Defined.

(** A second project for the user of the examples. *)
Lemma createProject_inserts_witness :
  let r := createProject plainInput exampleUsers noNumberToString
             exampleDatabase 2 exampleDate exampleDate
             {[ "name" := VStr "Second"; "userId" := VNum (num 1) ]} in
  exists row,
    r.2 = Resolved row
    /\ getProject r.1 2 = Some row
    /\ row !! "name" = Some (VStr "Second")
    /\ row !! "goal" = Some (VStr "No goal specified")
    /\ row !! "initialInvestment" = Some (VStr "0")
    /\ row !! "createdAt" = Some exampleDate
    /\ row !! "lastUpdated" = Some exampleDate.
Proof.
  intros r.
  destruct (createProject_inserts plainInput exampleUsers noNumberToString
              exampleDatabase 2 exampleDate exampleDate
              {[ "name" := VStr "Second"; "userId" := VNum (num 1) ]})
    as (_ & Hrow).
  fold r in Hrow.
  assert (Hresolved : match r.2 with
                      | Resolved _ => true
                      | Rejected => false
                      end = true) by (vm_compute; reflexivity).
  destruct (r.2) as [row|] eqn:Hres; try discriminate Hresolved.
  exists row. split; [reflexivity|].
  destruct (Hrow row eq_refl)
    as (_ & _ & _ & Hfound & _ & _ & Hn & Hg & _ & _ & Hi & _ & _ & _ & _ & _
        & _ & Hsame & Hcreated & _).
  split; [exact Hfound|].
  split; [etransitivity; [exact Hn|]; vm_compute; reflexivity|].
  split; [etransitivity; [exact Hg|]; vm_compute; reflexivity|].
  split.
  { etransitivity; [apply Hi; vm_compute; reflexivity|].
    vm_compute. reflexivity. }
  assert (Hc : row !! "createdAt" = Some exampleDate).
  { etransitivity; [apply Hcreated; reflexivity|]. reflexivity. }
  split; [exact Hc|]. rewrite <- Hsame. exact Hc.
Defined.

End StorageExamples.

(** ** The handlers after a deletion *)

Section DeletedProject.
Import JsNum Js Schema Storage StorageMore Handler.

Lemma getProject_deleteProject (db : Database) (id : Z) :
  getProject (deleteProject db id).1 id = None.
Proof.
  unfold deleteProject, getProject. cbn [fst tbl_projects].
  rewrite (filter_filter_negb (column_eq "id" id)). reflexivity.
Qed.

(** X22: once a project is deleted, the analysis handler and the report
    handler answer a request for it with status 404, whoever asks and
    whatever else the database holds. *)
Theorem deleted_project_is_not_found (db : Database) (userId id : Z)
    (scenarioType : value) :
  id <> 0 ->
  post_api_analysis (deleteProject db id).1 userId id
  = Status 404 "Project not found"
  /\ Report.post_api_report (deleteProject db id).1 userId id scenarioType
     = Report.Status 404 "Project not found".
Proof.
  intros Hid. unfold post_api_analysis, Report.post_api_report.
  destruct (Z.eqb_spec id 0) as [|_]; [contradiction|].
  rewrite getProject_deleteProject. split; reflexivity.
Qed.

Lemma deleted_project_is_not_found_witness :
  post_api_analysis (deleteProject Examples.exampleDatabase 1).1 1 1
  = Status 404 "Project not found"
  /\ Report.post_api_report (deleteProject Examples.exampleDatabase 1).1 1 1
       VUndefined
     = Report.Status 404 "Project not found".
Proof.
  apply deleted_project_is_not_found. discriminate.
Defined.

End DeletedProject.
